(** * iptables feature detection and backend selection

    A shallow embedding of [iptables/feature_detect.go] (package
    [iptables] of Felix) and the properties its specification states
    about it.

    Go strings and byte slices are [string]s (sequences of 8-bit
    characters).  The override map is a [gmap string string].  Everything
    the code asks of its surroundings (spawning a command, looking a binary
    up on the PATH, opening the kernel version source, logging) is recorded
    as an [Event] of a chronological trace, and the answers come from
    oracles that see the trace so far, so an answer may differ from one
    call to the next. *)

From Stdlib Require Import ZArith NArith Ascii String List Bool Lia.
From stdpp Require Import gmap strings list fin_maps.

Local Open Scope Z_scope.

(** ** Versions *)

Module versionparse.

(** Modelled from the spec: package [versionparse] is not part of the
    sources at hand.  A Version is a dotted triplet of non-negative
    integers, immutable once built. *)
Record Version : Type := mkVersion { major : N; minor : N; patch : N }.

(** Modelled from the spec: [Version.Compare], "defined purely over the
    three integer fields", the order being the lexicographic one on
    (major, minor, patch).  The result is negative, zero or positive as
    Go's comparison functions have it. *)
Definition Compare (a b : Version) : Z :=
  match N.compare (major a) (major b) with
  | Lt => -1
  | Gt => 1
  | Eq =>
      match N.compare (minor a) (minor b) with
      | Lt => -1
      | Gt => 1
      | Eq =>
          match N.compare (patch a) (patch b) with
          | Lt => -1
          | Gt => 1
          | Eq => 0
          end
      end
  end.

(** The lexicographic order on triplets, written out on its own as the
    yardstick [Compare] is measured against. *)
Definition lex_lt (a b : Version) : Prop :=
  (major a < major b)%N
  \/ (major a = major b /\ (minor a < minor b)%N)
  \/ (major a = major b /\ minor a = minor b /\ (patch a < patch b)%N).

Definition lex_le (a b : Version) : Prop := lex_lt a b \/ a = b.

End versionparse.

Import versionparse.

(** The package-level version constants: [MustParseVersion] of a literal. *)
(* iptables versions *)
Definition v1Dot4Dot7 : Version := mkVersion 1 4 7.
Definition v1Dot6Dot0 : Version := mkVersion 1 6 0.
Definition v1Dot6Dot2 : Version := mkVersion 1 6 2.
(* Linux kernel versions *)
Definition v3Dot10Dot0 : Version := mkVersion 3 10 0.
Definition v3Dot14Dot0 : Version := mkVersion 3 14 0.
(* the source names this one v5Dot7Dot0 and gives it the value 5.15.0 *)
Definition v5Dot7Dot0 : Version := mkVersion 5 15 0.

(** ** Features *)

Record Features : Type := mkFeatures {
  SNATFullyRandom : bool;
  MASQFullyRandom : bool;
  RestoreSupportsLock : bool;
  ChecksumOffloadBroken : bool
}.

#[global] Instance Features_eq_dec : EqDecision Features.
Proof. solve_decision. Defined.

(** The struct literal of [refreshFeaturesLockHeld]: the flags as computed
    from the two versions, before any override. *)
Definition computeFeatures (iptV kerV : Version) : Features :=
  {| SNATFullyRandom :=
       (Compare iptV v1Dot6Dot0 >=? 0) && (Compare kerV v3Dot14Dot0 >=? 0);
     MASQFullyRandom :=
       (Compare iptV v1Dot6Dot2 >=? 0) && (Compare kerV v3Dot14Dot0 >=? 0);
     RestoreSupportsLock := Compare iptV v1Dot6Dot2 >=? 0;
     ChecksumOffloadBroken := Compare kerV v5Dot7Dot0 <? 0 |}.

(** ** The pieces of Go's library the code calls *)

(** [strconv.ParseBool]: "1", "t", "T", "TRUE", "true", "True" are true,
    "0", "f", "F", "FALSE", "false", "False" are false, anything else is
    an error. *)
Definition ParseBool (str : string) : option bool :=
  if decide (str = "1" \/ str = "t" \/ str = "T" \/ str = "TRUE"
             \/ str = "true" \/ str = "True") then Some true
  else if decide (str = "0" \/ str = "f" \/ str = "F" \/ str = "FALSE"
                  \/ str = "false" \/ str = "False") then Some false
  else None.

(** [reflect.ValueOf(&features).Elem().FieldByName(k)] followed by
    [SetBool]: the struct has four fields, all exported booleans, and a
    name that is none of them gives an invalid [Value]. *)
Definition setField (k : string) (ovr : bool) (f : Features) : option Features :=
  if decide (k = "SNATFullyRandom") then
    Some {| SNATFullyRandom := ovr;
            MASQFullyRandom := MASQFullyRandom f;
            RestoreSupportsLock := RestoreSupportsLock f;
            ChecksumOffloadBroken := ChecksumOffloadBroken f |}
  else if decide (k = "MASQFullyRandom") then
    Some {| SNATFullyRandom := SNATFullyRandom f;
            MASQFullyRandom := ovr;
            RestoreSupportsLock := RestoreSupportsLock f;
            ChecksumOffloadBroken := ChecksumOffloadBroken f |}
  else if decide (k = "RestoreSupportsLock") then
    Some {| SNATFullyRandom := SNATFullyRandom f;
            MASQFullyRandom := MASQFullyRandom f;
            RestoreSupportsLock := ovr;
            ChecksumOffloadBroken := ChecksumOffloadBroken f |}
  else if decide (k = "ChecksumOffloadBroken") then
    Some {| SNATFullyRandom := SNATFullyRandom f;
            MASQFullyRandom := MASQFullyRandom f;
            RestoreSupportsLock := RestoreSupportsLock f;
            ChecksumOffloadBroken := ovr |}
  else None.

(** Reading a field by its name, for stating what an override does. *)
Definition getField (k : string) (f : Features) : option bool :=
  if decide (k = "SNATFullyRandom") then Some (SNATFullyRandom f)
  else if decide (k = "MASQFullyRandom") then Some (MASQFullyRandom f)
  else if decide (k = "RestoreSupportsLock") then Some (RestoreSupportsLock f)
  else if decide (k = "ChecksumOffloadBroken") then Some (ChecksumOffloadBroken f)
  else None.

(** [strings.ToLower].  On text that is all ASCII (every byte below
    [utf8.RuneSelf], 0x80) the letters 'A'..'Z' go to 'a'..'z' and every
    other byte stays.  On any other text Go returns
    [Map(unicode.ToLower, s)], which goes through the Unicode tables and is
    taken here as the parameter [unicodeToLower]. *)
Definition lower_ascii (c : ascii) : ascii :=
  let n := N_of_ascii c in
  if ((65 <=? n) && (n <=? 90))%N then ascii_of_N (n + 32) else c.

Fixpoint isASCII (s : string) : bool :=
  match s with
  | EmptyString => true
  | String c rest => (N_of_ascii c <? 128)%N && isASCII rest
  end.

Fixpoint lowerBytes (s : string) : string :=
  match s with
  | EmptyString => EmptyString
  | String c rest => String (lower_ascii c) (lowerBytes rest)
  end.

Definition ToLower (unicodeToLower : string -> string) (s : string) : string :=
  if isASCII s then lowerBytes s else unicodeToLower s.

(** [bytes.Split(in, []byte("\n"))]: the pieces between the newlines; an
    input of n newlines has n+1 pieces, some of them possibly empty. *)
Definition newline : ascii := ascii_of_N 10.

Fixpoint Split (s : string) : list string :=
  match s with
  | EmptyString => [EmptyString]
  | String c rest =>
      if decide (c = newline) then EmptyString :: Split rest
      else match Split rest with
           | [] => [String c EmptyString]
           | x :: xs => String c x :: xs
           end
  end.

(** [countRulesInIptableOutput].  The count is a Go [int]; it is bounded by
    the number of bytes of the input plus one, so it never wraps. *)
Definition countRulesInIptableOutput (input : string) : Z :=
  fold_left
    (fun count x =>
       match x with
       | String c _ => if decide (c = "-"%char) then count + 1 else count
       | EmptyString => count
       end)
    (Split input) 0.

(** [vXDotYDotZRegexp = regexp.MustCompile(`v(\d+\.\d+\.\d+)`)] and its
    [FindStringSubmatch].  A digit is one of '0'..'9'.  Digits and the dot
    exclude each other, so each [\d+] of a match takes a whole run of
    digits, and the leftmost match is found by trying every 'v' from the
    left. *)
Definition isDigit (c : ascii) : bool :=
  let n := N_of_ascii c in ((48 <=? n) && (n <=? 57))%N.

Fixpoint spanDigits (s : string) : string * string :=
  match s with
  | String c rest =>
      if isDigit c then
        let '(ds, r) := spanDigits rest in (String c ds, r)
      else (EmptyString, s)
  | EmptyString => (EmptyString, EmptyString)
  end.

(** [\d+] at the head of [s]: the digits and what follows them. *)
Definition someDigits (s : string) : option (string * string) :=
  match spanDigits s with
  | (EmptyString, _) => None
  | (ds, r) => Some (ds, r)
  end.

(** [\.] at the head of [s]: what follows it. *)
Definition aDot (s : string) : option string :=
  match s with
  | String c rest => if decide (c = "."%char) then Some rest else None
  | EmptyString => None
  end.

(** [\d+\.\d+\.\d+] anchored at the head of [s]: the text matched. *)
Definition matchXDotYDotZ (s : string) : option string :=
  '(x, r) ← someDigits s;
  r ← aDot r;
  '(y, r) ← someDigits r;
  r ← aDot r;
  '(z, _) ← someDigits r;
  Some (x +:+ "." +:+ y +:+ "." +:+ z).

(** The result is either empty (Go's nil: no match) or the whole match
    followed by the text of the one group. *)
Fixpoint FindStringSubmatch (s : string) : list string :=
  match s with
  | EmptyString => []
  | String c rest =>
      if decide (c = "v"%char) then
        match matchXDotYDotZ rest with
        | Some g => [String c g; g]
        | None => FindStringSubmatch rest
        end
      else FindStringSubmatch rest
  end.

(** ** Effects *)

Inductive Level : Type := DebugLevel | InfoLevel | WarnLevel | PanicLevel.

(** What the code does to the world, one event per call. *)
Inductive Event : Type :=
| EvLookPath (file : string)                      (* lookPath(file) *)
| EvOutput (name : string) (args : list string)   (* newCmd(name, args...).Output() *)
| EvKernelVersionReader                           (* d.GetKernelVersionReader() *)
| EvLog (lvl : Level) (msg : string).             (* a logrus entry *)

#[global] Instance Level_eq_dec : EqDecision Level.
Proof. solve_decision. Defined.
#[global] Instance Event_eq_dec : EqDecision Event.
Proof. solve_decision. Defined.

(** Go's [error]: [None] is nil. *)
Definition error : Type := option string.

(** A call either returns or panics. *)
Inductive Outcome (A : Type) : Type :=
| Returned (a : A)
| Panicked (msg : string).
Arguments Returned {A} a.
Arguments Panicked {A} msg.

#[global] Instance Outcome_fmap : FMap Outcome := fun A B f o =>
  match o with
  | Returned a => Returned (f a)
  | Panicked msg => Panicked msg
  end.

(** A computation takes the trace so far and gives its outcome and the
    trace extended by its own events. *)
Definition IO (A : Type) : Type := list Event -> Outcome A * list Event.

#[global] Instance IO_ret : MRet IO := fun A a tr => (Returned a, tr).
#[global] Instance IO_bind : MBind IO := fun A B k m tr =>
  match m tr with
  | (Returned a, tr') => k a tr'
  | (Panicked msg, tr') => (Panicked msg, tr')
  end.

Definition emit (e : Event) : IO unit := fun tr => (Returned tt, tr ++ [e]).

Definition logAt (lvl : Level) (msg : string) : IO unit := emit (EvLog lvl msg).

(** [logCxt.Panic(msg)]: the entry is logged, then the goroutine panics. *)
Definition logPanic {A : Type} (msg : string) : IO A :=
  fun tr => (Panicked msg, tr ++ [EvLog PanicLevel msg]).

(** The collaborators.  Each is a function of the trace at the time of the
    call, so that no assumption is made on how their answers evolve. *)
Definition lookPathFunc : Type := list Event -> string -> string * error.
Definition cmdFactory : Type := list Event -> string -> list string -> string * error.

Definition callLookPath (lookPath : lookPathFunc) (file : string) : IO (string * error) :=
  fun tr => (Returned (lookPath tr file), tr ++ [EvLookPath file]).

(** [newCmd(name, args...).Output()]: the bytes of standard output and the
    error, both of which Go may give at once. *)
Definition Output (newCmd : cmdFactory) (name : string) (args : list string)
  : IO (string * error) :=
  fun tr => (Returned (newCmd tr name args), tr ++ [EvOutput name args]).

(** The events a computation adds when run after [tr]. *)
Definition result {A : Type} (m : IO A) (tr : list Event) : Outcome A := fst (m tr).
Definition traceAfter {A : Type} (m : IO A) (tr : list Event) : list Event := snd (m tr).

Definition isProbe (e : Event) : bool :=
  match e with
  | EvOutput _ _ | EvKernelVersionReader | EvLookPath _ => true
  | EvLog _ _ => false
  end.

(** ** The feature detector *)

Section Detector.

(** An [io.Reader]; the code only hands it on. *)
Variable Reader : Type.

(** [versionparse.NewVersion] and [versionparse.GetKernelVersion] are not
    part of the sources at hand.  The code depends on whether they fail
    and on the version they give, and on nothing else of them. *)
Variable NewVersion : string -> option Version.
Variable GetKernelVersion : Reader -> option Version.

(** [d.lock] is left out: both exported methods hold it from their first
    statement to their return, so each runs as one step. *)
Record FeatureDetector : Type := mkFeatureDetector {
  featureCache : option Features;
  featureOverride : gmap string string;
  loggedOverrides : bool;
  GetKernelVersionReader : list Event -> option Reader;  (* [None]: a non-nil error *)
  NewCmd : cmdFactory
}.

(** The collaborators of a detector used in production. *)
Variable versionparse_GetKernelVersionReader : list Event -> option Reader.
Variable NewRealCmd : cmdFactory.

Definition NewFeatureDetector (overrides : gmap string string) : FeatureDetector :=
  {| featureCache := None;
     featureOverride := overrides;
     loggedOverrides := false;
     GetKernelVersionReader := versionparse_GetKernelVersionReader;
     NewCmd := NewRealCmd |}.

(** [matches[1]]: Go panics when the index is out of range. *)
Definition index (matches : list string) (i : nat) : IO string :=
  match matches !! i with
  | Some x => mret x
  | None => fun tr => (Panicked "index out of range", tr)
  end.

Definition getIptablesVersion (d : FeatureDetector) : IO Version :=
  '(out, err) ← Output (NewCmd d) "iptables" ["--version"];
  match err with
  | Some _ =>
      logAt WarnLevel "Failed to get iptables version, assuming old version with no optional features";;
      mret v1Dot4Dot7
  | None =>
      let s := out in
      logAt DebugLevel "Ran iptables --version";;
      let matches := FindStringSubmatch s in
      if decide (length matches = 0%nat) then
        logAt WarnLevel "Failed to parse iptables version, assuming old version with no optional features";;
        mret v1Dot4Dot7
      else
        m1 ← index matches 1;
        match NewVersion m1 with
        | None =>
            logAt WarnLevel "Failed to parse iptables version, assuming old version with no optional features";;
            mret v1Dot4Dot7
        | Some parsedVersion =>
            logAt DebugLevel "Parsed iptables version";;
            mret parsedVersion
        end
  end.

Definition getKernelVersion (d : FeatureDetector) : IO Version :=
  reader ← (fun tr => (Returned (GetKernelVersionReader d tr), tr ++ [EvKernelVersionReader]));
  match reader with
  | None =>
      logAt WarnLevel "Failed to get the kernel version reader, assuming old version with no optional features";;
      mret v3Dot10Dot0
  | Some reader =>
      match GetKernelVersion reader with
      | None =>
          logAt WarnLevel "Failed to get kernel version, assuming old version with no optional features";;
          mret v3Dot10Dot0
      | Some kernVersion => mret kernVersion
      end
  end.

(** The body of the loop over [d.featureOverride]. *)
Definition overrideStep (logged : bool) (k v : string) (features : Features)
  : IO Features :=
  match ParseBool v with
  | None =>
      (if logged then mret tt
       else logAt WarnLevel "Failed to parse value for feature detection override; ignoring");;
      mret features
  | Some ovr =>
      match setField k ovr features with
      | Some features' =>
          (if logged then mret tt
           else logAt InfoLevel "Overriding feature detection flag");;
          mret features'
      | None =>
          (if logged then mret tt
           else logAt WarnLevel "Unknown feature detection flag; ignoring");;
          mret features
      end
  end.

(** [for k, v := range d.featureOverride].  Go visits the entries in an
    order of its choosing; [map_fold] visits them in one order, and
    [applyOverrides_any_order] below shows the flags do not depend on it. *)
Definition overrideLoop (logged : bool) (overrides : gmap string string)
    (features : Features) : IO Features :=
  map_fold (fun k v acc => features ← acc; overrideStep logged k v features)
           (mret features) overrides.

Definition refreshFeaturesLockHeld (d : FeatureDetector) : IO FeatureDetector :=
  logAt DebugLevel "Refreshing detected iptables features";;
  iptV ← getIptablesVersion d;
  kerV ← getKernelVersion d;
  let features := computeFeatures iptV kerV in
  features ← overrideLoop (loggedOverrides d) (featureOverride d) features;
  let d := {| featureCache := featureCache d;
              featureOverride := featureOverride d;
              loggedOverrides := true;
              GetKernelVersionReader := GetKernelVersionReader d;
              NewCmd := NewCmd d |} in
  if decide (featureCache d = None \/ featureCache d <> Some features) then
    logAt InfoLevel "Updating detected iptables features";;
    mret {| featureCache := Some features;
            featureOverride := featureOverride d;
            loggedOverrides := loggedOverrides d;
            GetKernelVersionReader := GetKernelVersionReader d;
            NewCmd := NewCmd d |}
  else mret d.

(** The pointer returned is [d.featureCache], [None] being nil. *)
Definition GetFeatures (d : FeatureDetector) : IO (option Features * FeatureDetector) :=
  d ← (if decide (featureCache d = None) then refreshFeaturesLockHeld d else mret d);
  mret (featureCache d, d).

Definition RefreshFeatures (d : FeatureDetector) : IO FeatureDetector :=
  refreshFeaturesLockHeld d.

(** ** The backend selector *)

(** [exec.LookPath], used when the caller passes a nil [lookPath]. *)
Variable exec_LookPath : lookPathFunc.

(** What [strings.ToLower] does to text that is not ASCII. *)
Variable unicodeToLower : string -> string.

(** The loop over the candidates of [findBestBinary]. *)
Fixpoint tryCandidates (lookPath : lookPathFunc) (candidates : list string)
  : IO string :=
  match candidates with
  | [] => logPanic "Failed to find iptables command"
  | candidate :: rest =>
      '(_, err) ← callLookPath lookPath candidate;
      match err with
      | None =>
          logAt InfoLevel "Looked up iptables command";;
          mret candidate
      | Some _ => tryCandidates lookPath rest
      end
  end.

Definition candidatesOf (ipVersion : N) (backendMode saveOrRestore : string)
  : list string :=
  let verInfix := if (ipVersion =? 6)%N then "6" else "" in
  [ "ip" +:+ verInfix +:+ "tables-" +:+ backendMode +:+ "-" +:+ saveOrRestore;
    "ip" +:+ verInfix +:+ "tables-" +:+ saveOrRestore ].

(** [ipVersion] is a [uint8]; only its being 6 or not matters. *)
Definition findBestBinary (lookPath : option lookPathFunc) (ipVersion : N)
    (backendMode saveOrRestore : string) : IO string :=
  let lookPath := match lookPath with
                  | None => exec_LookPath
                  | Some f => f
                  end in
  tryCandidates lookPath (candidatesOf ipVersion backendMode saveOrRestore).

(** The first part of [DetectBackend], up to the value of
    [detectedBackend]. *)
Definition detectedBackendOf (lookPath : option lookPathFunc) (newCmd : cmdFactory)
  : IO string :=
  ip6LgcySave ← findBestBinary lookPath 6 "legacy" "save";
  ip4LgcySave ← findBestBinary lookPath 4 "legacy" "save";
  '(ip6l, _) ← Output newCmd ip6LgcySave [];
  '(ip4l, _) ← Output newCmd ip4LgcySave [];
  logAt DebugLevel "Ip6tables legacy save out";;
  logAt DebugLevel "Iptables legacy save out";;
  let legacyLines := countRulesInIptableOutput ip6l + countRulesInIptableOutput ip4l in
  detectedBackend ←
    (if legacyLines >=? 10 then mret "legacy"
     else
       ip6NftSave ← findBestBinary lookPath 6 "nft" "save";
       ip4NftSave ← findBestBinary lookPath 4 "nft" "save";
       '(ip6n, _) ← Output newCmd ip6NftSave [];
       logAt DebugLevel "Ip6tables save out";;
       '(ip4n, _) ← Output newCmd ip4NftSave [];
       logAt DebugLevel "Iptables save out";;
       let nftLines := countRulesInIptableOutput ip6n + countRulesInIptableOutput ip4n in
       if legacyLines >=? nftLines then mret "legacy" else mret "nft");
  logAt DebugLevel "Detected Iptables backend";;
  mret detectedBackend.

Definition DetectBackend (lookPath : option lookPathFunc) (newCmd : cmdFactory)
    (specifiedBackend : string) : IO string :=
  detectedBackend ← detectedBackendOf lookPath newCmd;
  let specifiedBackend := ToLower unicodeToLower specifiedBackend in
  if decide (specifiedBackend <> "auto") then
    (if decide (specifiedBackend <> detectedBackend) then
       logAt WarnLevel "Iptables backend specified does not match the detected backend, using specified backend"
     else mret tt);;
    mret specifiedBackend
  else mret detectedBackend.

End Detector.

Arguments featureCache {Reader} _.
Arguments featureOverride {Reader} _.
Arguments loggedOverrides {Reader} _.
Arguments GetKernelVersionReader {Reader} _ _.
Arguments NewCmd {Reader} _ _ _ _.
Arguments mkFeatureDetector {Reader} _ _ _ _ _.
Arguments NewFeatureDetector {Reader} _ _ _.
Arguments getIptablesVersion {Reader} _ _.
Arguments getKernelVersion {Reader} _ _.
Arguments refreshFeaturesLockHeld {Reader} _ _ _.
Arguments GetFeatures {Reader} _ _ _.
Arguments RefreshFeatures {Reader} _ _ _.

(** ** What the loop over the overrides does to the flags *)

(** One entry of the override map, effects left aside. *)
Definition applyOverride (k v : string) (features : Features) : Features :=
  match ParseBool v with
  | None => features
  | Some ovr => default features (setField k ovr features)
  end.

Definition applyOverrides (overrides : gmap string string) (features : Features)
  : Features :=
  map_fold applyOverride features overrides.

Definition isLog (e : Event) : Prop := isProbe e = false.

Definition isOutput (e : Event) : bool :=
  match e with EvOutput _ _ => true | _ => false end.

(** The names a legacy-mode lookup or run may mention. *)
Definition legacyCandidates : list string :=
  ["ip6tables-legacy-save"; "ip6tables-save"; "iptables-legacy-save"; "iptables-save"].

(** The two names only an nft-mode lookup or run mentions. *)
Definition mentionsNft (e : Event) : Prop :=
  match e with
  | EvLookPath f | EvOutput f _ => f = "ip6tables-nft-save" \/ f = "iptables-nft-save"
  | _ => False
  end.

(** The version the tool probe settles on, given what the command gave. *)
Definition iptablesVersionFrom (NewVersion : string -> option Version)
    (r : string * error) : Version :=
  match r.2 with
  | Some _ => v1Dot4Dot7
  | None =>
      match FindStringSubmatch r.1 with
      | [_; g] => default v1Dot4Dot7 (NewVersion g)
      | _ => v1Dot4Dot7
      end
  end.

Definition kernelVersionFrom {Reader : Type} (GetKernelVersion : Reader -> option Version)
    (r : option Reader) : Version :=
  match r with
  | None => v3Dot10Dot0
  | Some reader => default v3Dot10Dot0 (GetKernelVersion reader)
  end.

(** The detector a refresh leaves behind when the flags come out as [f]. *)
Definition refreshed {Reader : Type} (d : FeatureDetector Reader) (f : Features)
  : FeatureDetector Reader :=
  {| featureCache := Some f;
     featureOverride := featureOverride d;
     loggedOverrides := true;
     GetKernelVersionReader := GetKernelVersionReader d;
     NewCmd := NewCmd d |}.

Definition probingCycle : list Event :=
  [EvOutput "iptables" ["--version"]; EvKernelVersionReader].

(** A line that is a rule: its first character is '-'. *)
Definition startsWithDash (line : string) : bool :=
  match line with
  | String c _ => if decide (c = "-"%char) then true else false
  | EmptyString => false
  end.

(** A text that is a single line. *)
Fixpoint noNewline (s : string) : bool :=
  match s with
  | EmptyString => true
  | String c rest => if decide (c = newline) then false else noNewline rest
  end.

(** The two candidates of [findBestBinary], by name. *)
Definition specificName (ipVersion : N) (backendMode saveOrRestore : string) : string :=
  "ip" +:+ (if (ipVersion =? 6)%N then "6" else "") +:+ "tables-" +:+ backendMode
  +:+ "-" +:+ saveOrRestore.

Definition genericName (ipVersion : N) (saveOrRestore : string) : string :=
  "ip" +:+ (if (ipVersion =? 6)%N then "6" else "") +:+ "tables-" +:+ saveOrRestore.

(** The resolver [findBestBinary] ends up calling. *)
Definition resolverOf (exec_LookPath : lookPathFunc) (lookPath : option lookPathFunc)
  : lookPathFunc :=
  match lookPath with
  | None => exec_LookPath
  | Some f => f
  end.

Definition lookedUp : Event := EvLog InfoLevel "Looked up iptables command".

Definition mismatchWarning : Event :=
  EvLog WarnLevel
    "Iptables backend specified does not match the detected backend, using specified backend".

(** ** Sample collaborators, for running the definitions *)

Module Sample.

(** A decimal number, all of [s]. *)
Fixpoint decimal (acc : N) (s : string) : option N :=
  match s with
  | EmptyString => Some acc
  | String c rest =>
      if isDigit c then decimal (10 * acc + (N_of_ascii c - 48))%N rest else None
  end.

(** Modelled from the spec: [versionparse.NewVersion], which "accepts a
    numeric X.Y.Z token". *)
Definition NewVersion (s : string) : option Version :=
  '(x, r) ← someDigits s;
  r ← aDot r;
  '(y, r) ← someDigits r;
  r ← aDot r;
  '(z, r) ← someDigits r;
  if decide (r = EmptyString) then
    x ← decimal 0 x; y ← decimal 0 y; z ← decimal 0 z;
    Some (mkVersion x y z)
  else None.

(** A reader is the text it yields, and the kernel version is that text
    when it is a triplet. *)
Definition GetKernelVersion (reader : string) : option Version := NewVersion reader.

(** A command runner that answers by name from a table, whatever came
    before; a name that is not in the table fails with no output. *)
Definition cmdTable (table : list (string * (string * error))) : cmdFactory :=
  fun _ name _ =>
    match list_find (fun e => e.1 = name) table with
    | Some (_, (_, r)) => r
    | None => (EmptyString, Some "executable file not found")
    end.

(** A resolver that finds the names of a list. *)
Definition pathTable (present : list string) : lookPathFunc :=
  fun _ file =>
    if decide (file ∈ present) then ("/usr/sbin/" +:+ file, None)
    else (EmptyString, Some "executable file not found in $PATH").

(** The sample texts are ASCII, so this is never called on them. *)
Definition unicodeToLower (s : string) : string := s.

Definition nl : string := String newline EmptyString.

(** Three rules, among lines that are not rules. *)
Definition save3 : string :=
  "# Generated by iptables-save" +:+ nl +:+ "*filter" +:+ nl +:+
  ":INPUT ACCEPT [0:0]" +:+ nl +:+
  "-A INPUT -j ACCEPT" +:+ nl +:+ "-A FORWARD -j DROP" +:+ nl +:+ nl +:+
  "-A OUTPUT -j ACCEPT" +:+ nl +:+ "COMMIT" +:+ nl.

Definition save7 : string :=
  save3 +:+ save3 +:+ "-A INPUT -p tcp -j ACCEPT" +:+ nl.

Definition save12 : string := save3 +:+ save3 +:+ save3 +:+ save3.

(** A host with all the binaries. *)
Definition allBinaries : lookPathFunc :=
  pathTable ["ip6tables-legacy-save"; "iptables-legacy-save";
             "ip6tables-nft-save"; "iptables-nft-save";
             "ip6tables-save"; "iptables-save"].

(** Legacy total 3, nft total 7. *)
Definition cmd3vs7 : cmdFactory :=
  cmdTable [("ip6tables-legacy-save", (EmptyString, None));
            ("iptables-legacy-save", (save3, None));
            ("ip6tables-nft-save", (EmptyString, Some "exit status 1"));
            ("iptables-nft-save", (save7, None))].

(** What the detection leaves in an empty trace on that host with
    [cmd3vs7]. *)
Definition trace3vs7 : list Event :=
  [EvLookPath "ip6tables-legacy-save"; lookedUp;
   EvLookPath "iptables-legacy-save"; lookedUp;
   EvOutput "ip6tables-legacy-save" []; EvOutput "iptables-legacy-save" [];
   EvLog DebugLevel "Ip6tables legacy save out";
   EvLog DebugLevel "Iptables legacy save out";
   EvLookPath "ip6tables-nft-save"; lookedUp;
   EvLookPath "iptables-nft-save"; lookedUp;
   EvOutput "ip6tables-nft-save" []; EvLog DebugLevel "Ip6tables save out";
   EvOutput "iptables-nft-save" []; EvLog DebugLevel "Iptables save out";
   EvLog DebugLevel "Detected Iptables backend"].

(** Legacy total 12. *)
Definition cmd12 : cmdFactory :=
  cmdTable [("ip6tables-legacy-save", (save3, None));
            ("iptables-legacy-save", (save3 +:+ save3 +:+ save3, None));
            ("ip6tables-nft-save", (save12, None));
            ("iptables-nft-save", (save12, None))].

(** A detector on a recent host: iptables 1.8.4, kernel 5.15.0. *)
Definition recentHost (overrides : gmap string string) : FeatureDetector string :=
  {| featureCache := None;
     featureOverride := overrides;
     loggedOverrides := false;
     GetKernelVersionReader := fun _ => Some "5.15.0";
     NewCmd := cmdTable [("iptables", ("iptables v1.8.4 (legacy)", None))] |}.

(** A detector on a host where both probes fail. *)
Definition brokenHost : FeatureDetector string :=
  {| featureCache := None;
     featureOverride := ∅;
     loggedOverrides := false;
     GetKernelVersionReader := fun _ => None;
     NewCmd := cmdTable [] |}.

(** The recent host once its cache is filled. *)
Definition warmHost : FeatureDetector string :=
  refreshed (recentHost ∅) (mkFeatures true true true false).

End Sample.

(** ** Vocabulary for the further properties *)

(** The three messages of the loop over the overrides. *)
Definition overrideMessages : list string :=
  ["Failed to parse value for feature detection override; ignoring";
   "Overriding feature detection flag";
   "Unknown feature detection flag; ignoring"].

Definition isOverrideLog (e : Event) : bool :=
  match e with
  | EvLog _ msg => bool_decide (msg ∈ overrideMessages)
  | _ => false
  end.

(** The notice of a change of the cache. *)
Definition changeNotice : Event := EvLog InfoLevel "Updating detected iptables features".

(** A log entry that is neither about an override nor the change notice. *)
Definition plainLog (e : Event) : bool :=
  negb (isProbe e) && negb (isOverrideLog e) && negb (bool_decide (e = changeNotice)).

Definition isLookPath (e : Event) : bool :=
  match e with EvLookPath _ => true | _ => false end.

(** The two exported methods of a detector, and a run of them one after
    the other on the same detector. *)
Inductive Op : Type := OpGetFeatures | OpRefreshFeatures.

#[global] Instance Op_eq_dec : EqDecision Op.
Proof. solve_decision. Defined.

Definition isRefresh (op : Op) : bool :=
  match op with OpRefreshFeatures => true | OpGetFeatures => false end.

Fixpoint runOps {Reader : Type} (NewVersion : string -> option Version)
    (GetKernelVersion : Reader -> option Version) (ops : list Op)
    (d : FeatureDetector Reader) : IO (FeatureDetector Reader) :=
  match ops with
  | [] => mret d
  | OpGetFeatures :: rest =>
      r ← GetFeatures NewVersion GetKernelVersion d;
      runOps NewVersion GetKernelVersion rest r.2
  | OpRefreshFeatures :: rest =>
      d' ← RefreshFeatures NewVersion GetKernelVersion d;
      runOps NewVersion GetKernelVersion rest d'
  end.

Definition cacheFilled {Reader : Type} (d : FeatureDetector Reader) : bool :=
  match featureCache d with
  | Some _ => true
  | None => false
  end.

(** The number of probing cycles a run of methods is to make: one for each
    [RefreshFeatures], and one for a [GetFeatures] that finds no cache. *)
Fixpoint cyclesOf (filled : bool) (ops : list Op) : nat :=
  match ops with
  | [] => 0
  | OpGetFeatures :: rest => (if filled then 0 else 1) + cyclesOf true rest
  | OpRefreshFeatures :: rest => 1 + cyclesOf true rest
  end.

(** The loop over the overrides, the entries taken in the order of a list. *)
Definition overrideLoopIn (logged : bool) (entries : list (string * string))
    (features : Features) : IO Features :=
  foldr (fun kv acc => features ← acc; overrideStep logged kv.1 kv.2 features)
        (mret features) entries.

(** The number of '-' among the bytes of a text. *)
Fixpoint dashes (s : string) : nat :=
  match s with
  | EmptyString => 0
  | String c rest => (if decide (c = "-"%char) then 1 else 0) + dashes rest
  end.

(** A text made of digits only, and one with no 'v'. *)
Fixpoint allDigits (s : string) : bool :=
  match s with
  | EmptyString => true
  | String c rest => isDigit c && allDigits rest
  end.

Definition isNumber (s : string) : Prop := s <> EmptyString /\ allDigits s = true.

Definition startsWithDigit (s : string) : bool :=
  match s with
  | String c _ => isDigit c
  | EmptyString => false
  end.

Fixpoint noV (s : string) : bool :=
  match s with
  | EmptyString => true
  | String c rest => (if decide (c = "v"%char) then false else true) && noV rest
  end.

(** The name [c] was looked up and found during a call that started at
    the trace [tr] and has reached the trace [tr']: at some point [h] of
    the call the resolver answered for [c] with no error, and the lookup
    and its log entry follow [h] in [tr']. *)
Definition resolvedAt (exec_LookPath : lookPathFunc) (lookPath : option lookPathFunc)
    (tr tr' : list Event) (c : string) : Prop :=
  exists h,
    tr `prefix_of` h
    /\ (h ++ [EvLookPath c; lookedUp]) `prefix_of` tr'
    /\ (resolverOf exec_LookPath lookPath h c).2 = None.

(** Further hosts to run the definitions on. *)
Module Host.

(** A detector whose cache holds the flags of an old host. *)
Definition staleHost : FeatureDetector string :=
  {| featureCache := Some (mkFeatures false false false true);
     featureOverride := {[ "MASQFullyRandom" := "maybe" ]};
     loggedOverrides := true;
     GetKernelVersionReader := fun _ => Some "5.15.0";
     NewCmd := Sample.cmdTable [("iptables", ("iptables v1.8.4 (legacy)", None))] |}.

(** A command runner that gives the output of [Sample.cmd3vs7] and fails
    every time. *)
Definition cmd3vs7Failing : cmdFactory :=
  fun tr name args => ((Sample.cmd3vs7 tr name args).1, Some "exit status 1").

End Host.

(** ** The definitions at work *)

Example regexp_on_banner :
  FindStringSubmatch "iptables v1.8.4 (nf_tables)" = ["v1.8.4"; "1.8.4"].
Proof. reflexivity. Qed.

Example regexp_leftmost_match :
  FindStringSubmatch "v1. v1.2. v10.20.30abc v1.2.3" = ["v10.20.30"; "10.20.30"].
Proof. reflexivity. Qed.

Example regexp_no_match :
  FindStringSubmatch "iptables V1.8.4" = [] /\ FindStringSubmatch "" = [].
Proof. split; reflexivity. Qed.

Example constants_as_parsed :
  Sample.NewVersion "1.4.7" = Some v1Dot4Dot7
  /\ Sample.NewVersion "1.6.0" = Some v1Dot6Dot0
  /\ Sample.NewVersion "1.6.2" = Some v1Dot6Dot2
  /\ Sample.NewVersion "3.10.0" = Some v3Dot10Dot0
  /\ Sample.NewVersion "3.14.0" = Some v3Dot14Dot0
  /\ Sample.NewVersion "5.15.0" = Some v5Dot7Dot0.
Proof. repeat split; vm_compute; reflexivity. Qed.

Example ParseBool_values :
  map ParseBool ["1"; "t"; "T"; "TRUE"; "true"; "True"] = replicate 6 (Some true)
  /\ map ParseBool ["0"; "f"; "F"; "FALSE"; "false"; "False"] = replicate 6 (Some false)
  /\ map ParseBool ["maybe"; "tRUE"; "yes"; ""] = replicate 4 None.
Proof. repeat split; vm_compute; reflexivity. Qed.

Example ToLower_ascii (unicodeToLower : string -> string) :
  ToLower unicodeToLower "Auto-NFT_[z]@`{" = "auto-nft_[z]@`{".
Proof. reflexivity. Qed.

Example Split_pieces :
  Split EmptyString = [EmptyString]
  /\ Split ("-A" +:+ Sample.nl +:+ Sample.nl +:+ "-B") = ["-A"; EmptyString; "-B"]
  /\ Split ("-A" +:+ Sample.nl) = ["-A"; EmptyString].
Proof. repeat split; reflexivity. Qed.

Example count_of_samples :
  map countRulesInIptableOutput [Sample.save3; Sample.save7; Sample.save12; EmptyString]
  = [3; 7; 12; 0].
Proof. vm_compute. reflexivity. Qed.

Example sample_refresh :
  featureCache <$> result (RefreshFeatures Sample.NewVersion Sample.GetKernelVersion
                             (Sample.recentHost {[ "SNATFullyRandom" := "false" ]})) []
  = Returned (Some (mkFeatures false true true false)).
Proof. vm_compute. reflexivity. Qed.

(** ** Versions: [Compare] against the lexicographic order *)

Lemma Compare_lt0_iff (a b : Version) : (Compare a b <? 0) = true <-> lex_lt a b.
Proof.
  destruct a as [a1 a2 a3], b as [b1 b2 b3].
  unfold Compare, lex_lt; simpl.
  destruct (N.compare_spec a1 b1) as [E1|L1|G1];
    [destruct (N.compare_spec a2 b2) as [E2|L2|G2];
       [destruct (N.compare_spec a3 b3) as [E3|L3|G3]| |]| |];
    simpl; split; intros H; try reflexivity; try discriminate; try lia;
    try (right; left; split; assumption);
    try (right; right; repeat split; assumption);
    try (left; assumption).
Qed.

Lemma Compare_ge0_iff (a b : Version) : (Compare a b >=? 0) = true <-> lex_le b a.
Proof.
  destruct a as [a1 a2 a3], b as [b1 b2 b3].
  unfold Compare, lex_le, lex_lt; simpl.
  destruct (N.compare_spec a1 b1) as [E1|L1|G1];
    [destruct (N.compare_spec a2 b2) as [E2|L2|G2];
       [destruct (N.compare_spec a3 b3) as [E3|L3|G3]| |]| |];
    simpl; split; intros H; try reflexivity; try discriminate; subst.
  - right; reflexivity.
  - destruct H as [[H|[[? H]|[? [? H]]]]|H]; try lia. inversion H; lia.
  - left; right; right; repeat split; assumption.
  - destruct H as [[H|[[? H]|[? [? H]]]]|H]; try lia. inversion H; lia.
  - left; right; left; split; [reflexivity|assumption].
  - destruct H as [[H|[[? H]|[? [? H]]]]|H]; try lia. inversion H; lia.
  - left; left; assumption.
Qed.

(** [Compare] orders the versions totally: exactly one of less, equal and
    greater holds, and the sign of [Compare] says which. *)
Lemma Compare_trichotomy (a b : Version) :
  (Compare a b = -1 /\ lex_lt a b) \/ (Compare a b = 0 /\ a = b)
  \/ (Compare a b = 1 /\ lex_lt b a).
Proof.
  destruct a as [a1 a2 a3], b as [b1 b2 b3].
  unfold Compare, lex_lt; simpl.
  destruct (N.compare_spec a1 b1) as [E1|L1|G1];
    [destruct (N.compare_spec a2 b2) as [E2|L2|G2];
       [destruct (N.compare_spec a3 b3) as [E3|L3|G3]| |]| |]; subst.
  - right; left; split; reflexivity.
  - left; split; [reflexivity|]. right; right; repeat split; assumption.
  - right; right; split; [reflexivity|]. right; right; repeat split; assumption.
  - left; split; [reflexivity|]. right; left; split; [reflexivity|assumption].
  - right; right; split; [reflexivity|]. right; left; split; [reflexivity|assumption].
  - left; split; [reflexivity|]. left; assumption.
  - right; right; split; [reflexivity|]. left; assumption.
Qed.

(** ** Overrides: what a fold over the map leaves in each flag *)

Lemma getField_setField_same (k : string) (b : bool) (f f' : Features) :
  setField k b f = Some f' -> getField k f' = Some b.
Proof.
  unfold setField, getField.
  repeat case_decide; intros Hs; inversion Hs; subst; simpl; congruence.
Qed.

Lemma getField_setField_other (k n : string) (b : bool) (f f' : Features) :
  n <> k -> setField k b f = Some f' -> getField n f' = getField n f.
Proof.
  unfold setField, getField. intros Hne.
  repeat case_decide; intros Hs; inversion Hs; subst; simpl; congruence.
Qed.

Lemma setField_None_getField (k : string) (b : bool) (f : Features) :
  setField k b f = None <-> getField k f = None.
Proof.
  unfold setField, getField. repeat case_decide; split; congruence.
Qed.

Lemma getField_None_any (k : string) (f g : Features) :
  getField k f = None -> getField k g = None.
Proof. unfold getField. repeat case_decide; congruence. Qed.

(** Two records with the same four flags are equal. *)
Lemma Features_ext (f g : Features) :
  (forall n, getField n f = getField n g) -> f = g.
Proof.
  intros H. destruct f as [a b c d], g as [a' b' c' d'].
  pose proof (H "SNATFullyRandom") as H1.
  pose proof (H "MASQFullyRandom") as H2.
  pose proof (H "RestoreSupportsLock") as H3.
  pose proof (H "ChecksumOffloadBroken") as H4.
  vm_compute in H1, H2, H3, H4. congruence.
Qed.

Lemma getField_applyOverride (k v n : string) (f : Features) :
  getField n (applyOverride k v f) =
  if decide (n = k) then
    match getField n f with
    | None => None
    | Some old => Some (default old (ParseBool v))
    end
  else getField n f.
Proof.
  unfold applyOverride. case_decide as Hn.
  - subst n. destruct (ParseBool v) as [b|]; simpl.
    + destruct (setField k b f) as [f'|] eqn:Hs; simpl.
      * rewrite (getField_setField_same _ _ _ _ Hs).
        destruct (getField k f) eqn:Hg; [reflexivity|].
        apply setField_None_getField with (b := b) in Hg. congruence.
      * apply setField_None_getField in Hs. rewrite Hs. reflexivity.
    + destruct (getField k f); reflexivity.
  - destruct (ParseBool v) as [b|]; simpl; [|reflexivity].
    destruct (setField k b f) as [f'|] eqn:Hs; simpl; [|reflexivity].
    eapply getField_setField_other; eassumption.
Qed.

(** After the loop, a flag holds the parsed value of its entry when the map
    has one that parses, and what it held before otherwise. *)
Lemma getField_applyOverrides (m : gmap string string) (f : Features) (n : string) :
  getField n (applyOverrides m f) =
  match getField n f with
  | None => None
  | Some old => Some (default old (m !! n ≫= ParseBool))
  end.
Proof.
  unfold applyOverrides.
  apply (map_fold_weak_ind
           (fun r m => getField n r =
              match getField n f with
              | None => None
              | Some old => Some (default old (m !! n ≫= ParseBool))
              end)).
  - rewrite lookup_empty. simpl. destruct (getField n f); reflexivity.
  - intros i x m0 r Hi IH.
    rewrite getField_applyOverride, IH.
    case_decide as Hn.
    + subst i. rewrite lookup_insert_eq, Hi. simpl.
      destruct (getField n f); [|reflexivity].
      destruct (ParseBool x); reflexivity.
    + rewrite lookup_insert_ne by congruence. reflexivity.
Qed.

(** ** Running computations *)

Ltac io_unfold :=
  unfold mbind, IO_bind, mret, IO_ret, logAt, emit, logPanic, Output, callLookPath in *.

Ltac trace_norm := repeat rewrite <- app_assoc; simpl.

Lemma bind_run {A B : Type} (m : IO A) (k : A -> IO B) (tr tr1 : list Event) (a : A) :
  m tr = (Returned a, tr1) -> (m ≫= k) tr = k a tr1.
Proof. intros H. unfold mbind, IO_bind. rewrite H. reflexivity. Qed.

Lemma bind_Returned {A B : Type} (m : IO A) (k : A -> IO B) (tr tr' : list Event) (b : B) :
  (m ≫= k) tr = (Returned b, tr') ->
  exists a tr1, m tr = (Returned a, tr1) /\ k a tr1 = (Returned b, tr').
Proof.
  unfold mbind, IO_bind. destruct (m tr) as [[a|msg] tr1]; intros H.
  - exists a, tr1. split; [reflexivity|assumption].
  - discriminate.
Qed.

Lemma bind_Panicked {A B : Type} (m : IO A) (k : A -> IO B) (tr tr' : list Event)
    (msg : string) :
  (m ≫= k) tr = (Panicked msg, tr') ->
  m tr = (Panicked msg, tr')
  \/ exists a tr1, m tr = (Returned a, tr1) /\ k a tr1 = (Panicked msg, tr').
Proof.
  unfold mbind, IO_bind. destruct (m tr) as [[a|msg'] tr1]; intros H.
  - right. exists a, tr1. split; [reflexivity|assumption].
  - left. inversion H; subst. reflexivity.
Qed.

Lemma filter_isProbe_logs (logs : list Event) :
  Forall isLog logs -> List.filter isProbe logs = [].
Proof.
  induction 1 as [|e l He _ IH]; simpl; [reflexivity|].
  unfold isLog in He. rewrite He. assumption.
Qed.

Lemma filter_isOutput_logs (logs : list Event) :
  Forall isLog logs -> List.filter isOutput logs = [].
Proof.
  induction 1 as [|e l He _ IH]; simpl; [reflexivity|].
  destruct e; simpl in *; try discriminate He; assumption.
Qed.

Lemma isLog_not_mentionsNft (e : Event) : isLog e -> ~ mentionsNft e.
Proof. destruct e; simpl; intros H; try discriminate H; tauto. Qed.

(** *** The tool and kernel probes *)

Lemma FindStringSubmatch_shape (s : string) :
  FindStringSubmatch s = [] \/ exists w g, FindStringSubmatch s = [w; g].
Proof.
  induction s as [|c rest IH]; simpl; [left; reflexivity|].
  case_decide; [|assumption].
  destruct (matchXDotYDotZ rest) as [g|]; [right; eauto|assumption].
Qed.

Lemma getIptablesVersion_run {Reader : Type} (NewVersion : string -> option Version)
    (d : FeatureDetector Reader) (tr : list Event) :
  exists logs,
    getIptablesVersion NewVersion d tr
    = (Returned (iptablesVersionFrom NewVersion (NewCmd d tr "iptables" ["--version"])),
       tr ++ EvOutput "iptables" ["--version"] :: logs)
    /\ Forall isLog logs.
Proof.
  unfold getIptablesVersion, iptablesVersionFrom, index. io_unfold.
  destruct (NewCmd d tr "iptables" ["--version"]) as [out [e|]]; simpl.
  - eexists. trace_norm. split; [reflexivity|]. repeat constructor.
  - destruct (FindStringSubmatch_shape out) as [E|(w & g & E)]; rewrite E; simpl.
    + eexists. trace_norm. split; [reflexivity|]. repeat constructor.
    + destruct (NewVersion g) as [v|]; simpl;
        eexists; trace_norm; (split; [reflexivity|]); repeat constructor.
Qed.

Lemma getKernelVersion_run {Reader : Type} (GetKernelVersion : Reader -> option Version)
    (d : FeatureDetector Reader) (tr : list Event) :
  exists logs,
    getKernelVersion GetKernelVersion d tr
    = (Returned (kernelVersionFrom GetKernelVersion (GetKernelVersionReader d tr)),
       tr ++ EvKernelVersionReader :: logs)
    /\ Forall isLog logs.
Proof.
  unfold getKernelVersion, kernelVersionFrom. io_unfold.
  destruct (GetKernelVersionReader d tr) as [reader|]; simpl.
  - destruct (GetKernelVersion reader) as [v|]; simpl;
      eexists; trace_norm; (split; [reflexivity|]); repeat constructor.
  - eexists. trace_norm. split; [reflexivity|]. repeat constructor.
Qed.

(** *** The loop over the overrides *)

Lemma overrideStep_run (logged : bool) (k v : string) (f : Features) (tr : list Event) :
  exists logs,
    overrideStep logged k v f tr = (Returned (applyOverride k v f), tr ++ logs)
    /\ Forall isLog logs.
Proof.
  unfold overrideStep, applyOverride. io_unfold.
  destruct (ParseBool v) as [b|]; [destruct (setField k b f) as [f'|]|];
    destruct logged; simpl;
    first [ exists []; rewrite app_nil_r; split; [reflexivity|constructor]
          | eexists; split; [reflexivity|]; repeat constructor ].
Qed.

Lemma overrideLoop_run (logged : bool) (m : gmap string string) (f : Features)
    (tr : list Event) :
  exists logs,
    overrideLoop logged m f tr = (Returned (applyOverrides m f), tr ++ logs)
    /\ Forall isLog logs.
Proof.
  unfold overrideLoop, applyOverrides.
  induction m as [|i x m Hi Hfirst IH] using map_first_key_ind.
  - rewrite !map_fold_empty. exists []. rewrite app_nil_r.
    split; [reflexivity|constructor].
  - rewrite !map_fold_insert_first_key by assumption.
    destruct IH as (logs & E & Hlogs).
    rewrite (bind_run _ _ _ _ _ E).
    destruct (overrideStep_run logged i x (map_fold applyOverride f m) (tr ++ logs))
      as (logs' & E' & Hlogs').
    exists (logs ++ logs'). rewrite app_assoc. split; [assumption|].
    apply Forall_app; split; assumption.
Qed.

(** *** A refresh *)

Lemma refreshFeaturesLockHeld_run {Reader : Type}
    (NewVersion : string -> option Version) (GetKernelVersion : Reader -> option Version)
    (d : FeatureDetector Reader) (tr : list Event) :
  exists iptV kerV tr1 tr2 evs,
    getIptablesVersion NewVersion d
      (tr ++ [EvLog DebugLevel "Refreshing detected iptables features"])
    = (Returned iptV, tr1)
    /\ getKernelVersion GetKernelVersion d tr1 = (Returned kerV, tr2)
    /\ refreshFeaturesLockHeld NewVersion GetKernelVersion d tr
       = (Returned (refreshed d (applyOverrides (featureOverride d)
                                   (computeFeatures iptV kerV))),
          tr ++ evs)
    /\ List.filter isProbe evs = probingCycle.
Proof.
  set (tr0 := tr ++ [EvLog DebugLevel "Refreshing detected iptables features"]).
  destruct (getIptablesVersion_run NewVersion d tr0) as (logs1 & E1 & H1).
  set (iptV := iptablesVersionFrom NewVersion (NewCmd d tr0 "iptables" ["--version"])) in *.
  set (tr1 := tr0 ++ EvOutput "iptables" ["--version"] :: logs1) in *.
  destruct (getKernelVersion_run GetKernelVersion d tr1) as (logs2 & E2 & H2).
  set (kerV := kernelVersionFrom GetKernelVersion (GetKernelVersionReader d tr1)) in *.
  set (tr2 := tr1 ++ EvKernelVersionReader :: logs2) in *.
  destruct (overrideLoop_run (loggedOverrides d) (featureOverride d)
              (computeFeatures iptV kerV) tr2) as (logs3 & E3 & H3).
  set (f := applyOverrides (featureOverride d) (computeFeatures iptV kerV)) in *.
  assert (Hshape : forall logs4, Forall isLog logs4 ->
            exists evs, (tr2 ++ logs3) ++ logs4 = tr ++ evs
                        /\ List.filter isProbe evs = probingCycle).
  { intros logs4 H4.
    exists ([EvLog DebugLevel "Refreshing detected iptables features"]
            ++ (EvOutput "iptables" ["--version"] :: logs1)
            ++ (EvKernelVersionReader :: logs2) ++ logs3 ++ logs4).
    split.
    - unfold tr2, tr1, tr0. repeat rewrite <- app_assoc. reflexivity.
    - simpl. rewrite !List.filter_app. simpl. rewrite !List.filter_app.
      rewrite !filter_isProbe_logs by assumption. reflexivity. }
  unfold refreshFeaturesLockHeld.
  rewrite (bind_run (logAt DebugLevel "Refreshing detected iptables features") _ tr tr0 tt)
    by reflexivity.
  rewrite (bind_run _ _ _ _ _ E1).
  rewrite (bind_run _ _ _ _ _ E2).
  rewrite (bind_run _ _ _ _ _ E3).
  fold f. simpl.
  case_decide as Hc.
  - destruct (Hshape [EvLog InfoLevel "Updating detected iptables features"])
      as (evs & Hevs & Hf); [repeat constructor|].
    exists iptV, kerV, tr1, tr2, evs. rewrite <- Hevs.
    repeat split; try assumption.
  - destruct (Hshape []) as (evs & Hevs & Hf); [constructor|].
    rewrite app_nil_r in Hevs.
    exists iptV, kerV, tr1, tr2, evs. rewrite <- Hevs.
    repeat split; try assumption.
    unfold mret, IO_ret, refreshed. do 2 f_equal.
    destruct (featureCache d) as [c|] eqn:Ec.
    + destruct (decide (c = f)) as [->|Hne]; [reflexivity|].
      exfalso. apply Hc. right. congruence.
    + exfalso. apply Hc. left. reflexivity.
Qed.

(** The flags do not depend on the order in which the entries are visited:
    any enumeration of the map gives what [map_fold] gives. *)
Lemma getField_foldr_overrides (l : list (string * string)) (f : Features) (n : string) :
  NoDup l.*1 ->
  getField n (foldr (fun kv acc => applyOverride kv.1 kv.2 acc) f l) =
  match getField n f with
  | None => None
  | Some old => Some (default old ((list_to_map l : gmap string string) !! n ≫= ParseBool))
  end.
Proof.
  induction l as [|[k v] l IH]; simpl; intros Hnd.
  - rewrite lookup_empty. simpl. destruct (getField n f); reflexivity.
  - apply NoDup_cons in Hnd as [Hk Hnd].
    rewrite getField_applyOverride, (IH Hnd).
    case_decide as Hn.
    + subst k. rewrite lookup_insert_eq.
      rewrite (not_elem_of_list_to_map_1 (M := gmap string) l n Hk). simpl.
      destruct (getField n f); [|reflexivity]. destruct (ParseBool v); reflexivity.
    + rewrite lookup_insert_ne by congruence. reflexivity.
Qed.

Lemma applyOverrides_any_order (m : gmap string string) (f : Features)
    (l : list (string * string)) :
  l ≡ₚ map_to_list m ->
  foldr (fun kv acc => applyOverride kv.1 kv.2 acc) f l = applyOverrides m f.
Proof.
  intros Hl. apply Features_ext. intros n.
  assert (Hnd : NoDup l.*1).
  { rewrite Hl. apply NoDup_fst_map_to_list. }
  rewrite (getField_foldr_overrides l f n Hnd), getField_applyOverrides.
  rewrite (list_to_map_proper (M := gmap string) l (map_to_list m) Hnd Hl).
  rewrite list_to_map_to_list. reflexivity.
Qed.

(** *** [GetFeatures] *)

Lemma GetFeatures_cached {Reader : Type}
    (NewVersion : string -> option Version) (GetKernelVersion : Reader -> option Version)
    (d : FeatureDetector Reader) (tr : list Event) (f : Features) :
  featureCache d = Some f ->
  GetFeatures NewVersion GetKernelVersion d tr = (Returned (Some f, d), tr).
Proof.
  intros Hc. unfold GetFeatures. rewrite Hc.
  case_decide; [discriminate|]. io_unfold. rewrite Hc. reflexivity.
Qed.

Lemma GetFeatures_empty {Reader : Type}
    (NewVersion : string -> option Version) (GetKernelVersion : Reader -> option Version)
    (d : FeatureDetector Reader) (tr : list Event) (d' : FeatureDetector Reader)
    (tr' : list Event) :
  featureCache d = None ->
  refreshFeaturesLockHeld NewVersion GetKernelVersion d tr = (Returned d', tr') ->
  GetFeatures NewVersion GetKernelVersion d tr = (Returned (featureCache d', d'), tr').
Proof.
  intros Hc Hr. unfold GetFeatures. rewrite Hc.
  case_decide; [|congruence]. rewrite (bind_run _ _ _ _ _ Hr). reflexivity.
Qed.

(** ** The feature detector: the properties *)

Lemma computeFeatures_flags (t k : Version) :
  (SNATFullyRandom (computeFeatures t k) = true
     <-> lex_le (mkVersion 1 6 0) t /\ lex_le (mkVersion 3 14 0) k)
  /\ (MASQFullyRandom (computeFeatures t k) = true
     <-> lex_le (mkVersion 1 6 2) t /\ lex_le (mkVersion 3 14 0) k)
  /\ (RestoreSupportsLock (computeFeatures t k) = true <-> lex_le (mkVersion 1 6 2) t)
  /\ (ChecksumOffloadBroken (computeFeatures t k) = true <-> lex_lt k (mkVersion 5 15 0)).
Proof.
  unfold computeFeatures; simpl.
  rewrite !andb_true_iff, !Compare_ge0_iff, Compare_lt0_iff.
  unfold v1Dot6Dot0, v1Dot6Dot2, v3Dot14Dot0, v5Dot7Dot0. tauto.
Qed.

Lemma lex_lt_irrefl_le (a b : Version) : lex_le a b -> ~ lex_lt b a.
Proof.
  destruct a as [a1 a2 a3], b as [b1 b2 b3]. unfold lex_le, lex_lt; simpl.
  intros [H|H] H'; [|inversion H; subst]; lia.
Qed.

Lemma flag_false_iff (b : bool) (P : Prop) : (b = true <-> P) -> ~ P -> b = false.
Proof. destruct b; intros [H _] HP; [exfalso; apply HP, H|]; reflexivity. Qed.

Lemma flag_true_iff (b : bool) (P : Prop) : (b = true <-> P) -> P -> b = true.
Proof. intros [_ H]; exact H. Qed.

(** C1. For the tool version t and the kernel version k that the probes of
    a refresh determine, the refresh publishes the flags computed from t
    and k (with the overrides applied on top, so exactly the computed ones
    when there is no override), and the computed flags are:
    SNATFullyRandom iff t >= 1.6.0 and k >= 3.14.0; MASQFullyRandom iff
    t >= 1.6.2 and k >= 3.14.0; RestoreSupportsLock iff t >= 1.6.2;
    ChecksumOffloadBroken iff k < 5.15.0.  For t = 1.6.2 and any
    k >= 5.15.0 they are true, true, true, false; for t = 1.4.7 and
    k = 3.10.0 they are false, false, false, true. *)
Theorem flags_from_version_thresholds {Reader : Type}
    (NewVersion : string -> option Version) (GetKernelVersion : Reader -> option Version)
    (d : FeatureDetector Reader) (tr tr1 tr2 : list Event) (t k : Version) :
  getIptablesVersion NewVersion d
    (tr ++ [EvLog DebugLevel "Refreshing detected iptables features"]) = (Returned t, tr1) ->
  getKernelVersion GetKernelVersion d tr1 = (Returned k, tr2) ->
  let computed := computeFeatures t k in
  (exists tr',
      refreshFeaturesLockHeld NewVersion GetKernelVersion d tr
      = (Returned (refreshed d (applyOverrides (featureOverride d) computed)), tr'))
  /\ (featureOverride d = ∅ ->
      exists tr',
        refreshFeaturesLockHeld NewVersion GetKernelVersion d tr
        = (Returned (refreshed d computed), tr'))
  /\ (SNATFullyRandom computed = true
      <-> lex_le (mkVersion 1 6 0) t /\ lex_le (mkVersion 3 14 0) k)
  /\ (MASQFullyRandom computed = true
      <-> lex_le (mkVersion 1 6 2) t /\ lex_le (mkVersion 3 14 0) k)
  /\ (RestoreSupportsLock computed = true <-> lex_le (mkVersion 1 6 2) t)
  /\ (ChecksumOffloadBroken computed = true <-> lex_lt k (mkVersion 5 15 0))
  /\ (t = mkVersion 1 6 2 -> lex_le (mkVersion 5 15 0) k ->
      computed = mkFeatures true true true false)
  /\ (t = mkVersion 1 4 7 -> k = mkVersion 3 10 0 ->
      computed = mkFeatures false false false true).
Proof.
  intros Ht Hk computed.
  destruct (refreshFeaturesLockHeld_run NewVersion GetKernelVersion d tr)
    as (t' & k' & tr1' & tr2' & evs & Ht' & Hk' & Hr & _).
  rewrite Ht in Ht'. inversion Ht'; subst t' tr1'.
  rewrite Hk in Hk'. inversion Hk'; subst k' tr2'.
  destruct (computeFeatures_flags t k) as (HS & HM & HR & HC).
  split; [eexists; exact Hr|].
  split.
  { intros He. rewrite He in Hr. unfold applyOverrides in Hr.
    rewrite map_fold_empty in Hr. eexists; exact Hr. }
  do 4 (split; [assumption|]).
  split.
  - intros -> Hk5.
    assert (H314 : lex_le (mkVersion 3 14 0) k).
    { destruct k as [k1 k2 k3]. revert Hk5. unfold lex_le, lex_lt; simpl.
      intros [H|H]; [left; lia|inversion H; subst; left; lia]. }
    assert (Ht0 : lex_le (mkVersion 1 6 0) (mkVersion 1 6 2)).
    { left. unfold lex_lt; simpl. lia. }
    assert (Ht2 : lex_le (mkVersion 1 6 2) (mkVersion 1 6 2)) by (right; reflexivity).
    pose proof (flag_true_iff _ _ HS (conj Ht0 H314)) as E1.
    pose proof (flag_true_iff _ _ HM (conj Ht2 H314)) as E2.
    pose proof (flag_true_iff _ _ HR Ht2) as E3.
    pose proof (flag_false_iff _ _ HC (lex_lt_irrefl_le _ _ Hk5)) as E4.
    unfold computed. destruct (computeFeatures (mkVersion 1 6 2) k); simpl in *.
    congruence.
  - intros -> ->. reflexivity.
Qed.

Lemma flags_from_version_thresholds_witness :
  getIptablesVersion Sample.NewVersion (Sample.recentHost ∅)
    ([] ++ [EvLog DebugLevel "Refreshing detected iptables features"])
  = (Returned (mkVersion 1 8 4),
     [EvLog DebugLevel "Refreshing detected iptables features";
      EvOutput "iptables" ["--version"];
      EvLog DebugLevel "Ran iptables --version";
      EvLog DebugLevel "Parsed iptables version"])
  /\ SNATFullyRandom (computeFeatures (mkVersion 1 8 4) (mkVersion 5 15 0)) = true.
Proof.
  assert (Ht : getIptablesVersion Sample.NewVersion (Sample.recentHost ∅)
                 ([] ++ [EvLog DebugLevel "Refreshing detected iptables features"])
               = (Returned (mkVersion 1 8 4),
                  [EvLog DebugLevel "Refreshing detected iptables features";
                   EvOutput "iptables" ["--version"];
                   EvLog DebugLevel "Ran iptables --version";
                   EvLog DebugLevel "Parsed iptables version"])) by (vm_compute; reflexivity).
  split; [exact Ht|].
  destruct (flags_from_version_thresholds Sample.NewVersion Sample.GetKernelVersion
              (Sample.recentHost ∅) [] _ _ (mkVersion 1 8 4) (mkVersion 5 15 0)
              Ht ltac:(vm_compute; reflexivity)) as (_ & _ & HS & _).
  apply HS. split; left; unfold lex_lt; simpl; lia.
Defined.

Lemma result_of_run {A : Type} (m : IO A) (tr tr' : list Event) (o : Outcome A) :
  m tr = (o, tr') -> result m tr = o.
Proof. intros H. unfold result. rewrite H. reflexivity. Qed.

(** C5. Feature detection never fails, whatever the collaborators do.  The
    two probes always return a version: 1.4.7 for the tool when the command
    fails, or prints nothing, or prints no vX.Y.Z token, or prints one that
    [NewVersion] rejects, and 3.10.0 for the kernel when the kernel version
    reader cannot be had or [GetKernelVersion] fails on it.
    [RefreshFeatures] always returns, having run the two probes, and
    publishes the flags computed from the versions t and k that these two
    probes gave, with the overrides applied: computed from 1.4.7 when the
    tool probe failed, from 3.10.0 when the kernel probe failed, and
    {false, false, false, true} before the overrides when both failed.
    [GetFeatures] always returns a Features value: the cached one, or, on
    an empty cache, the one this refresh publishes. *)
Theorem detection_never_fails {Reader : Type}
    (NewVersion : string -> option Version) (GetKernelVersion : Reader -> option Version)
    (d : FeatureDetector Reader) (tr : list Event) :
  (exists t tr', getIptablesVersion NewVersion d tr = (Returned t, tr'))
  /\ (exists k tr', getKernelVersion GetKernelVersion d tr = (Returned k, tr'))
  /\ (exists d' tr' f,
        RefreshFeatures NewVersion GetKernelVersion d tr = (Returned d', tr')
        /\ featureCache d' = Some f)
  /\ (exists f d' tr',
        GetFeatures NewVersion GetKernelVersion d tr = (Returned (Some f, d'), tr'))
  /\ (forall out err,
        NewCmd d tr "iptables" ["--version"] = (out, err) ->
        err <> None
        \/ out = EmptyString
        \/ FindStringSubmatch out = []
        \/ (forall g, FindStringSubmatch out !! 1%nat = Some g -> NewVersion g = None) ->
        result (getIptablesVersion NewVersion d) tr = Returned (mkVersion 1 4 7))
  /\ (GetKernelVersionReader d tr = None
      \/ (exists reader, GetKernelVersionReader d tr = Some reader
                         /\ GetKernelVersion reader = None) ->
      result (getKernelVersion GetKernelVersion d) tr = Returned (mkVersion 3 10 0))
  /\ (exists t k tr1 tr2 evs,
        getIptablesVersion NewVersion d
          (tr ++ [EvLog DebugLevel "Refreshing detected iptables features"])
        = (Returned t, tr1)
        /\ getKernelVersion GetKernelVersion d tr1 = (Returned k, tr2)
        /\ RefreshFeatures NewVersion GetKernelVersion d tr
           = (Returned (refreshed d (applyOverrides (featureOverride d)
                                       (computeFeatures t k))),
              tr ++ evs)
        /\ List.filter isProbe evs
           = [EvOutput "iptables" ["--version"]; EvKernelVersionReader]
        /\ (featureCache d = None ->
            GetFeatures NewVersion GetKernelVersion d tr
            = (Returned (Some (applyOverrides (featureOverride d) (computeFeatures t k)),
                         refreshed d (applyOverrides (featureOverride d)
                                        (computeFeatures t k))),
               tr ++ evs))
        /\ (forall out err,
              NewCmd d (tr ++ [EvLog DebugLevel "Refreshing detected iptables features"])
                "iptables" ["--version"] = (out, err) ->
              err <> None
              \/ out = EmptyString
              \/ FindStringSubmatch out = []
              \/ (forall g, FindStringSubmatch out !! 1%nat = Some g ->
                            NewVersion g = None) ->
              t = mkVersion 1 4 7
              /\ (GetKernelVersionReader d tr1 = None
                  \/ (exists reader, GetKernelVersionReader d tr1 = Some reader
                                     /\ GetKernelVersion reader = None) ->
                  computeFeatures t k = mkFeatures false false false true
                  /\ (featureOverride d = ∅ ->
                      RefreshFeatures NewVersion GetKernelVersion d tr
                      = (Returned (refreshed d (mkFeatures false false false true)),
                         tr ++ evs))))
        /\ (GetKernelVersionReader d tr1 = None
            \/ (exists reader, GetKernelVersionReader d tr1 = Some reader
                               /\ GetKernelVersion reader = None) ->
            k = mkVersion 3 10 0))
  /\ (forall f,
        featureCache d = Some f ->
        GetFeatures NewVersion GetKernelVersion d tr = (Returned (Some f, d), tr)).
Proof.
  assert (Htool : forall h out err,
            NewCmd d h "iptables" ["--version"] = (out, err) ->
            err <> None
            \/ out = EmptyString
            \/ FindStringSubmatch out = []
            \/ (forall g, FindStringSubmatch out !! 1%nat = Some g -> NewVersion g = None) ->
            iptablesVersionFrom NewVersion (NewCmd d h "iptables" ["--version"])
            = v1Dot4Dot7).
  { intros h out err Hcmd Hfail.
    unfold iptablesVersionFrom. rewrite Hcmd. simpl.
    destruct err as [e|]; [reflexivity|].
    destruct Hfail as [H|[H|[H|H]]].
    - congruence.
    - subst out. reflexivity.
    - rewrite H. reflexivity.
    - destruct (FindStringSubmatch_shape out) as [E|(w & g & E)]; rewrite E in *.
      + reflexivity.
      + rewrite (H g) by reflexivity. reflexivity. }
  assert (Hkern : forall h,
            GetKernelVersionReader d h = None
            \/ (exists reader, GetKernelVersionReader d h = Some reader
                               /\ GetKernelVersion reader = None) ->
            kernelVersionFrom GetKernelVersion (GetKernelVersionReader d h) = v3Dot10Dot0).
  { intros h Hfail. unfold kernelVersionFrom.
    destruct Hfail as [H|(reader & H & Hp)]; rewrite H; [|rewrite Hp]; reflexivity. }
  destruct (getIptablesVersion_run NewVersion d tr) as (logs1 & E1 & _).
  destruct (getKernelVersion_run GetKernelVersion d tr) as (logs2 & E2 & _).
  destruct (refreshFeaturesLockHeld_run NewVersion GetKernelVersion d tr)
    as (t & k & tr1 & tr2 & evs & Ht & Hk & Hr & Hp).
  split; [eauto|]. split; [eauto|].
  split; [unfold RefreshFeatures; do 3 eexists; split; [exact Hr|reflexivity]|].
  split.
  { destruct (featureCache d) as [f|] eqn:Hc.
    - exists f, d, tr. apply GetFeatures_cached; assumption.
    - do 3 eexists. rewrite (GetFeatures_empty _ _ _ _ _ _ Hc Hr). reflexivity. }
  split.
  { intros out err Hcmd Hfail.
    rewrite (result_of_run _ _ _ _ E1). f_equal. exact (Htool tr out err Hcmd Hfail). }
  split.
  { intros Hfail. rewrite (result_of_run _ _ _ _ E2). f_equal. exact (Hkern tr Hfail). }
  split; [|intros f Hc; apply GetFeatures_cached; exact Hc].
  assert (Et : t = iptablesVersionFrom NewVersion
                     (NewCmd d (tr ++ [EvLog DebugLevel
                                         "Refreshing detected iptables features"])
                        "iptables" ["--version"])).
  { destruct (getIptablesVersion_run NewVersion d
                (tr ++ [EvLog DebugLevel "Refreshing detected iptables features"]))
      as (logs & E & _).
    rewrite Ht in E. inversion E. reflexivity. }
  assert (Ek : k = kernelVersionFrom GetKernelVersion (GetKernelVersionReader d tr1)).
  { destruct (getKernelVersion_run GetKernelVersion d tr1) as (logs & E & _).
    rewrite Hk in E. inversion E. reflexivity. }
  exists t, k, tr1, tr2, evs.
  split; [exact Ht|]. split; [exact Hk|]. split; [exact Hr|]. split; [exact Hp|].
  split.
  { intros Hc. rewrite (GetFeatures_empty _ _ _ _ _ _ Hc Hr). reflexivity. }
  split.
  - intros out err Hcmd Hfail.
    assert (Et' : t = mkVersion 1 4 7) by (rewrite Et; exact (Htool _ out err Hcmd Hfail)).
    split; [exact Et'|].
    intros Hkfail.
    assert (Ek' : k = mkVersion 3 10 0) by (rewrite Ek; exact (Hkern tr1 Hkfail)).
    assert (Ec : computeFeatures t k = mkFeatures false false false true)
      by (rewrite Et', Ek'; reflexivity).
    split; [exact Ec|].
    intros He. unfold RefreshFeatures. rewrite Hr, He, Ec.
    unfold applyOverrides. rewrite map_fold_empty. reflexivity.
  - intros Hkfail. rewrite Ek. exact (Hkern tr1 Hkfail).
Qed.

Lemma detection_never_fails_witness :
  result (getIptablesVersion Sample.NewVersion Sample.brokenHost) [] = Returned (mkVersion 1 4 7)
  /\ result (getKernelVersion Sample.GetKernelVersion Sample.brokenHost) []
     = Returned (mkVersion 3 10 0)
  /\ exists evs,
       RefreshFeatures Sample.NewVersion Sample.GetKernelVersion Sample.brokenHost []
       = (Returned (refreshed Sample.brokenHost (mkFeatures false false false true)),
          [] ++ evs).
Proof.
  destruct (detection_never_fails Sample.NewVersion Sample.GetKernelVersion
              Sample.brokenHost [])
    as (_ & _ & _ & _ & Ht & Hk & (t & k & tr1 & tr2 & evs & _ & _ & _ & _ & _ & Hboth & _)
        & _).
  split; [|split].
  - apply (Ht EmptyString (Some "executable file not found")).
    + reflexivity.
    + left. discriminate.
  - apply Hk. left. reflexivity.
  - exists evs.
    destruct (Hboth EmptyString (Some "executable file not found") eq_refl
                ltac:(left; discriminate)) as [_ Hkern].
    destruct (Hkern ltac:(left; reflexivity)) as [_ Hrefresh].
    apply Hrefresh. reflexivity.
Defined.

Lemma applyOverrides_ignores (m : gmap string string) (c : Features) (name value : string) :
  m !! name = Some value ->
  ParseBool value = None \/ getField name c = None ->
  applyOverrides m c = applyOverrides (delete name m) c.
Proof.
  intros Hm Hbad. apply Features_ext. intros n.
  rewrite !getField_applyOverrides.
  destruct (getField n c) as [old|] eqn:Hg; [|reflexivity].
  destruct (decide (n = name)) as [->|Hne].
  - rewrite lookup_delete_eq, Hm. simpl.
    destruct Hbad as [Hp|Hu]; [rewrite Hp; reflexivity|congruence].
  - rewrite lookup_delete_ne by congruence. reflexivity.
Qed.

(** C6. Whatever the state of the detector (first refresh or not), a
    refresh returns, keeps the override map, and publishes the flags f got
    from the flags computed from the versions t and k of its two probes by
    applying the overrides.  For an entry whose name is one of the four
    flags and whose value parses as the boolean b, that flag of f is b,
    whatever the versions.  An entry whose value does not parse, or whose
    name is no flag, changes nothing: f is what the refresh gives without
    that entry, a flag with no parsable entry holds its computed value, and
    when such an entry is the only one f is the computed flags.  With the
    override {"SNATFullyRandom": "false"} the flag SNATFullyRandom of f is
    false and the other three are as computed. *)
Theorem overrides_force_flags {Reader : Type}
    (NewVersion : string -> option Version) (GetKernelVersion : Reader -> option Version)
    (d : FeatureDetector Reader) (tr tr1 tr2 : list Event) (t k : Version) :
  getIptablesVersion NewVersion d
    (tr ++ [EvLog DebugLevel "Refreshing detected iptables features"]) = (Returned t, tr1) ->
  getKernelVersion GetKernelVersion d tr1 = (Returned k, tr2) ->
  exists d' tr' f,
    RefreshFeatures NewVersion GetKernelVersion d tr = (Returned d', tr')
    /\ featureCache d' = Some f
    /\ featureOverride d' = featureOverride d
    /\ f = applyOverrides (featureOverride d) (computeFeatures t k)
    /\ (forall value b,
          ParseBool value = Some b ->
          (featureOverride d !! "SNATFullyRandom" = Some value -> SNATFullyRandom f = b)
          /\ (featureOverride d !! "MASQFullyRandom" = Some value -> MASQFullyRandom f = b)
          /\ (featureOverride d !! "RestoreSupportsLock" = Some value ->
              RestoreSupportsLock f = b)
          /\ (featureOverride d !! "ChecksumOffloadBroken" = Some value ->
              ChecksumOffloadBroken f = b))
    /\ (forall name value,
          featureOverride d !! name = Some value ->
          ParseBool value = None
          \/ name ∉ ["SNATFullyRandom"; "MASQFullyRandom"; "RestoreSupportsLock";
                     "ChecksumOffloadBroken"] ->
          f = applyOverrides (delete name (featureOverride d)) (computeFeatures t k)
          /\ (featureOverride d = {[ name := value ]} -> f = computeFeatures t k))
    /\ ((featureOverride d !! "SNATFullyRandom" ≫= ParseBool = None ->
         SNATFullyRandom f = SNATFullyRandom (computeFeatures t k))
        /\ (featureOverride d !! "MASQFullyRandom" ≫= ParseBool = None ->
            MASQFullyRandom f = MASQFullyRandom (computeFeatures t k))
        /\ (featureOverride d !! "RestoreSupportsLock" ≫= ParseBool = None ->
            RestoreSupportsLock f = RestoreSupportsLock (computeFeatures t k))
        /\ (featureOverride d !! "ChecksumOffloadBroken" ≫= ParseBool = None ->
            ChecksumOffloadBroken f = ChecksumOffloadBroken (computeFeatures t k)))
    /\ (featureOverride d = {[ "SNATFullyRandom" := "false" ]} ->
        SNATFullyRandom f = false
        /\ MASQFullyRandom f = MASQFullyRandom (computeFeatures t k)
        /\ RestoreSupportsLock f = RestoreSupportsLock (computeFeatures t k)
        /\ ChecksumOffloadBroken f = ChecksumOffloadBroken (computeFeatures t k)).
Proof.
  intros Ht Hk.
  destruct (refreshFeaturesLockHeld_run NewVersion GetKernelVersion d tr)
    as (t' & k' & tr1' & tr2' & evs & Ht' & Hk' & Hr & _).
  rewrite Ht in Ht'. inversion Ht'; subst t' tr1'.
  rewrite Hk in Hk'. inversion Hk'; subst k' tr2'.
  set (c := computeFeatures t k) in *.
  exists (refreshed d (applyOverrides (featureOverride d) c)), (tr ++ evs),
    (applyOverrides (featureOverride d) c).
  split; [exact Hr|]. do 3 (split; [reflexivity|]).
  assert (Hforced : forall name value b,
            ParseBool value = Some b -> featureOverride d !! name = Some value ->
            forall old, getField name c = Some old ->
            getField name (applyOverrides (featureOverride d) c) = Some b).
  { intros name value b Hp Hm old Hold.
    rewrite getField_applyOverrides, Hold, Hm. simpl. rewrite Hp. reflexivity. }
  assert (Hkeep : forall name old,
            getField name c = Some old ->
            featureOverride d !! name ≫= ParseBool = None ->
            getField name (applyOverrides (featureOverride d) c) = Some old).
  { intros name old Hold Hnone.
    rewrite getField_applyOverrides, Hold, Hnone. reflexivity. }
  split.
  { intros value b Hp.
    set (f := applyOverrides (featureOverride d) c) in *.
    split; [|split; [|split]]; intros Hm.
    - assert (H : Some (SNATFullyRandom f) = Some b)
        by exact (Hforced _ _ _ Hp Hm (SNATFullyRandom c) eq_refl).
      congruence.
    - assert (H : Some (MASQFullyRandom f) = Some b)
        by exact (Hforced _ _ _ Hp Hm (MASQFullyRandom c) eq_refl).
      congruence.
    - assert (H : Some (RestoreSupportsLock f) = Some b)
        by exact (Hforced _ _ _ Hp Hm (RestoreSupportsLock c) eq_refl).
      congruence.
    - assert (H : Some (ChecksumOffloadBroken f) = Some b)
        by exact (Hforced _ _ _ Hp Hm (ChecksumOffloadBroken c) eq_refl).
      congruence. }
  split.
  { intros name value Hm Hbad.
    assert (Hdel : applyOverrides (featureOverride d) c
                   = applyOverrides (delete name (featureOverride d)) c).
    { apply (applyOverrides_ignores _ _ name value Hm).
      destruct Hbad as [Hp|Hn]; [left; assumption|right].
      unfold getField. repeat case_decide; try reflexivity; exfalso; apply Hn; subst name.
      - apply list_elem_of_here.
      - apply list_elem_of_further, list_elem_of_here.
      - do 2 apply list_elem_of_further. apply list_elem_of_here.
      - do 3 apply list_elem_of_further. apply list_elem_of_here. }
    split; [exact Hdel|].
    intros He. rewrite Hdel, He, delete_singleton_eq.
    unfold applyOverrides. rewrite map_fold_empty. reflexivity. }
  split.
  { set (f := applyOverrides (featureOverride d) c) in *.
    split; [|split; [|split]]; intros Hnone.
    - assert (H : Some (SNATFullyRandom f) = Some (SNATFullyRandom c))
        by exact (Hkeep "SNATFullyRandom" _ eq_refl Hnone).
      congruence.
    - assert (H : Some (MASQFullyRandom f) = Some (MASQFullyRandom c))
        by exact (Hkeep "MASQFullyRandom" _ eq_refl Hnone).
      congruence.
    - assert (H : Some (RestoreSupportsLock f) = Some (RestoreSupportsLock c))
        by exact (Hkeep "RestoreSupportsLock" _ eq_refl Hnone).
      congruence.
    - assert (H : Some (ChecksumOffloadBroken f) = Some (ChecksumOffloadBroken c))
        by exact (Hkeep "ChecksumOffloadBroken" _ eq_refl Hnone).
      congruence. }
  intros He. rewrite He. unfold applyOverrides. rewrite map_fold_singleton.
  repeat split.
Qed.

Lemma overrides_force_flags_witness :
  featureOverride (Sample.recentHost {[ "SNATFullyRandom" := "false" ]}) !! "SNATFullyRandom"
  = Some "false"
  /\ ParseBool "false" = Some false
  /\ exists d' tr' f,
       RefreshFeatures Sample.NewVersion Sample.GetKernelVersion
         (Sample.recentHost {[ "SNATFullyRandom" := "false" ]}) [] = (Returned d', tr')
       /\ featureCache d' = Some f
       /\ f = mkFeatures false true true false.
Proof.
  assert (Hm : featureOverride (Sample.recentHost {[ "SNATFullyRandom" := "false" ]})
               !! "SNATFullyRandom" = Some "false") by (vm_compute; reflexivity).
  split; [exact Hm|]. split; [reflexivity|].
  destruct (overrides_force_flags Sample.NewVersion Sample.GetKernelVersion
              (Sample.recentHost {[ "SNATFullyRandom" := "false" ]}) []
              [EvLog DebugLevel "Refreshing detected iptables features";
               EvOutput "iptables" ["--version"];
               EvLog DebugLevel "Ran iptables --version";
               EvLog DebugLevel "Parsed iptables version"]
              [EvLog DebugLevel "Refreshing detected iptables features";
               EvOutput "iptables" ["--version"];
               EvLog DebugLevel "Ran iptables --version";
               EvLog DebugLevel "Parsed iptables version";
               EvKernelVersionReader]
              (mkVersion 1 8 4) (mkVersion 5 15 0)
              ltac:(vm_compute; reflexivity) ltac:(vm_compute; reflexivity))
    as (d' & tr' & f & Hr & Hc & _ & _ & Hforce & _ & _ & Hsnat).
  exists d', tr', f. split; [exact Hr|]. split; [exact Hc|].
  destruct (Hforce "false" false eq_refl) as (H & _).
  pose proof (H Hm) as H1.
  destruct (Hsnat eq_refl) as (_ & H2 & H3 & H4).
  destruct f as [f1 f2 f3 f4]. simpl in *.
  rewrite H1, H2, H3, H4. reflexivity.
Defined.

(** C7. With a filled cache, [GetFeatures] returns the cached flags and
    does nothing else: no event at all, so no probe, and the detector is
    unchanged.  Hence, from any state, a first [GetFeatures] returns some
    flags f and a second one right after it returns the same f; the
    second adds no event, and the probes of the two calls together are
    either none or those of one probing cycle. *)
Theorem GetFeatures_uses_cache {Reader : Type}
    (NewVersion : string -> option Version) (GetKernelVersion : Reader -> option Version)
    (d : FeatureDetector Reader) (tr : list Event) :
  (forall f, featureCache d = Some f ->
             GetFeatures NewVersion GetKernelVersion d tr = (Returned (Some f, d), tr))
  /\ exists f d1 evs,
       GetFeatures NewVersion GetKernelVersion d tr = (Returned (Some f, d1), tr ++ evs)
       /\ GetFeatures NewVersion GetKernelVersion d1 (tr ++ evs)
          = (Returned (Some f, d1), tr ++ evs)
       /\ (List.filter isProbe evs = [] \/ List.filter isProbe evs = probingCycle)
       /\ (featureCache d <> None -> evs = []).
Proof.
  split; [intros f Hc; apply GetFeatures_cached; assumption|].
  destruct (featureCache d) as [f|] eqn:Hc.
  - exists f, d, []. rewrite app_nil_r.
    rewrite (GetFeatures_cached _ _ _ _ _ Hc).
    repeat split; [left; reflexivity].
  - destruct (refreshFeaturesLockHeld_run NewVersion GetKernelVersion d tr)
      as (t & k & tr1 & tr2 & evs & _ & _ & Hr & Hp).
    eexists _, _, evs.
    rewrite (GetFeatures_empty _ _ _ _ _ _ Hc Hr).
    split; [reflexivity|]. split; [apply GetFeatures_cached; reflexivity|].
    split; [right; exact Hp|]. intros H; congruence.
Qed.

Lemma GetFeatures_uses_cache_witness :
  featureCache Sample.warmHost = Some (mkFeatures true true true false)
  /\ GetFeatures Sample.NewVersion Sample.GetKernelVersion Sample.warmHost []
     = (Returned (Some (mkFeatures true true true false), Sample.warmHost), []).
Proof.
  split; [reflexivity|].
  apply (proj1 (GetFeatures_uses_cache Sample.NewVersion Sample.GetKernelVersion
                  Sample.warmHost [])).
  reflexivity.
Defined.

(** C8. Whatever the state of the detector, cache filled or not,
    [RefreshFeatures] runs the tool probe and the kernel probe (its
    probes are exactly those of one probing cycle) and publishes the flags
    recomputed from the versions these probes gave, with the overrides
    applied; so it does when run right after a [GetFeatures]. *)
Theorem RefreshFeatures_always_probes {Reader : Type}
    (NewVersion : string -> option Version) (GetKernelVersion : Reader -> option Version)
    (d : FeatureDetector Reader) (tr : list Event) :
  (exists t k tr1 tr2 evs,
      getIptablesVersion NewVersion d
        (tr ++ [EvLog DebugLevel "Refreshing detected iptables features"])
      = (Returned t, tr1)
      /\ getKernelVersion GetKernelVersion d tr1 = (Returned k, tr2)
      /\ RefreshFeatures NewVersion GetKernelVersion d tr
         = (Returned (refreshed d (applyOverrides (featureOverride d) (computeFeatures t k))),
            tr ++ evs)
      /\ List.filter isProbe evs = [EvOutput "iptables" ["--version"]; EvKernelVersionReader])
  /\ (forall c d1 tr1,
        GetFeatures NewVersion GetKernelVersion d tr = (Returned (c, d1), tr1) ->
        exists d2 evs,
          RefreshFeatures NewVersion GetKernelVersion d1 tr1 = (Returned d2, tr1 ++ evs)
          /\ List.filter isProbe evs
             = [EvOutput "iptables" ["--version"]; EvKernelVersionReader]).
Proof.
  split.
  - exact (refreshFeaturesLockHeld_run NewVersion GetKernelVersion d tr).
  - intros c d1 tr1 _.
    destruct (refreshFeaturesLockHeld_run NewVersion GetKernelVersion d1 tr1)
      as (t & k & tr1' & tr2 & evs & _ & _ & Hr & Hp).
    eexists _, evs. split; [exact Hr|exact Hp].
Qed.

Lemma RefreshFeatures_always_probes_witness :
  GetFeatures Sample.NewVersion Sample.GetKernelVersion Sample.warmHost []
  = (Returned (Some (mkFeatures true true true false), Sample.warmHost), [])
  /\ exists d2 evs,
       RefreshFeatures Sample.NewVersion Sample.GetKernelVersion Sample.warmHost []
       = (Returned d2, [] ++ evs)
       /\ List.filter isProbe evs = [EvOutput "iptables" ["--version"]; EvKernelVersionReader].
Proof.
  assert (Hg : GetFeatures Sample.NewVersion Sample.GetKernelVersion Sample.warmHost []
               = (Returned (Some (mkFeatures true true true false), Sample.warmHost), []))
    by (vm_compute; reflexivity).
  split; [exact Hg|].
  exact (proj2 (RefreshFeatures_always_probes Sample.NewVersion Sample.GetKernelVersion
                  Sample.warmHost []) _ _ _ Hg).
Defined.

(** ** The backend selector: counting rules *)

Lemma Split_line (line rest : string) :
  noNewline line = true ->
  Split (line +:+ String newline rest) = line :: Split rest.
Proof.
  induction line as [|c l IH]; simpl; intros Hl.
  - reflexivity.
  - case_decide; [discriminate|]. rewrite (IH Hl). reflexivity.
Qed.

Lemma Split_last_line (line : string) : noNewline line = true -> Split line = [line].
Proof.
  induction line as [|c l IH]; simpl; intros Hl; [reflexivity|].
  case_decide; [discriminate|]. rewrite (IH Hl). reflexivity.
Qed.

Lemma countRules_shift (lines : list string) (a : Z) :
  fold_left
    (fun count x =>
       match x with
       | String c _ => if decide (c = "-"%char) then count + 1 else count
       | EmptyString => count
       end) lines a
  = a + fold_left
          (fun count x =>
             match x with
             | String c _ => if decide (c = "-"%char) then count + 1 else count
             | EmptyString => count
             end) lines 0.
Proof.
  revert a. induction lines as [|x xs IH]; intros a; simpl; [lia|].
  rewrite IH. symmetry. rewrite IH.
  destruct x as [|c r]; [lia|]. case_decide; lia.
Qed.

(** The count of a text is the count of its first line plus that of the
    rest, a line counting for one exactly when it starts with '-'. *)
Lemma countRules_line (line rest : string) :
  noNewline line = true ->
  countRulesInIptableOutput (line +:+ String newline rest)
  = (if startsWithDash line then 1 else 0) + countRulesInIptableOutput rest.
Proof.
  intros Hl. unfold countRulesInIptableOutput. rewrite (Split_line _ _ Hl). simpl.
  rewrite countRules_shift. unfold startsWithDash.
  destruct line as [|c r]; [reflexivity|]. case_decide; reflexivity.
Qed.

Lemma countRules_last_line (line : string) :
  noNewline line = true ->
  countRulesInIptableOutput line = if startsWithDash line then 1 else 0.
Proof.
  intros Hl. unfold countRulesInIptableOutput. rewrite (Split_last_line _ Hl). simpl.
  unfold startsWithDash. destruct line as [|c r]; [reflexivity|]. case_decide; reflexivity.
Qed.

Lemma countRules_nonneg (s : string) : 0 <= countRulesInIptableOutput s.
Proof.
  unfold countRulesInIptableOutput.
  assert (H : forall l a, 0 <= a ->
            0 <= fold_left
                   (fun count x =>
                      match x with
                      | String c _ => if decide (c = "-"%char) then count + 1 else count
                      | EmptyString => count
                      end) l a).
  { induction l as [|x xs IH]; intros a Ha; simpl; [assumption|].
    apply IH. destruct x as [|c r]; [assumption|]. case_decide; lia. }
  apply H. lia.
Qed.

(** ** The backend selector: resolving the binaries *)

Lemma candidatesOf_names (ipVersion : N) (backendMode saveOrRestore : string) :
  candidatesOf ipVersion backendMode saveOrRestore
  = [specificName ipVersion backendMode saveOrRestore; genericName ipVersion saveOrRestore].
Proof. reflexivity. Qed.

Lemma findBestBinary_eq (exec_LookPath : lookPathFunc) (lookPath : option lookPathFunc)
    (ipVersion : N) (backendMode saveOrRestore : string) (tr : list Event) :
  let resolve := resolverOf exec_LookPath lookPath in
  let c1 := specificName ipVersion backendMode saveOrRestore in
  let c2 := genericName ipVersion saveOrRestore in
  findBestBinary exec_LookPath lookPath ipVersion backendMode saveOrRestore tr =
  match (resolve tr c1).2 with
  | None => (Returned c1, tr ++ [EvLookPath c1; lookedUp])
  | Some _ =>
      match (resolve (tr ++ [EvLookPath c1]) c2).2 with
      | None => (Returned c2, tr ++ [EvLookPath c1; EvLookPath c2; lookedUp])
      | Some _ =>
          (Panicked "Failed to find iptables command",
           tr ++ [EvLookPath c1; EvLookPath c2;
                  EvLog PanicLevel "Failed to find iptables command"])
      end
  end.
Proof.
  intros resolve c1 c2. unfold findBestBinary. rewrite candidatesOf_names.
  fold c1 c2. fold (resolverOf exec_LookPath lookPath). fold resolve.
  unfold tryCandidates. io_unfold.
  destruct (resolve tr c1) as [p1 [e1|]]; simpl.
  - destruct (resolve (tr ++ [EvLookPath c1]) c2) as [p2 [e2|]]; simpl;
      trace_norm; reflexivity.
  - trace_norm. reflexivity.
Qed.

(** ** The backend selector: the two phases *)

Section Selector.

Variable exec_LookPath : lookPathFunc.
Variable lookPath : option lookPathFunc.
Variable newCmd : cmdFactory.

Local Abbreviation find := (findBestBinary exec_LookPath lookPath).

Lemma legacy_phase (tr tr1 tr2 : list Event) (ip6 ip4 : string) :
  find 6%N "legacy" "save" tr = (Returned ip6, tr1) ->
  find 4%N "legacy" "save" tr1 = (Returned ip4, tr2) ->
  countRulesInIptableOutput (newCmd tr2 ip6 []).1
  + countRulesInIptableOutput (newCmd (tr2 ++ [EvOutput ip6 []]) ip4 []).1 >= 10 ->
  detectedBackendOf exec_LookPath lookPath newCmd tr
  = (Returned "legacy",
     tr2 ++ [EvOutput ip6 []; EvOutput ip4 [];
             EvLog DebugLevel "Ip6tables legacy save out";
             EvLog DebugLevel "Iptables legacy save out";
             EvLog DebugLevel "Detected Iptables backend"]).
Proof.
  intros H6 H4 Hn. unfold detectedBackendOf.
  rewrite (bind_run _ _ _ _ _ H6), (bind_run _ _ _ _ _ H4).
  io_unfold.
  destruct (newCmd tr2 ip6 []) as [out6 e6].
  destruct (newCmd (tr2 ++ [EvOutput ip6 []]) ip4 []) as [out4 e4].
  simpl in *.
  destruct (Z.geb_spec (countRulesInIptableOutput out6 + countRulesInIptableOutput out4) 10)
    as [_|Hlt]; [|lia].
  trace_norm. reflexivity.
Qed.

Lemma nft_phase (tr tr1 tr2 tr5 tr6 : list Event) (ip6 ip4 ip6n ip4n : string) :
  find 6%N "legacy" "save" tr = (Returned ip6, tr1) ->
  find 4%N "legacy" "save" tr1 = (Returned ip4, tr2) ->
  let legacyLines :=
    countRulesInIptableOutput (newCmd tr2 ip6 []).1
    + countRulesInIptableOutput (newCmd (tr2 ++ [EvOutput ip6 []]) ip4 []).1 in
  legacyLines < 10 ->
  find 6%N "nft" "save"
    (tr2 ++ [EvOutput ip6 []; EvOutput ip4 [];
             EvLog DebugLevel "Ip6tables legacy save out";
             EvLog DebugLevel "Iptables legacy save out"]) = (Returned ip6n, tr5) ->
  find 4%N "nft" "save" tr5 = (Returned ip4n, tr6) ->
  let nftLines :=
    countRulesInIptableOutput (newCmd tr6 ip6n []).1
    + countRulesInIptableOutput
        (newCmd (tr6 ++ [EvOutput ip6n []; EvLog DebugLevel "Ip6tables save out"])
           ip4n []).1 in
  detectedBackendOf exec_LookPath lookPath newCmd tr
  = (Returned (if legacyLines >=? nftLines then "legacy" else "nft"),
     tr6 ++ [EvOutput ip6n []; EvLog DebugLevel "Ip6tables save out";
             EvOutput ip4n []; EvLog DebugLevel "Iptables save out";
             EvLog DebugLevel "Detected Iptables backend"]).
Proof.
  intros H6 H4 legacyLines Hn H6n H4n nftLines.
  unfold detectedBackendOf.
  rewrite (bind_run _ _ _ _ _ H6), (bind_run _ _ _ _ _ H4).
  unfold legacyLines, nftLines in *. clear legacyLines nftLines.
  io_unfold.
  destruct (newCmd tr2 ip6 []) as [out6 e6].
  destruct (newCmd (tr2 ++ [EvOutput ip6 []]) ip4 []) as [out4 e4].
  simpl in *.
  destruct (Z.geb_spec (countRulesInIptableOutput out6 + countRulesInIptableOutput out4) 10)
    as [Hge|_]; [lia|].
  revert H6n. trace_norm. intros H6n. rewrite H6n, H4n.
  destruct (newCmd tr6 ip6n []) as [out6n e6n].
  trace_norm.
  destruct (newCmd (tr6 ++ [EvOutput ip6n []; EvLog DebugLevel "Ip6tables save out"])
              ip4n []) as [out4n e4n].
  simpl.
  destruct (countRulesInIptableOutput out6 + countRulesInIptableOutput out4
            >=? countRulesInIptableOutput out6n + countRulesInIptableOutput out4n);
    trace_norm; reflexivity.
Qed.

(** A panic of the detection is the panic of one of its four calls of
    [findBestBinary]. *)
Lemma detectedBackendOf_Panicked (tr tr' : list Event) (msg : string) :
  detectedBackendOf exec_LookPath lookPath newCmd tr = (Panicked msg, tr') ->
  exists ipVersion backendMode h,
    (ipVersion = 6%N \/ ipVersion = 4%N)
    /\ (backendMode = "legacy" \/ backendMode = "nft")
    /\ find ipVersion backendMode "save" h = (Panicked msg, tr').
Proof.
  unfold detectedBackendOf. intros H.
  apply bind_Panicked in H as [H|(ip6 & tr1 & H6 & H)].
  { exists 6%N, "legacy", tr. tauto. }
  apply bind_Panicked in H as [H|(ip4 & tr2 & H4 & H)].
  { exists 4%N, "legacy", tr1. tauto. }
  revert H. io_unfold.
  destruct (newCmd tr2 ip6 []) as [out6 e6].
  destruct (newCmd (tr2 ++ [EvOutput ip6 []]) ip4 []) as [out4 e4].
  simpl.
  destruct (countRulesInIptableOutput out6 + countRulesInIptableOutput out4 >=? 10);
    [discriminate|].
 
  destruct (find 6%N "nft" "save" _) as [[ip6n|msg6] tr5] eqn:H6n.
  2:{ intros H; inversion H; subst. exists 6%N, "nft". eexists. 
      split; [tauto|]. split; [tauto|]. exact H6n. }
  destruct (find 4%N "nft" "save" tr5) as [[ip4n|msg4] tr6] eqn:H4n.
  2:{ intros H; inversion H; subst. exists 4%N, "nft", tr5. tauto. }
  destruct (newCmd tr6 ip6n []) as [out6n e6n].
  destruct (newCmd _ ip4n []) as [out4n e4n].
  simpl. destruct (_ >=? _); discriminate.
Qed.

(** What a successful [findBestBinary] leaves in the trace. *)
Lemma find_Returned (ipVersion : N) (backendMode : string) (tr tr1 : list Event)
    (c : string) :
  find ipVersion backendMode "save" tr = (Returned c, tr1) ->
  exists evs,
    tr1 = tr ++ evs
    /\ (c = specificName ipVersion backendMode "save" \/ c = genericName ipVersion "save")
    /\ List.filter isOutput evs = []
    /\ Forall (fun e => e = lookedUp
                        \/ e = EvLookPath (specificName ipVersion backendMode "save")
                        \/ e = EvLookPath (genericName ipVersion "save")) evs.
Proof.
  rewrite findBestBinary_eq.
  destruct (resolverOf exec_LookPath lookPath tr _).2 as [e1|].
  - destruct (resolverOf exec_LookPath lookPath (tr ++ _) _).2 as [e2|];
      intros H; inversion H; subst.
    eexists. split; [reflexivity|]. split; [right; reflexivity|].
    split; [reflexivity|]. repeat constructor; tauto.
  - intros H; inversion H; subst.
    eexists. split; [reflexivity|]. split; [left; reflexivity|].
    split; [reflexivity|]. repeat constructor; tauto.
Qed.

Lemma find_legacy_Returned (ipVersion : N) (tr tr1 : list Event) (c : string) :
  ipVersion = 6%N \/ ipVersion = 4%N ->
  find ipVersion "legacy" "save" tr = (Returned c, tr1) ->
  exists evs,
    tr1 = tr ++ evs
    /\ c ∈ legacyCandidates
    /\ List.filter isOutput evs = []
    /\ Forall (fun e => ~ mentionsNft e) evs.
Proof.
  intros Hv Hf. destruct (find_Returned _ _ _ _ _ Hf) as (evs & E & Hc & Ho & Hevs).
  exists evs. split; [exact E|]. split.
  - unfold legacyCandidates. destruct Hv as [-> | ->], Hc as [-> | ->]; vm_compute;
      set_solver.
  - split; [exact Ho|].
    eapply Forall_impl; [exact Hevs|]. intros e He.
    destruct Hv as [-> | ->]; destruct He as [-> | [-> | ->]]; vm_compute;
      intuition discriminate.
Qed.

Variable unicodeToLower : string -> string.

Lemma DetectBackend_eq (specifiedBackend : string) (tr tr' : list Event) (det : string) :
  detectedBackendOf exec_LookPath lookPath newCmd tr = (Returned det, tr') ->
  DetectBackend exec_LookPath unicodeToLower lookPath newCmd specifiedBackend tr
  = if decide (ToLower unicodeToLower specifiedBackend = "auto") then (Returned det, tr')
    else (Returned (ToLower unicodeToLower specifiedBackend),
          if decide (ToLower unicodeToLower specifiedBackend = det) then tr'
          else tr' ++ [mismatchWarning]).
Proof.
  intros Hd. unfold DetectBackend. rewrite (bind_run _ _ _ _ _ Hd).
  destruct (decide (ToLower unicodeToLower specifiedBackend = "auto")) as [Ea|Na].
  - rewrite decide_False by (intros H; apply H; exact Ea). reflexivity.
  - rewrite decide_True by exact Na.
    destruct (decide (ToLower unicodeToLower specifiedBackend = det)) as [Ed|Nd].
    + rewrite decide_False by (intros H; apply H; exact Ed). reflexivity.
    + rewrite decide_True by exact Nd. reflexivity.
Qed.

Lemma DetectBackend_Panicked (specifiedBackend : string) (tr tr' : list Event)
    (msg : string) :
  DetectBackend exec_LookPath unicodeToLower lookPath newCmd specifiedBackend tr = (Panicked msg, tr') ->
  detectedBackendOf exec_LookPath lookPath newCmd tr = (Panicked msg, tr').
Proof.
  unfold DetectBackend. intros H.
  apply bind_Panicked in H as [H|(det & tr1 & _ & H)]; [exact H|].
  revert H. io_unfold. repeat case_decide; discriminate.
Qed.

End Selector.

(** ** The backend selector: the properties *)

(** C2. When the two legacy-mode binaries resolve and their outputs hold
    at least 10 lines starting with '-' between them, the detected backend
    is "legacy" (and that is what [DetectBackend] returns on "auto"), and,
    whatever the preference, the only commands [DetectBackend] runs are the
    two legacy-mode ones and none of its events (lookups and runs) names an
    nft-mode binary. *)
Theorem legacy_threshold_short_circuit
    (exec_LookPath : lookPathFunc) (unicodeToLower : string -> string)
    (lookPath : option lookPathFunc) (newCmd : cmdFactory)
    (tr tr1 tr2 : list Event) (ip6 ip4 : string) :
  findBestBinary exec_LookPath lookPath 6%N "legacy" "save" tr = (Returned ip6, tr1) ->
  findBestBinary exec_LookPath lookPath 4%N "legacy" "save" tr1 = (Returned ip4, tr2) ->
  countRulesInIptableOutput (newCmd tr2 ip6 []).1
  + countRulesInIptableOutput (newCmd (tr2 ++ [EvOutput ip6 []]) ip4 []).1 >= 10 ->
  (exists tr', detectedBackendOf exec_LookPath lookPath newCmd tr = (Returned "legacy", tr'))
  /\ result (DetectBackend exec_LookPath unicodeToLower lookPath newCmd "auto") tr = Returned "legacy"
  /\ forall specifiedBackend,
       exists evs,
         traceAfter (DetectBackend exec_LookPath unicodeToLower lookPath newCmd specifiedBackend) tr
         = tr ++ evs
         /\ List.filter isOutput evs = [EvOutput ip6 []; EvOutput ip4 []]
         /\ ip6 ∈ legacyCandidates /\ ip4 ∈ legacyCandidates
         /\ Forall (fun e => ~ mentionsNft e) evs.
Proof.
  intros H6 H4 Hn.
  pose proof (legacy_phase exec_LookPath lookPath newCmd tr tr1 tr2 ip6 ip4 H6 H4 Hn)
    as Hd.
  destruct (find_legacy_Returned exec_LookPath lookPath 6%N tr tr1 ip6
              ltac:(left; reflexivity) H6) as (evs6 & E6 & Hc6 & Ho6 & Hn6).
  destruct (find_legacy_Returned exec_LookPath lookPath 4%N tr1 tr2 ip4
              ltac:(right; reflexivity) H4) as (evs4 & E4 & Hc4 & Ho4 & Hn4).
  assert (Hrun6 : ~ mentionsNft (EvOutput ip6 [])).
  { revert Hc6. unfold legacyCandidates. rewrite !elem_of_cons, elem_of_nil. simpl.
    intros [->|[->|[->|[->|[]]]]] [H|H]; discriminate H. }
  assert (Hrun4 : ~ mentionsNft (EvOutput ip4 [])).
  { revert Hc4. unfold legacyCandidates. rewrite !elem_of_cons, elem_of_nil. simpl.
    intros [->|[->|[->|[->|[]]]]] [H|H]; discriminate H. }
  split; [eexists; exact Hd|].
  split.
  { unfold result. rewrite (DetectBackend_eq _ _ _ _ _ _ _ _ Hd). reflexivity. }
  intros specifiedBackend.
  unfold traceAfter. rewrite (DetectBackend_eq _ _ _ _ _ _ _ _ Hd).
  set (base := [EvOutput ip6 []; EvOutput ip4 [];
                EvLog DebugLevel "Ip6tables legacy save out";
                EvLog DebugLevel "Iptables legacy save out";
                EvLog DebugLevel "Detected Iptables backend"]).
  assert (Hshape : forall tail, Forall isLog tail ->
            exists evs, tr2 ++ base ++ tail = tr ++ evs
              /\ List.filter isOutput evs = [EvOutput ip6 []; EvOutput ip4 []]
              /\ ip6 ∈ legacyCandidates /\ ip4 ∈ legacyCandidates
              /\ Forall (fun e => ~ mentionsNft e) evs).
  { intros tail Htail. exists (evs6 ++ evs4 ++ base ++ tail).
    split; [subst tr2 tr1; repeat rewrite <- app_assoc; reflexivity|].
    split.
    - rewrite !List.filter_app, Ho6, Ho4, (filter_isOutput_logs tail Htail). reflexivity.
    - split; [exact Hc6|]. split; [exact Hc4|].
      repeat (apply Forall_app; split); try assumption.
      + unfold base. repeat constructor; try assumption; simpl; tauto.
      + eapply Forall_impl; [exact Htail|]. apply isLog_not_mentionsNft. }
  destruct (decide (ToLower unicodeToLower specifiedBackend = "auto")); simpl.
  - destruct (Hshape [] ltac:(constructor)) as (evs & E & H).
    exists evs. rewrite app_nil_r in E. split; [exact E|exact H].
  - destruct (decide (ToLower unicodeToLower specifiedBackend = "legacy")); simpl.
    + destruct (Hshape [] ltac:(constructor)) as (evs & E & H).
      exists evs. rewrite app_nil_r in E. split; [exact E|exact H].
    + destruct (Hshape [mismatchWarning] ltac:(repeat constructor)) as (evs & E & H).
      exists evs. rewrite <- app_assoc. split; [exact E|exact H].
Qed.

Lemma legacy_threshold_short_circuit_witness :
  countRulesInIptableOutput Sample.save3
  + countRulesInIptableOutput (Sample.save3 +:+ Sample.save3 +:+ Sample.save3) >= 10
  /\ result (DetectBackend (Sample.pathTable []) Sample.unicodeToLower (Some Sample.allBinaries) Sample.cmd12 "auto") []
     = Returned "legacy".
Proof.
  split; [vm_compute; discriminate|].
  apply (legacy_threshold_short_circuit (Sample.pathTable []) Sample.unicodeToLower (Some Sample.allBinaries)
           Sample.cmd12 []
           [EvLookPath "ip6tables-legacy-save"; lookedUp]
           [EvLookPath "ip6tables-legacy-save"; lookedUp;
            EvLookPath "iptables-legacy-save"; lookedUp]
           "ip6tables-legacy-save" "iptables-legacy-save").
  - vm_compute; reflexivity.
  - vm_compute; reflexivity.
  - vm_compute; discriminate.
Defined.

Lemma find_starts_with_lookup
    (exec_LookPath : lookPathFunc) (lookPath : option lookPathFunc)
    (ipVersion : N) (backendMode : string) (tr : list Event) :
  exists o evs,
    findBestBinary exec_LookPath lookPath ipVersion backendMode "save" tr
    = (o, tr ++ EvLookPath (specificName ipVersion backendMode "save") :: evs).
Proof.
  rewrite findBestBinary_eq.
  destruct (resolverOf exec_LookPath lookPath tr _).2;
    [destruct (resolverOf exec_LookPath lookPath (tr ++ _) _).2|]; eauto.
Qed.

(** C3. When the two legacy-mode binaries resolve and their outputs hold
    fewer than 10 rule lines between them, the nft-mode binaries are looked
    up; and when these resolve too, both are run and the detected backend
    is "nft" if the nft total is strictly larger than the legacy total and
    "legacy" otherwise, a tie included; so legacy 3 against nft 7 gives
    "nft".  A line counts when its first character is '-': the count of a
    text is that of its first line, one or zero, plus the count of the
    rest, so that empty lines and lines starting with '#' add nothing. *)
Theorem backend_with_more_rules
    (exec_LookPath : lookPathFunc) (unicodeToLower : string -> string)
    (lookPath : option lookPathFunc) (newCmd : cmdFactory)
    (tr tr1 tr2 : list Event) (ip6 ip4 : string) :
  findBestBinary exec_LookPath lookPath 6%N "legacy" "save" tr = (Returned ip6, tr1) ->
  findBestBinary exec_LookPath lookPath 4%N "legacy" "save" tr1 = (Returned ip4, tr2) ->
  let legacyLines :=
    countRulesInIptableOutput (newCmd tr2 ip6 []).1
    + countRulesInIptableOutput (newCmd (tr2 ++ [EvOutput ip6 []]) ip4 []).1 in
  legacyLines < 10 ->
  EvLookPath "ip6tables-nft-save"
    ∈ traceAfter (detectedBackendOf exec_LookPath lookPath newCmd) tr
  /\ (forall tr5 tr6 ip6n ip4n,
        findBestBinary exec_LookPath lookPath 6%N "nft" "save"
          (tr2 ++ [EvOutput ip6 []; EvOutput ip4 [];
                   EvLog DebugLevel "Ip6tables legacy save out";
                   EvLog DebugLevel "Iptables legacy save out"]) = (Returned ip6n, tr5) ->
        findBestBinary exec_LookPath lookPath 4%N "nft" "save" tr5 = (Returned ip4n, tr6) ->
        let nftLines :=
          countRulesInIptableOutput (newCmd tr6 ip6n []).1
          + countRulesInIptableOutput
              (newCmd (tr6 ++ [EvOutput ip6n []; EvLog DebugLevel "Ip6tables save out"])
                 ip4n []).1 in
        exists det evs,
          detectedBackendOf exec_LookPath lookPath newCmd tr = (Returned det, tr ++ evs)
          /\ result (DetectBackend exec_LookPath unicodeToLower lookPath newCmd "auto") tr = Returned det
          /\ List.filter isOutput evs
             = [EvOutput ip6 []; EvOutput ip4 []; EvOutput ip6n []; EvOutput ip4n []]
          /\ (legacyLines < nftLines -> det = "nft")
          /\ (nftLines < legacyLines -> det = "legacy")
          /\ (legacyLines = nftLines -> det = "legacy")
          /\ (legacyLines = 3 -> nftLines = 7 -> det = "nft"))
  /\ (forall line rest,
        noNewline line = true ->
        countRulesInIptableOutput (line +:+ String newline rest)
        = (if startsWithDash line then 1 else 0) + countRulesInIptableOutput rest)
  /\ (forall line,
        noNewline line = true ->
        countRulesInIptableOutput line = if startsWithDash line then 1 else 0)
  /\ (forall rest,
        countRulesInIptableOutput (String newline rest) = countRulesInIptableOutput rest)
  /\ (forall comment rest,
        noNewline comment = true ->
        countRulesInIptableOutput (String "#"%char comment +:+ String newline rest)
        = countRulesInIptableOutput rest).
Proof.
  intros H6 H4 legacyLines Hlt.
  split.
  { unfold traceAfter, detectedBackendOf.
    rewrite (bind_run _ _ _ _ _ H6), (bind_run _ _ _ _ _ H4).
    io_unfold. unfold legacyLines in Hlt.
    destruct (newCmd tr2 ip6 []) as [out6 e6].
    destruct (newCmd (tr2 ++ [EvOutput ip6 []]) ip4 []) as [out4 e4].
    simpl in *.
    destruct (Z.geb_spec (countRulesInIptableOutput out6 + countRulesInIptableOutput out4) 10)
      as [Hge|_]; [lia|].
    match goal with
    | |- context [findBestBinary _ _ 6%N "nft" "save" ?h] =>
        destruct (find_starts_with_lookup exec_LookPath lookPath 6%N "nft" h)
          as (o6 & evs6 & E6)
    end.
    rewrite E6. change (specificName 6 "nft" "save") with "ip6tables-nft-save" in *.
    destruct o6 as [ip6n|msg]; simpl; [|set_solver].
    match goal with
    | |- context [findBestBinary _ _ 4%N "nft" "save" ?h] =>
        destruct (find_starts_with_lookup exec_LookPath lookPath 4%N "nft" h)
          as (o4 & evs4 & E4)
    end.
    rewrite E4.
    destruct o4 as [ip4n|msg]; simpl; [|set_solver].
    destruct (newCmd _ ip6n []) as [out6n e6n].
    destruct (newCmd _ ip4n []) as [out4n e4n].
    simpl. destruct (_ >=? _); simpl; set_solver. }
  split.
  { intros tr5 tr6 ip6n ip4n H6n H4n nftLines.
    pose proof (nft_phase exec_LookPath lookPath newCmd tr tr1 tr2 tr5 tr6
                  ip6 ip4 ip6n ip4n H6 H4 Hlt H6n H4n) as Hd.
    fold legacyLines nftLines in Hd.
    destruct (find_Returned _ _ _ _ _ _ _ H6) as (evs6 & E6 & _ & Ho6 & _).
    destruct (find_Returned _ _ _ _ _ _ _ H4) as (evs4 & E4 & _ & Ho4 & _).
    destruct (find_Returned _ _ _ _ _ _ _ H6n) as (evs6n & E6n & _ & Ho6n & _).
    destruct (find_Returned _ _ _ _ _ _ _ H4n) as (evs4n & E4n & _ & Ho4n & _).
    eexists _, (evs6 ++ evs4
                ++ [EvOutput ip6 []; EvOutput ip4 [];
                    EvLog DebugLevel "Ip6tables legacy save out";
                    EvLog DebugLevel "Iptables legacy save out"]
                ++ evs6n ++ evs4n
                ++ [EvOutput ip6n []; EvLog DebugLevel "Ip6tables save out";
                    EvOutput ip4n []; EvLog DebugLevel "Iptables save out";
                    EvLog DebugLevel "Detected Iptables backend"]).
    split.
    { rewrite Hd. f_equal. subst tr6 tr5 tr2 tr1. repeat rewrite <- app_assoc.
      reflexivity. }
    split.
    { unfold result. rewrite (DetectBackend_eq _ _ _ _ _ _ _ _ Hd). reflexivity. }
    split.
    { rewrite !List.filter_app, Ho6, Ho4, Ho6n, Ho4n. reflexivity. }
    destruct (Z.geb_spec legacyLines nftLines) as [Hge|Hl].
    - repeat split; intros; try reflexivity; lia.
    - repeat split; intros; try reflexivity; lia. }
  split; [exact countRules_line|].
  split; [exact countRules_last_line|].
  split.
  { intros rest. apply (countRules_line EmptyString rest). reflexivity. }
  intros comment rest Hc.
  apply (countRules_line (String "#"%char comment) rest). simpl. exact Hc.
Qed.

Lemma backend_with_more_rules_witness :
  countRulesInIptableOutput EmptyString + countRulesInIptableOutput Sample.save3 = 3
  /\ countRulesInIptableOutput EmptyString + countRulesInIptableOutput Sample.save7 = 7
  /\ result (DetectBackend (Sample.pathTable []) Sample.unicodeToLower (Some Sample.allBinaries)
               Sample.cmd3vs7 "auto") [] = Returned "nft".
Proof.
  split; [vm_compute; reflexivity|]. split; [vm_compute; reflexivity|].
  destruct (backend_with_more_rules (Sample.pathTable []) Sample.unicodeToLower (Some Sample.allBinaries)
              Sample.cmd3vs7 []
              [EvLookPath "ip6tables-legacy-save"; lookedUp]
              [EvLookPath "ip6tables-legacy-save"; lookedUp;
               EvLookPath "iptables-legacy-save"; lookedUp]
              "ip6tables-legacy-save" "iptables-legacy-save"
              ltac:(vm_compute; reflexivity) ltac:(vm_compute; reflexivity)
              ltac:(vm_compute; reflexivity)) as (_ & Hnft & _).
  destruct (Hnft
              [EvLookPath "ip6tables-legacy-save"; lookedUp;
               EvLookPath "iptables-legacy-save"; lookedUp;
               EvOutput "ip6tables-legacy-save" []; EvOutput "iptables-legacy-save" [];
               EvLog DebugLevel "Ip6tables legacy save out";
               EvLog DebugLevel "Iptables legacy save out";
               EvLookPath "ip6tables-nft-save"; lookedUp]
              [EvLookPath "ip6tables-legacy-save"; lookedUp;
               EvLookPath "iptables-legacy-save"; lookedUp;
               EvOutput "ip6tables-legacy-save" []; EvOutput "iptables-legacy-save" [];
               EvLog DebugLevel "Ip6tables legacy save out";
               EvLog DebugLevel "Iptables legacy save out";
               EvLookPath "ip6tables-nft-save"; lookedUp;
               EvLookPath "iptables-nft-save"; lookedUp]
              "ip6tables-nft-save" "iptables-nft-save"
              ltac:(vm_compute; reflexivity) ltac:(vm_compute; reflexivity))
    as (det & evs & _ & Hr & _ & _ & _ & _ & H37).
  rewrite Hr. f_equal. apply H37; vm_compute; reflexivity.
Defined.

(** C4, as the code has it.  Once the detection has returned, whatever the
    preferred backend supplied: if its lower-case form is not "auto",
    [DetectBackend] returns that lower-case form (so the string itself
    when it is already in lower case), having logged one warning after the
    detection if it differs from the detected backend and nothing
    otherwise; if its lower-case form is "auto", [DetectBackend] returns
    the detected backend and logs nothing more. *)
Theorem preferred_backend_wins_lowercased
    (exec_LookPath : lookPathFunc) (unicodeToLower : string -> string)
    (lookPath : option lookPathFunc) (newCmd : cmdFactory)
    (specifiedBackend : string) (tr tr' : list Event) (det : string) :
  detectedBackendOf exec_LookPath lookPath newCmd tr = (Returned det, tr') ->
  (ToLower unicodeToLower specifiedBackend <> "auto" ->
     result (DetectBackend exec_LookPath unicodeToLower lookPath newCmd specifiedBackend) tr
     = Returned (ToLower unicodeToLower specifiedBackend))
  /\ (ToLower unicodeToLower specifiedBackend = specifiedBackend -> specifiedBackend <> "auto" ->
     result (DetectBackend exec_LookPath unicodeToLower lookPath newCmd specifiedBackend) tr
     = Returned specifiedBackend)
  /\ (ToLower unicodeToLower specifiedBackend <> "auto" -> ToLower unicodeToLower specifiedBackend <> det ->
     traceAfter (DetectBackend exec_LookPath unicodeToLower lookPath newCmd specifiedBackend) tr
     = tr' ++ [mismatchWarning])
  /\ (ToLower unicodeToLower specifiedBackend <> "auto" -> ToLower unicodeToLower specifiedBackend = det ->
     traceAfter (DetectBackend exec_LookPath unicodeToLower lookPath newCmd specifiedBackend) tr = tr')
  /\ (ToLower unicodeToLower specifiedBackend = "auto" ->
     DetectBackend exec_LookPath unicodeToLower lookPath newCmd specifiedBackend tr = (Returned det, tr')).
Proof.
  intros Hd. unfold result, traceAfter.
  rewrite (DetectBackend_eq _ _ _ _ _ _ _ _ Hd).
  repeat split.
  - intros Hna. rewrite decide_False by exact Hna. reflexivity.
  - intros Hl Hna. rewrite Hl. rewrite decide_False by exact Hna. reflexivity.
  - intros Hna Hnd. rewrite decide_False by exact Hna. simpl.
    rewrite decide_False by exact Hnd. reflexivity.
  - intros Hna Hed. rewrite decide_False by exact Hna. simpl.
    rewrite decide_True by exact Hed. reflexivity.
  - intros Ha. rewrite decide_True by exact Ha. reflexivity.
Qed.

Lemma preferred_backend_wins_lowercased_witness :
  detectedBackendOf (Sample.pathTable []) (Some Sample.allBinaries) Sample.cmd3vs7 []
  = (Returned "nft", Sample.trace3vs7)
  /\ result (DetectBackend (Sample.pathTable []) Sample.unicodeToLower (Some Sample.allBinaries)
               Sample.cmd3vs7 "legacy") [] = Returned "legacy"
  /\ traceAfter (DetectBackend (Sample.pathTable []) Sample.unicodeToLower (Some Sample.allBinaries)
                   Sample.cmd3vs7 "legacy") [] = Sample.trace3vs7 ++ [mismatchWarning].
Proof.
  assert (Hd : detectedBackendOf (Sample.pathTable []) (Some Sample.allBinaries)
                 Sample.cmd3vs7 [] = (Returned "nft", Sample.trace3vs7))
    by (vm_compute; reflexivity).
  split; [exact Hd|].
  destruct (preferred_backend_wins_lowercased (Sample.pathTable []) Sample.unicodeToLower
              (Some Sample.allBinaries) Sample.cmd3vs7 "legacy" [] Sample.trace3vs7 "nft" Hd)
    as (_ & Hv & Hw & _).
  split.
  - apply Hv; [reflexivity|discriminate].
  - apply Hw; vm_compute; discriminate.
Defined.

(** C4, as the spec has it, fails: the preference "Legacy" is not the
    "auto" sentinel, and [DetectBackend] returns "legacy", which is not the
    string supplied. *)
Lemma preferred_backend_not_verbatim :
  "Legacy" <> "auto"
  /\ result (DetectBackend (Sample.pathTable []) Sample.unicodeToLower (Some Sample.allBinaries)
               Sample.cmd3vs7 "Legacy") [] = Returned "legacy"
  /\ result (DetectBackend (Sample.pathTable []) Sample.unicodeToLower (Some Sample.allBinaries)
               Sample.cmd3vs7 "Legacy") [] <> Returned "Legacy".
Proof.
  split; [discriminate|]. split; [vm_compute; reflexivity|vm_compute; discriminate].
Qed.

Lemma findBestBinary_Panicked
    (exec_LookPath : lookPathFunc) (lookPath : option lookPathFunc)
    (ipVersion : N) (backendMode saveOrRestore : string) (tr tr' : list Event)
    (msg : string) :
  findBestBinary exec_LookPath lookPath ipVersion backendMode saveOrRestore tr
  = (Panicked msg, tr') ->
  (resolverOf exec_LookPath lookPath tr
     (specificName ipVersion backendMode saveOrRestore)).2 <> None
  /\ (resolverOf exec_LookPath lookPath
        (tr ++ [EvLookPath (specificName ipVersion backendMode saveOrRestore)])
        (genericName ipVersion saveOrRestore)).2 <> None.
Proof.
  rewrite findBestBinary_eq.
  destruct (resolverOf exec_LookPath lookPath tr _).2 as [e1|]; [|discriminate].
  destruct (resolverOf exec_LookPath lookPath (tr ++ _) _).2 as [e2|]; [|discriminate].
  intros _. split; discriminate.
Qed.

(** C9. [findBestBinary] asks the resolver (the one passed, or
    [exec.LookPath] when none is) for the family-and-mode-specific name
    first and returns that name when the resolver finds it; otherwise it
    asks for the family-specific generic name and returns it when found;
    when neither is found it panics.  The names are ip6tables-legacy-save
    then ip6tables-save, and so on for IPv4 and for nft.  And a panic of
    [DetectBackend] is always the panic of one of its calls of
    [findBestBinary], for which neither name resolved. *)
Theorem findBestBinary_resolution
    (exec_LookPath : lookPathFunc) (unicodeToLower : string -> string)
    (lookPath : option lookPathFunc)
    (ipVersion : N) (backendMode saveOrRestore : string) (tr : list Event) :
  let resolve := resolverOf exec_LookPath lookPath in
  let c1 := specificName ipVersion backendMode saveOrRestore in
  let c2 := genericName ipVersion saveOrRestore in
  ((resolve tr c1).2 = None ->
     findBestBinary exec_LookPath lookPath ipVersion backendMode saveOrRestore tr
     = (Returned c1, tr ++ [EvLookPath c1; lookedUp]))
  /\ ((resolve tr c1).2 <> None -> (resolve (tr ++ [EvLookPath c1]) c2).2 = None ->
     findBestBinary exec_LookPath lookPath ipVersion backendMode saveOrRestore tr
     = (Returned c2, tr ++ [EvLookPath c1; EvLookPath c2; lookedUp]))
  /\ ((resolve tr c1).2 <> None -> (resolve (tr ++ [EvLookPath c1]) c2).2 <> None ->
     findBestBinary exec_LookPath lookPath ipVersion backendMode saveOrRestore tr
     = (Panicked "Failed to find iptables command",
        tr ++ [EvLookPath c1; EvLookPath c2;
               EvLog PanicLevel "Failed to find iptables command"]))
  /\ (specificName 6 "legacy" "save" = "ip6tables-legacy-save"
      /\ genericName 6 "save" = "ip6tables-save"
      /\ specificName 4 "legacy" "save" = "iptables-legacy-save"
      /\ genericName 4 "save" = "iptables-save"
      /\ specificName 6 "nft" "save" = "ip6tables-nft-save"
      /\ specificName 4 "nft" "save" = "iptables-nft-save")
  /\ (forall newCmd specifiedBackend msg tr',
        DetectBackend exec_LookPath unicodeToLower lookPath newCmd specifiedBackend tr = (Panicked msg, tr') ->
        exists v mode h,
          (v = 6%N \/ v = 4%N) /\ (mode = "legacy" \/ mode = "nft")
          /\ findBestBinary exec_LookPath lookPath v mode "save" h = (Panicked msg, tr')
          /\ (resolve h (specificName v mode "save")).2 <> None
          /\ (resolve (h ++ [EvLookPath (specificName v mode "save")])
                (genericName v "save")).2 <> None).
Proof.
  intros resolve c1 c2.
  pose proof (findBestBinary_eq exec_LookPath lookPath ipVersion backendMode
                saveOrRestore tr) as E.
  fold resolve c1 c2 in E. simpl in E.
  split; [intros H1; rewrite E, H1; reflexivity|].
  split.
  { intros H1 H2. rewrite E. destruct (resolve tr c1).2; [|congruence].
    rewrite H2. reflexivity. }
  split.
  { intros H1 H2. rewrite E. destruct (resolve tr c1).2; [|congruence].
    destruct (resolve (tr ++ [EvLookPath c1]) c2).2; [reflexivity|congruence]. }
  split; [repeat split|].
  intros newCmd specifiedBackend msg tr' Hp.
  apply DetectBackend_Panicked in Hp.
  apply detectedBackendOf_Panicked in Hp as (v & mode & h & Hv & Hm & Hf).
  exists v, mode, h. split; [exact Hv|]. split; [exact Hm|]. split; [exact Hf|].
  exact (findBestBinary_Panicked _ _ _ _ _ _ _ _ Hf).
Qed.

Lemma findBestBinary_resolution_witness :
  findBestBinary (Sample.pathTable ["iptables-save"]) None 4%N "nft" "save" []
  = (Returned "iptables-save",
     [EvLookPath "iptables-nft-save"; EvLookPath "iptables-save"; lookedUp])
  /\ findBestBinary (Sample.pathTable ["iptables-save"]) None 6%N "nft" "save" []
     = (Panicked "Failed to find iptables command",
        [EvLookPath "ip6tables-nft-save"; EvLookPath "ip6tables-save";
         EvLog PanicLevel "Failed to find iptables command"])
  /\ findBestBinary (Sample.pathTable []) (Some Sample.allBinaries) 6%N "legacy" "save" []
     = (Returned "ip6tables-legacy-save", [EvLookPath "ip6tables-legacy-save"; lookedUp]).
Proof.
  split; [|split].
  - destruct (findBestBinary_resolution (Sample.pathTable ["iptables-save"])
                Sample.unicodeToLower None
                4%N "nft" "save" []) as (_ & H & _).
    apply H; [vm_compute; discriminate|vm_compute; reflexivity].
  - destruct (findBestBinary_resolution (Sample.pathTable ["iptables-save"])
                Sample.unicodeToLower None
                6%N "nft" "save" []) as (_ & _ & H & _).
    apply H; vm_compute; discriminate.
  - destruct (findBestBinary_resolution (Sample.pathTable []) Sample.unicodeToLower
                (Some Sample.allBinaries)
                6%N "legacy" "save" []) as (H & _).
    apply H. vm_compute; reflexivity.
Defined.

(** C10. [DetectBackend] compares and returns the lower-case form of the
    preference, never the preference as supplied: once the detection has
    returned, a preference whose lower-case form is "auto" ("AUTO" and
    "Auto" for instance) gives the detected backend, and any other
    preference gives its lower-case form, whether or not that is a backend
    identifier: "Foo" gives "foo", which is neither "legacy" nor "nft". *)
Theorem preference_is_lowercased
    (exec_LookPath : lookPathFunc) (unicodeToLower : string -> string)
    (lookPath : option lookPathFunc) (newCmd : cmdFactory)
    (specifiedBackend : string) (tr tr' : list Event) (det : string) :
  detectedBackendOf exec_LookPath lookPath newCmd tr = (Returned det, tr') ->
  (ToLower unicodeToLower specifiedBackend = "auto" ->
     DetectBackend exec_LookPath unicodeToLower lookPath newCmd specifiedBackend tr = (Returned det, tr'))
  /\ (ToLower unicodeToLower specifiedBackend <> "auto" ->
     result (DetectBackend exec_LookPath unicodeToLower lookPath newCmd specifiedBackend) tr
     = Returned (ToLower unicodeToLower specifiedBackend))
  /\ DetectBackend exec_LookPath unicodeToLower lookPath newCmd "AUTO" tr = (Returned det, tr')
  /\ DetectBackend exec_LookPath unicodeToLower lookPath newCmd "Auto" tr = (Returned det, tr')
  /\ result (DetectBackend exec_LookPath unicodeToLower lookPath newCmd "Foo") tr = Returned "foo"
  /\ "foo" <> "legacy" /\ "foo" <> "nft".
Proof.
  intros Hd. unfold result.
  rewrite !(DetectBackend_eq _ _ _ _ _ _ _ _ Hd).
  split; [intros Ha; rewrite decide_True by exact Ha; reflexivity|].
  split; [intros Hna; rewrite decide_False by exact Hna; reflexivity|].
  repeat split; discriminate.
Qed.

Lemma preference_is_lowercased_witness :
  detectedBackendOf (Sample.pathTable []) (Some Sample.allBinaries) Sample.cmd3vs7 []
  = (Returned "nft", Sample.trace3vs7)
  /\ ToLower Sample.unicodeToLower "auTO" = "auto"
  /\ DetectBackend (Sample.pathTable []) Sample.unicodeToLower (Some Sample.allBinaries) Sample.cmd3vs7 "auTO" []
     = (Returned "nft", Sample.trace3vs7)
  /\ result (DetectBackend (Sample.pathTable []) Sample.unicodeToLower (Some Sample.allBinaries)
               Sample.cmd3vs7 "IPTables") [] = Returned "iptables".
Proof.
  assert (Hd : detectedBackendOf (Sample.pathTable []) (Some Sample.allBinaries)
                 Sample.cmd3vs7 [] = (Returned "nft", Sample.trace3vs7))
    by (vm_compute; reflexivity).
  split; [exact Hd|]. split; [reflexivity|].
  split.
  - destruct (preference_is_lowercased (Sample.pathTable []) Sample.unicodeToLower (Some Sample.allBinaries)
                Sample.cmd3vs7 "auTO" [] Sample.trace3vs7 "nft" Hd) as (H & _).
    apply H. reflexivity.
  - destruct (preference_is_lowercased (Sample.pathTable []) Sample.unicodeToLower (Some Sample.allBinaries)
                Sample.cmd3vs7 "IPTables" [] Sample.trace3vs7 "nft" Hd) as (_ & H & _).
    apply H. vm_compute; discriminate.
Defined.

(** ** Further properties: counting rules *)

Lemma Split_nonempty (s : string) : Split s <> [].
Proof.
  induction s as [|c rest IH]; simpl; [discriminate|].
  case_decide; [discriminate|]. destruct (Split rest); discriminate.
Qed.

Lemma Split_app (a b : string) :
  Split (a +:+ String newline b) = Split a ++ Split b.
Proof.
  induction a as [|c a IH]; simpl; [reflexivity|].
  case_decide.
  - rewrite IH. reflexivity.
  - rewrite IH. destruct (Split a) as [|x xs] eqn:E; [|reflexivity].
    exfalso. exact (Split_nonempty a E).
Qed.

Lemma countRules_cons (x : string) (xs : list string) :
  fold_left
    (fun count x =>
       match x with
       | String c _ => if decide (c = "-"%char) then count + 1 else count
       | EmptyString => count
       end) (x :: xs) 0
  = (if startsWithDash x then 1 else 0)
    + fold_left
        (fun count x =>
           match x with
           | String c _ => if decide (c = "-"%char) then count + 1 else count
           | EmptyString => count
           end) xs 0.
Proof.
  simpl. rewrite countRules_shift. unfold startsWithDash.
  destruct x as [|c r]; [reflexivity|]. case_decide; reflexivity.
Qed.

(** X1. The count of two texts joined by a newline is the sum of their counts:
    the lines of the one and of the other are counted apart. *)
Theorem countRules_additive (a b : string) :
  countRulesInIptableOutput (a +:+ String newline b)
  = countRulesInIptableOutput a + countRulesInIptableOutput b.
Proof.
  unfold countRulesInIptableOutput. rewrite Split_app, fold_left_app.
  rewrite countRules_shift. reflexivity.
Qed.

Lemma countRules_list_nonneg (xs : list string) (a : Z) :
  0 <= a ->
  0 <= fold_left
         (fun count x =>
            match x with
            | String c _ => if decide (c = "-"%char) then count + 1 else count
            | EmptyString => count
            end) xs a.
Proof.
  revert a. induction xs as [|x xs IH]; intros a Ha; simpl; [assumption|].
  apply IH. destruct x as [|c r]; [assumption|]. case_decide; lia.
Qed.

(** X2. The count is never negative and never more than the number of '-' in
    the text, so never more than the number of its bytes. *)
Theorem countRules_bounds (s : string) :
  0 <= countRulesInIptableOutput s <= Z.of_nat (dashes s)
  /\ (dashes s <= String.length s)%nat.
Proof.
  split; [split; [apply countRules_nonneg|]|].
  - unfold countRulesInIptableOutput.
    induction s as [|c rest IH]; [simpl; lia|].
    cbn [Split dashes]. case_decide as Hc.
    + rewrite countRules_cons. simpl.
      case_decide as Hd; [subst c; discriminate Hd|]. simpl. lia.
    + destruct (Split rest) as [|x xs] eqn:E; [exfalso; exact (Split_nonempty rest E)|].
      rewrite countRules_cons. rewrite countRules_cons in IH.
      cbn [startsWithDash].
      pose proof (countRules_list_nonneg xs 0 ltac:(lia)) as H0.
      destruct (startsWithDash x); case_decide; lia.
  - induction s as [|c rest IH]; simpl; [lia|]. case_decide; lia.
Qed.

(** ** Further properties: the version pattern *)

Lemma str_app_cons (c : ascii) (a b : string) : String c a +:+ b = String c (a +:+ b).
Proof. reflexivity. Qed.

Lemma str_app_nil_l (a : string) : EmptyString +:+ a = a.
Proof. reflexivity. Qed.

Lemma str_app_assoc (a b c : string) : (a +:+ b) +:+ c = a +:+ (b +:+ c).
Proof.
  induction a as [|x a IH]; [reflexivity|].
  rewrite !str_app_cons, IH. reflexivity.
Qed.

Lemma str_app_nil_r (a : string) : a +:+ EmptyString = a.
Proof.
  induction a as [|x a IH]; [reflexivity|]. rewrite str_app_cons, IH. reflexivity.
Qed.

Lemma spanDigits_spec (s ds r : string) :
  spanDigits s = (ds, r) ->
  s = ds +:+ r /\ allDigits ds = true /\ startsWithDigit r = false.
Proof.
  revert ds r. induction s as [|c rest IH]; simpl; intros ds r H.
  - inversion H; subst. repeat split.
  - destruct (isDigit c) eqn:Hc.
    + destruct (spanDigits rest) as [ds' r'] eqn:E. inversion H; subst.
      destruct (IH ds' r eq_refl) as (E1 & E2 & E3).
      split; [rewrite str_app_cons, <- E1; reflexivity|].
      split; [simpl; rewrite Hc, E2; reflexivity|exact E3].
    + inversion H; subst.
      split; [reflexivity|]. split; [reflexivity|exact Hc].
Qed.

Lemma spanDigits_app (x s : string) :
  allDigits x = true ->
  spanDigits (x +:+ s) = (x +:+ (spanDigits s).1, (spanDigits s).2).
Proof.
  induction x as [|c x IH]; intros H.
  - rewrite !str_app_nil_l. destruct (spanDigits s); reflexivity.
  - simpl in H. apply andb_true_iff in H as [Hc Hx].
    rewrite str_app_cons. simpl. rewrite Hc, (IH Hx). reflexivity.
Qed.

Lemma spanDigits_no_digit (s : string) :
  startsWithDigit s = false -> spanDigits s = (EmptyString, s).
Proof. destruct s as [|c r]; simpl; intros H; [reflexivity|]. rewrite H. reflexivity. Qed.

Lemma someDigits_spec (s ds r : string) :
  someDigits s = Some (ds, r) ->
  isNumber ds /\ s = ds +:+ r /\ startsWithDigit r = false.
Proof.
  unfold someDigits. destruct (spanDigits s) as [ds' r'] eqn:E.
  destruct (spanDigits_spec _ _ _ E) as (E1 & E2 & E3).
  destruct ds' as [|c ds']; [discriminate|].
  intros H; inversion H; subst. repeat split; try assumption. discriminate.
Qed.

Lemma someDigits_app (x s : string) :
  isNumber x ->
  someDigits (x +:+ s) = Some (x +:+ (spanDigits s).1, (spanDigits s).2).
Proof.
  intros [Hne Hx]. unfold someDigits. rewrite (spanDigits_app _ _ Hx).
  destruct x as [|c x]; [congruence|]. reflexivity.
Qed.

Lemma someDigits_app_dot (x s : string) :
  isNumber x ->
  someDigits (x +:+ String "."%char s) = Some (x, String "."%char s).
Proof.
  intros Hx. rewrite (someDigits_app _ _ Hx). simpl. rewrite str_app_nil_r. reflexivity.
Qed.

Lemma matchXDotYDotZ_sound (s g : string) :
  matchXDotYDotZ s = Some g ->
  exists x y z post,
    isNumber x /\ isNumber y /\ isNumber z
    /\ g = x +:+ "." +:+ y +:+ "." +:+ z
    /\ s = g +:+ post
    /\ startsWithDigit post = false.
Proof.
  unfold matchXDotYDotZ.
  destruct (someDigits s) as [[x r1]|] eqn:E1; simpl; [|discriminate].
  destruct (someDigits_spec _ _ _ E1) as (Hx & -> & _).
  destruct r1 as [|c1 r1]; simpl; [discriminate|].
  case_decide as Hc1; simpl; [subst c1|discriminate].
  destruct (someDigits r1) as [[y r2]|] eqn:E2; simpl; [|discriminate].
  destruct (someDigits_spec _ _ _ E2) as (Hy & -> & _).
  destruct r2 as [|c2 r2]; simpl; [discriminate|].
  case_decide as Hc2; simpl; [subst c2|discriminate].
  destruct (someDigits r2) as [[z r3]|] eqn:E3; simpl; [|discriminate].
  destruct (someDigits_spec _ _ _ E3) as (Hz & -> & Hpost).
  intros H; inversion H; subst g.
  exists x, y, z, r3.
  split; [exact Hx|]. split; [exact Hy|]. split; [exact Hz|].
  split; [reflexivity|]. split; [|exact Hpost].
  rewrite !str_app_assoc. reflexivity.
Qed.

Lemma matchXDotYDotZ_complete (x y z post : string) :
  isNumber x -> isNumber y -> isNumber z ->
  matchXDotYDotZ (x +:+ "." +:+ y +:+ "." +:+ z +:+ post)
  = Some (x +:+ "." +:+ y +:+ "." +:+ z +:+ (spanDigits post).1).
Proof.
  intros Hx Hy Hz. unfold matchXDotYDotZ.
  change (x +:+ "." +:+ y +:+ "." +:+ z +:+ post)
    with (x +:+ String "."%char (y +:+ String "."%char (z +:+ post))).
  rewrite (someDigits_app_dot _ _ Hx). simpl.
  rewrite (someDigits_app_dot _ _ Hy). simpl.
  rewrite (someDigits_app _ _ Hz). simpl. reflexivity.
Qed.

Lemma FindStringSubmatch_sound (s w g : string) (more : list string) :
  FindStringSubmatch s = w :: g :: more ->
  more = []
  /\ w = String "v"%char g
  /\ exists pre x y z post,
       isNumber x /\ isNumber y /\ isNumber z
       /\ g = x +:+ "." +:+ y +:+ "." +:+ z
       /\ s = pre +:+ w +:+ post
       /\ startsWithDigit post = false.
Proof.
  induction s as [|c rest IH]; simpl; [discriminate|].
  assert (Hrec : FindStringSubmatch rest = w :: g :: more ->
            more = [] /\ w = String "v"%char g
            /\ exists pre x y z post,
                 isNumber x /\ isNumber y /\ isNumber z
                 /\ g = x +:+ "." +:+ y +:+ "." +:+ z
                 /\ String c rest = pre +:+ w +:+ post
                 /\ startsWithDigit post = false).
  { intros H. destruct (IH H) as (Hm & Hw & pre & x & y & z & post & Hx & Hy & Hz & Hg & Hs & Hp).
    split; [exact Hm|]. split; [exact Hw|].
    exists (String c pre), x, y, z, post.
    split; [exact Hx|]. split; [exact Hy|]. split; [exact Hz|].
    split; [exact Hg|]. split; [|exact Hp].
    rewrite Hs. reflexivity. }
  case_decide as Hc; [|exact Hrec].
  destruct (matchXDotYDotZ rest) as [g'|] eqn:E; [|exact Hrec].
  intros H; inversion H; subst.
  split; [reflexivity|]. split; [reflexivity|].
  destruct (matchXDotYDotZ_sound _ _ E) as (x & y & z & post & Hx & Hy & Hz & Hg & Hs & Hp).
  exists EmptyString, x, y, z, post.
  split; [exact Hx|]. split; [exact Hy|]. split; [exact Hz|].
  split; [exact Hg|]. split; [|exact Hp].
  rewrite Hs. reflexivity.
Qed.

Lemma FindStringSubmatch_complete (pre x y z post : string) :
  isNumber x -> isNumber y -> isNumber z ->
  FindStringSubmatch (pre +:+ String "v"%char (x +:+ "." +:+ y +:+ "." +:+ z +:+ post)) <> [].
Proof.
  intros Hx Hy Hz. induction pre as [|c pre IH].
  - rewrite str_app_nil_l. simpl.
    rewrite (matchXDotYDotZ_complete _ _ _ _ Hx Hy Hz). discriminate.
  - rewrite str_app_cons. simpl.
    case_decide; [|exact IH]. destruct (matchXDotYDotZ _); [discriminate|exact IH].
Qed.

(** X3. The pattern finds a match exactly in the texts that hold a 'v'
    followed by three dot-separated numbers; the match is that 'v' with
    the numbers after it, the group is the numbers, and the last number is
    taken whole (no digit follows the match). *)
Theorem regexp_match_iff_token (s : string) :
  (FindStringSubmatch s <> [] <->
   exists pre x y z post,
     isNumber x /\ isNumber y /\ isNumber z
     /\ s = pre +:+ "v" +:+ x +:+ "." +:+ y +:+ "." +:+ z +:+ post)
  /\ (forall w g more,
        FindStringSubmatch s = w :: g :: more ->
        more = [] /\ w = "v" +:+ g
        /\ exists pre x y z post,
             isNumber x /\ isNumber y /\ isNumber z
             /\ g = x +:+ "." +:+ y +:+ "." +:+ z
             /\ s = pre +:+ w +:+ post
             /\ startsWithDigit post = false).
Proof.
  split; [split|].
  - intros Hne.
    destruct (FindStringSubmatch_shape s) as [E|(w & g & E)]; [congruence|].
    destruct (FindStringSubmatch_sound _ _ _ _ E)
      as (_ & Hw & pre & x & y & z & post & Hx & Hy & Hz & Hg & Hs & _).
    exists pre, x, y, z, post. repeat (split; [assumption|]).
    rewrite Hs, Hw.
    change (String "v"%char g +:+ post) with ("v" +:+ (g +:+ post)).
    rewrite Hg, !str_app_assoc. reflexivity.
  - intros (pre & x & y & z & post & Hx & Hy & Hz & ->).
    apply (FindStringSubmatch_complete pre x y z post Hx Hy Hz).
  - intros w g more E. exact (FindStringSubmatch_sound _ _ _ _ E).
Qed.

Lemma regexp_match_iff_token_witness :
  FindStringSubmatch "iptables v1.8.4 (legacy)" = ["v1.8.4"; "1.8.4"]
  /\ exists pre x y z post,
       isNumber x /\ isNumber y /\ isNumber z
       /\ "1.8.4" = x +:+ "." +:+ y +:+ "." +:+ z
       /\ "iptables v1.8.4 (legacy)" = pre +:+ "v1.8.4" +:+ post
       /\ startsWithDigit post = false.
Proof.
  split; [reflexivity|].
  exact (proj2 (proj2 (proj2 (regexp_match_iff_token "iptables v1.8.4 (legacy)")
                         "v1.8.4" "1.8.4" [] eq_refl))).
Defined.

Lemma FindStringSubmatch_token (pre x y z post : string) :
  noV pre = true -> isNumber x -> isNumber y -> isNumber z ->
  startsWithDigit post = false ->
  FindStringSubmatch (pre +:+ "v" +:+ x +:+ "." +:+ y +:+ "." +:+ z +:+ post)
  = ["v" +:+ x +:+ "." +:+ y +:+ "." +:+ z; x +:+ "." +:+ y +:+ "." +:+ z].
Proof.
  intros Hpre Hx Hy Hz Hpost.
  change ("v" +:+ x +:+ "." +:+ y +:+ "." +:+ z +:+ post)
    with (String "v"%char (x +:+ "." +:+ y +:+ "." +:+ z +:+ post)).
  induction pre as [|c pre IH].
  - rewrite str_app_nil_l. simpl.
    rewrite (matchXDotYDotZ_complete _ _ _ _ Hx Hy Hz).
    rewrite (spanDigits_no_digit _ Hpost). simpl. rewrite str_app_nil_r. reflexivity.
  - rewrite str_app_cons. simpl in Hpre |- *.
    case_decide; [discriminate Hpre|]. apply IH. exact Hpre.
Qed.

(** X4. When no 'v' comes before the token and no digit right after it, the
    match is the token: the group is exactly the three numbers. *)
Theorem regexp_extracts_token (pre x y z post : string) :
  noV pre = true -> isNumber x -> isNumber y -> isNumber z ->
  startsWithDigit post = false ->
  FindStringSubmatch (pre +:+ "v" +:+ x +:+ "." +:+ y +:+ "." +:+ z +:+ post)
  = ["v" +:+ x +:+ "." +:+ y +:+ "." +:+ z; x +:+ "." +:+ y +:+ "." +:+ z].
Proof. exact (FindStringSubmatch_token pre x y z post). Qed.

Lemma regexp_extracts_token_witness :
  FindStringSubmatch ("iptables " +:+ "v" +:+ "1" +:+ "." +:+ "8" +:+ "." +:+ "4"
                      +:+ " (nf_tables)")
  = ["v" +:+ "1" +:+ "." +:+ "8" +:+ "." +:+ "4"; "1" +:+ "." +:+ "8" +:+ "." +:+ "4"].
Proof.
  apply (regexp_extracts_token "iptables " "1" "8" "4" " (nf_tables)");
    try reflexivity; split; (discriminate || reflexivity).
Defined.

(** ** Further properties: the feature detector *)

(** X5. When the command succeeds and prints a banner whose first 'v' starts
    a token of three numbers, the tool version is what [NewVersion] makes
    of these numbers, and 1.4.7 if [NewVersion] rejects them. *)
Theorem tool_version_from_banner {Reader : Type}
    (NewVersion : string -> option Version) (d : FeatureDetector Reader)
    (tr : list Event) (pre x y z post : string) :
  NewCmd d tr "iptables" ["--version"]
  = (pre +:+ "v" +:+ x +:+ "." +:+ y +:+ "." +:+ z +:+ post, None) ->
  noV pre = true -> isNumber x -> isNumber y -> isNumber z ->
  startsWithDigit post = false ->
  result (getIptablesVersion NewVersion d) tr
  = Returned (default (mkVersion 1 4 7) (NewVersion (x +:+ "." +:+ y +:+ "." +:+ z))).
Proof.
  intros Hcmd Hpre Hx Hy Hz Hpost.
  destruct (getIptablesVersion_run NewVersion d tr) as (logs & E & _).
  rewrite (result_of_run _ _ _ _ E). f_equal.
  unfold iptablesVersionFrom. rewrite Hcmd. simpl.
  rewrite (FindStringSubmatch_token _ _ _ _ _ Hpre Hx Hy Hz Hpost). reflexivity.
Qed.

Lemma tool_version_from_banner_witness :
  result (getIptablesVersion Sample.NewVersion (Sample.recentHost ∅)) []
  = Returned (mkVersion 1 8 4).
Proof.
  apply (tool_version_from_banner Sample.NewVersion (Sample.recentHost ∅) []
           "iptables " "1" "8" "4" " (legacy)");
    try reflexivity; split; (discriminate || reflexivity).
Defined.

Lemma getIptablesVersion_logs {Reader : Type} (NewVersion : string -> option Version)
    (d : FeatureDetector Reader) (tr : list Event) :
  exists logs,
    getIptablesVersion NewVersion d tr
    = (Returned (iptablesVersionFrom NewVersion (NewCmd d tr "iptables" ["--version"])),
       tr ++ EvOutput "iptables" ["--version"] :: logs)
    /\ Forall (fun e => plainLog e = true) logs.
Proof.
  unfold getIptablesVersion, iptablesVersionFrom, index. io_unfold.
  destruct (NewCmd d tr "iptables" ["--version"]) as [out [e|]]; simpl.
  - eexists. trace_norm. split; [reflexivity|].
    repeat (constructor; [vm_compute; reflexivity|]). constructor.
  - destruct (FindStringSubmatch_shape out) as [E|(w & g & E)]; rewrite E; simpl.
    + eexists. trace_norm. split; [reflexivity|].
      repeat (constructor; [vm_compute; reflexivity|]). constructor.
    + destruct (NewVersion g) as [v|]; simpl;
        eexists; trace_norm; (split; [reflexivity|]);
        repeat (constructor; [vm_compute; reflexivity|]); constructor.
Qed.

Lemma getKernelVersion_logs {Reader : Type} (GetKernelVersion : Reader -> option Version)
    (d : FeatureDetector Reader) (tr : list Event) :
  exists logs,
    getKernelVersion GetKernelVersion d tr
    = (Returned (kernelVersionFrom GetKernelVersion (GetKernelVersionReader d tr)),
       tr ++ EvKernelVersionReader :: logs)
    /\ Forall (fun e => plainLog e = true) logs.
Proof.
  unfold getKernelVersion, kernelVersionFrom. io_unfold.
  destruct (GetKernelVersionReader d tr) as [reader|]; simpl.
  - destruct (GetKernelVersion reader) as [v|]; simpl;
      eexists; trace_norm; (split; [reflexivity|]);
      repeat (constructor; [vm_compute; reflexivity|]); constructor.
  - eexists. trace_norm. split; [reflexivity|].
    repeat (constructor; [vm_compute; reflexivity|]). constructor.
Qed.

Lemma overrideStep_logs (logged : bool) (k v : string) (f : Features) (tr : list Event) :
  exists logs,
    overrideStep logged k v f tr = (Returned (applyOverride k v f), tr ++ logs)
    /\ Forall (fun e => isOverrideLog e = true /\ e <> changeNotice) logs
    /\ length logs = if logged then 0%nat else 1%nat.
Proof.
  unfold overrideStep, applyOverride. io_unfold.
  destruct (ParseBool v) as [b|]; [destruct (setField k b f) as [f'|]|];
    destruct logged; simpl;
    first [ exists []; rewrite app_nil_r; split; [reflexivity|];
            split; [constructor|reflexivity]
          | eexists; split; [reflexivity|]; split; [|reflexivity];
            constructor; [|constructor];
            split; [vm_compute; reflexivity|discriminate] ].
Qed.

Lemma overrideLoop_logs (logged : bool) (m : gmap string string) (f : Features)
    (tr : list Event) :
  exists logs,
    overrideLoop logged m f tr = (Returned (applyOverrides m f), tr ++ logs)
    /\ Forall (fun e => isOverrideLog e = true /\ e <> changeNotice) logs
    /\ length logs = if logged then 0%nat else size m.
Proof.
  unfold overrideLoop, applyOverrides.
  induction m as [|i x m Hi Hfirst IH] using map_first_key_ind.
  - rewrite !map_fold_empty, map_size_empty. exists []. rewrite app_nil_r.
    split; [reflexivity|]. split; [constructor|]. destruct logged; reflexivity.
  - rewrite !map_fold_insert_first_key by assumption.
    destruct IH as (logs & E & Hlogs & Hlen).
    rewrite (bind_run _ _ _ _ _ E).
    destruct (overrideStep_logs logged i x (map_fold applyOverride f m) (tr ++ logs))
      as (logs' & E' & Hlogs' & Hlen').
    exists (logs ++ logs'). rewrite app_assoc. split; [assumption|].
    split; [apply Forall_app; split; assumption|].
    rewrite length_app, Hlen, Hlen', (map_size_insert_None _ _ _ Hi).
    destruct logged; lia.
Qed.

Lemma overrideLoopIn_logs (logged : bool) (l : list (string * string)) (f : Features)
    (tr : list Event) :
  exists logs,
    overrideLoopIn logged l f tr
    = (Returned (foldr (fun kv acc => applyOverride kv.1 kv.2 acc) f l), tr ++ logs)
    /\ Forall (fun e => isOverrideLog e = true /\ e <> changeNotice) logs
    /\ length logs = if logged then 0%nat else length l.
Proof.
  unfold overrideLoopIn. induction l as [|[k v] l IH]; simpl.
  - exists []. rewrite app_nil_r.
    split; [reflexivity|]. split; [constructor|]. destruct logged; reflexivity.
  - destruct IH as (logs & E & Hlogs & Hlen).
    rewrite (bind_run _ _ _ _ _ E).
    destruct (overrideStep_logs logged k v
                (foldr (fun kv acc => applyOverride kv.1 kv.2 acc) f l) (tr ++ logs))
      as (logs' & E' & Hlogs' & Hlen').
    exists (logs ++ logs'). rewrite app_assoc. split; [assumption|].
    split; [apply Forall_app; split; assumption|].
    rewrite length_app, Hlen, Hlen'. destruct logged; lia.
Qed.

Lemma plainLog_facts (logs : list Event) :
  Forall (fun e => plainLog e = true) logs ->
  List.filter isProbe logs = [] /\ List.filter isOverrideLog logs = []
  /\ changeNotice ∉ logs.
Proof.
  induction 1 as [|e l He _ (IH1 & IH2 & IH3)]; simpl.
  - repeat split. apply not_elem_of_nil.
  - unfold plainLog in He.
    apply andb_true_iff in He as [He Hn]. apply andb_true_iff in He as [Hp Ho].
    apply negb_true_iff in Hp, Ho, Hn. rewrite Hp, Ho.
    repeat split; try assumption.
    rewrite not_elem_of_cons. split; [|assumption].
    apply bool_decide_eq_false in Hn. congruence.
Qed.

Lemma overrideLog_facts (logs : list Event) :
  Forall (fun e => isOverrideLog e = true /\ e <> changeNotice) logs ->
  List.filter isProbe logs = [] /\ List.filter isOverrideLog logs = logs
  /\ changeNotice ∉ logs.
Proof.
  induction 1 as [|e l [Ho Hn] _ (IH1 & IH2 & IH3)]; simpl.
  - repeat split. apply not_elem_of_nil.
  - rewrite Ho, IH2.
    assert (Hp : isProbe e = false) by (destruct e; simpl in *; congruence).
    rewrite Hp. repeat split; try assumption.
    rewrite not_elem_of_cons. split; [congruence|assumption].
Qed.

Lemma filter_cons_true {A : Type} (f : A -> bool) (x : A) (l : list A) :
  f x = true -> List.filter f (x :: l) = x :: List.filter f l.
Proof. intros H. simpl. rewrite H. reflexivity. Qed.

Lemma filter_cons_false {A : Type} (f : A -> bool) (x : A) (l : list A) :
  f x = false -> List.filter f (x :: l) = List.filter f l.
Proof. intros H. simpl. rewrite H. reflexivity. Qed.

(** The events of a refresh, by kind. *)
Lemma refresh_events {Reader : Type}
    (NewVersion : string -> option Version) (GetKernelVersion : Reader -> option Version)
    (d : FeatureDetector Reader) (tr : list Event) :
  exists f pre,
    RefreshFeatures NewVersion GetKernelVersion d tr
    = (Returned (refreshed d f),
       tr ++ pre ++ (if decide (featureCache d = Some f) then [] else [changeNotice]))
    /\ List.filter isProbe pre = probingCycle
    /\ length (List.filter isOverrideLog pre)
       = (if loggedOverrides d then 0%nat else size (featureOverride d))
    /\ changeNotice ∉ pre.
Proof.
  unfold RefreshFeatures.
  set (tr0 := tr ++ [EvLog DebugLevel "Refreshing detected iptables features"]).
  destruct (getIptablesVersion_logs NewVersion d tr0) as (logs1 & E1 & H1).
  set (iptV := iptablesVersionFrom NewVersion (NewCmd d tr0 "iptables" ["--version"])) in *.
  set (tr1 := tr0 ++ EvOutput "iptables" ["--version"] :: logs1) in *.
  destruct (getKernelVersion_logs GetKernelVersion d tr1) as (logs2 & E2 & H2).
  set (kerV := kernelVersionFrom GetKernelVersion (GetKernelVersionReader d tr1)) in *.
  set (tr2 := tr1 ++ EvKernelVersionReader :: logs2) in *.
  destruct (overrideLoop_logs (loggedOverrides d) (featureOverride d)
              (computeFeatures iptV kerV) tr2) as (logs3 & E3 & H3 & Hlen).
  set (f := applyOverrides (featureOverride d) (computeFeatures iptV kerV)) in *.
  destruct (plainLog_facts _ H1) as (P1 & O1 & N1).
  destruct (plainLog_facts _ H2) as (P2 & O2 & N2).
  destruct (overrideLog_facts _ H3) as (P3 & O3 & N3).
  exists f, (EvLog DebugLevel "Refreshing detected iptables features"
             :: EvOutput "iptables" ["--version"]
             :: logs1 ++ EvKernelVersionReader :: logs2 ++ logs3).
  split; [|split; [|split]].
  - unfold refreshFeaturesLockHeld.
    rewrite (bind_run (logAt DebugLevel "Refreshing detected iptables features") _ tr tr0 tt)
      by reflexivity.
    rewrite (bind_run _ _ _ _ _ E1), (bind_run _ _ _ _ _ E2), (bind_run _ _ _ _ _ E3).
    fold f. simpl.
    assert (Htr : tr2 ++ logs3
                  = tr ++ [EvLog DebugLevel "Refreshing detected iptables features"]
                       ++ (EvOutput "iptables" ["--version"] :: logs1)
                       ++ (EvKernelVersionReader :: logs2) ++ logs3).
    { unfold tr2, tr1, tr0. repeat rewrite <- app_assoc. reflexivity. }
    case_decide as Hc.
    + rewrite decide_False.
      2:{ intros Heq. destruct Hc as [Hc|Hc]; congruence. }
      io_unfold. unfold refreshed. simpl. f_equal.
      rewrite Htr. simpl. repeat (rewrite <- app_assoc; simpl). reflexivity.
    + assert (Heq : featureCache d = Some f).
      { destruct (featureCache d) as [c|] eqn:Ec.
        - destruct (decide (c = f)) as [->|Hne]; [reflexivity|].
          exfalso. apply Hc. right. congruence.
        - exfalso. apply Hc. left. reflexivity. }
      rewrite decide_True by exact Heq.
      unfold mret, IO_ret, refreshed. rewrite Heq, Htr, !app_nil_r. reflexivity.
  - rewrite (filter_cons_false isProbe) by reflexivity.
    rewrite (filter_cons_true isProbe) by reflexivity.
    rewrite List.filter_app, (filter_cons_true isProbe) by reflexivity.
    rewrite List.filter_app, P1, P2, P3. reflexivity.
  - rewrite !(filter_cons_false isOverrideLog) by reflexivity.
    rewrite List.filter_app, (filter_cons_false isOverrideLog) by reflexivity.
    rewrite List.filter_app, O1, O2, O3. simpl. exact Hlen.
  - rewrite !elem_of_cons, elem_of_app, elem_of_cons, elem_of_app.
    intros [H|[H|[H|[H|[H|H]]]]]; try discriminate H; tauto.
Qed.

(** X6. The override messages are logged by the first refresh of a detector
    only: a refresh of a detector that has not logged its overrides yet
    logs one message per entry of the override map, a refresh of one that
    has logs none, and every refresh leaves the detector marked as having
    logged them. *)
Theorem override_messages_once {Reader : Type}
    (NewVersion : string -> option Version) (GetKernelVersion : Reader -> option Version)
    (d : FeatureDetector Reader) (tr : list Event) :
  exists d' evs,
    RefreshFeatures NewVersion GetKernelVersion d tr = (Returned d', tr ++ evs)
    /\ loggedOverrides d' = true
    /\ length (List.filter isOverrideLog evs)
       = (if loggedOverrides d then 0%nat else size (featureOverride d)).
Proof.
  destruct (refresh_events NewVersion GetKernelVersion d tr)
    as (f & pre & Hr & _ & Ho & _).
  eexists _, _. split; [exact Hr|]. split; [reflexivity|].
  rewrite List.filter_app, length_app, Ho.
  case_decide; simpl; lia.
Qed.

(** X7. A refresh logs the notice "Updating detected iptables features"
    exactly when it changes the cache: when the new flags are those of the
    cache the notice is absent and the detector keeps its cache; otherwise
    the notice is the last event, and the only one of its kind. *)
Theorem change_notice_iff_cache_changes {Reader : Type}
    (NewVersion : string -> option Version) (GetKernelVersion : Reader -> option Version)
    (d : FeatureDetector Reader) (tr : list Event) :
  exists d' evs,
    RefreshFeatures NewVersion GetKernelVersion d tr = (Returned d', tr ++ evs)
    /\ (featureCache d' = featureCache d -> changeNotice ∉ evs)
    /\ (featureCache d' <> featureCache d ->
        exists pre, evs = pre ++ [changeNotice] /\ changeNotice ∉ pre).
Proof.
  destruct (refresh_events NewVersion GetKernelVersion d tr)
    as (f & pre & Hr & _ & _ & Hn).
  eexists _, _. split; [exact Hr|]. simpl. split.
  - intros Heq. rewrite decide_True by congruence. rewrite app_nil_r. exact Hn.
  - intros Hne. rewrite decide_False by congruence. exists pre. split; [reflexivity|exact Hn].
Qed.

Lemma change_notice_iff_cache_changes_witness :
  exists d' evs,
    RefreshFeatures Sample.NewVersion Sample.GetKernelVersion Sample.warmHost []
    = (Returned d', [] ++ evs)
    /\ changeNotice ∉ evs.
Proof.
  destruct (change_notice_iff_cache_changes Sample.NewVersion Sample.GetKernelVersion
              Sample.warmHost []) as (d' & evs & Hr & Hsame & _).
  exists d', evs. split; [exact Hr|]. apply Hsame.
  assert (E : RefreshFeatures Sample.NewVersion Sample.GetKernelVersion Sample.warmHost []
              = (Returned Sample.warmHost,
                 [EvLog DebugLevel "Refreshing detected iptables features";
                  EvOutput "iptables" ["--version"];
                  EvLog DebugLevel "Ran iptables --version";
                  EvLog DebugLevel "Parsed iptables version";
                  EvKernelVersionReader])) by (vm_compute; reflexivity).
  rewrite E in Hr. inversion Hr. reflexivity.
Defined.

(** X8. A [GetFeatures] after a refresh returns what the refresh published,
    with no event, whatever happens in between to the trace. *)
Theorem GetFeatures_after_refresh {Reader : Type}
    (NewVersion : string -> option Version) (GetKernelVersion : Reader -> option Version)
    (d d' : FeatureDetector Reader) (tr tr' : list Event) :
  RefreshFeatures NewVersion GetKernelVersion d tr = (Returned d', tr') ->
  exists f,
    featureCache d' = Some f
    /\ forall tr'',
         GetFeatures NewVersion GetKernelVersion d' tr'' = (Returned (Some f, d'), tr'').
Proof.
  intros Hr.
  destruct (refresh_events NewVersion GetKernelVersion d tr) as (f & pre & Hr' & _).
  rewrite Hr in Hr'. inversion Hr'; subst d'.
  exists f. split; [reflexivity|].
  intros tr''. apply GetFeatures_cached. reflexivity.
Qed.

Lemma GetFeatures_after_refresh_witness :
  exists f,
    featureCache (refreshed Host.staleHost (mkFeatures true true true false)) = Some f
    /\ forall tr'',
         GetFeatures Sample.NewVersion Sample.GetKernelVersion
           (refreshed Host.staleHost (mkFeatures true true true false)) tr''
         = (Returned (Some f, refreshed Host.staleHost (mkFeatures true true true false)),
            tr'').
Proof.
  apply (GetFeatures_after_refresh Sample.NewVersion Sample.GetKernelVersion
           Host.staleHost _ []
           [EvLog DebugLevel "Refreshing detected iptables features";
            EvOutput "iptables" ["--version"];
            EvLog DebugLevel "Ran iptables --version";
            EvLog DebugLevel "Parsed iptables version";
            EvKernelVersionReader;
            changeNotice]).
  vm_compute. reflexivity.
Defined.

Lemma runOps_account {Reader : Type}
    (NewVersion : string -> option Version) (GetKernelVersion : Reader -> option Version)
    (ops : list Op) :
  forall (d : FeatureDetector Reader) (tr : list Event),
  exists d' evs,
    runOps NewVersion GetKernelVersion ops d tr = (Returned d', tr ++ evs)
    /\ featureOverride d' = featureOverride d
    /\ NewCmd d' = NewCmd d
    /\ GetKernelVersionReader d' = GetKernelVersionReader d
    /\ cacheFilled d' = (cacheFilled d || negb (cyclesOf (cacheFilled d) ops =? 0)%nat)
    /\ List.filter isProbe evs
       = mjoin (replicate (cyclesOf (cacheFilled d) ops) probingCycle)
    /\ length (List.filter isOverrideLog evs)
       = (if loggedOverrides d then 0%nat
          else if (cyclesOf (cacheFilled d) ops =? 0)%nat then 0%nat
               else size (featureOverride d)).
Proof.
  induction ops as [|op rest IH]; intros d tr.
  - exists d, []. rewrite app_nil_r. simpl.
    repeat split; try reflexivity.
    + rewrite orb_false_r. reflexivity.
    + destruct (loggedOverrides d); reflexivity.
  - assert (Hrefresh :
      forall k : FeatureDetector Reader -> IO (FeatureDetector Reader),
        (forall d1 tr1, k d1 tr1 = runOps NewVersion GetKernelVersion rest d1 tr1) ->
        exists d' evs,
          (RefreshFeatures NewVersion GetKernelVersion d ≫= k) tr = (Returned d', tr ++ evs)
          /\ featureOverride d' = featureOverride d
          /\ NewCmd d' = NewCmd d
          /\ GetKernelVersionReader d' = GetKernelVersionReader d
          /\ cacheFilled d' = true
          /\ List.filter isProbe evs
             = mjoin (replicate (1 + cyclesOf true rest) probingCycle)
          /\ length (List.filter isOverrideLog evs)
             = (if loggedOverrides d then 0%nat else size (featureOverride d))).
    { intros k Hk.
      destruct (refresh_events NewVersion GetKernelVersion d tr)
        as (f & pre & Hr & Hp & Ho & _).
      rewrite (bind_run _ _ _ _ _ Hr), Hk.
      destruct (IH (refreshed d f)
                  (tr ++ pre ++ (if decide (featureCache d = Some f) then []
                                 else [changeNotice])))
        as (d' & evs & E & H1 & H2 & H3 & H4 & H5 & H6).
      exists d', ((pre ++ (if decide (featureCache d = Some f) then []
                           else [changeNotice])) ++ evs).
      split; [rewrite E, <- !app_assoc; reflexivity|].
      split; [exact H1|]. split; [exact H2|]. split; [exact H3|].
      split; [rewrite H4; reflexivity|].
      split.
      - rewrite !List.filter_app, Hp, H5. simpl.
        case_decide; simpl; rewrite ?app_nil_r; reflexivity.
      - rewrite !List.filter_app, !length_app, Ho, H6. simpl.
        case_decide; simpl; lia. }
    destruct op.
    + cbn [runOps cyclesOf].
      destruct (featureCache d) as [c|] eqn:Hc.
      * assert (Hf : cacheFilled d = true) by (unfold cacheFilled; rewrite Hc; reflexivity).
        rewrite Hf.
        rewrite (bind_run _ _ _ _ _
                   (GetFeatures_cached NewVersion GetKernelVersion d tr c Hc)).
        simpl. destruct (IH d tr) as (d' & evs & E & H1 & H2 & H3 & H4 & H5 & H6).
        rewrite Hf in H4, H5, H6.
        exists d', evs. repeat split; assumption.
      * assert (Hf : cacheFilled d = false) by (unfold cacheFilled; rewrite Hc; reflexivity).
        rewrite Hf.
        destruct (Hrefresh (fun d1 => runOps NewVersion GetKernelVersion rest d1)
                    ltac:(reflexivity))
          as (d' & evs & E & H1 & H2 & H3 & H4 & H5 & H6).
        exists d', evs.
        split.
        { rewrite <- E. unfold GetFeatures. rewrite Hc.
          rewrite decide_True by reflexivity.
          unfold mbind, IO_bind, mret, IO_ret, RefreshFeatures.
          destruct (refreshFeaturesLockHeld NewVersion GetKernelVersion d tr)
            as [[d1|msg] tr1]; reflexivity. }
        split; [exact H1|]. split; [exact H2|]. split; [exact H3|].
        split; [rewrite H4; reflexivity|].
        split; [exact H5|exact H6].
    + cbn [runOps cyclesOf].
      destruct (Hrefresh (fun d1 => runOps NewVersion GetKernelVersion rest d1)
                  ltac:(reflexivity))
        as (d' & evs & E & H1 & H2 & H3 & H4 & H5 & H6).
      exists d', evs. split; [exact E|].
      split; [exact H1|]. split; [exact H2|]. split; [exact H3|].
      split; [rewrite H4, orb_true_r; reflexivity|].
      split; [exact H5|exact H6].
Qed.

Lemma cyclesOf_closed (filled : bool) (ops : list Op) :
  cyclesOf filled ops
  = (length (List.filter isRefresh ops)
     + match ops with
       | OpGetFeatures :: _ => if filled then 0 else 1
       | _ => 0
       end)%nat.
Proof.
  revert filled. induction ops as [|op rest IH]; intros filled; [reflexivity|].
  destruct op; cbn [cyclesOf List.filter isRefresh length].
  - rewrite IH. destruct rest as [|[] rest']; destruct filled; simpl; lia.
  - rewrite IH. destruct rest as [|[] rest']; simpl; lia.
Qed.

(** X9. Over the life of a detector, whatever methods are called on it and in
    whatever order, the override messages are logged once: the events of
    any non-empty run of [GetFeatures] and [RefreshFeatures] on a new
    detector hold exactly one override message per entry of the override
    map, and the map is the same at the end. *)
Theorem override_messages_once_per_lifetime {Reader : Type}
    (NewVersion : string -> option Version) (GetKernelVersion : Reader -> option Version)
    (reader : list Event -> option Reader) (cmd : cmdFactory)
    (overrides : gmap string string) (ops : list Op) (tr : list Event) :
  exists d' evs,
    runOps NewVersion GetKernelVersion ops (NewFeatureDetector reader cmd overrides) tr
    = (Returned d', tr ++ evs)
    /\ featureOverride d' = overrides
    /\ length (List.filter isOverrideLog evs)
       = match ops with
         | [] => 0%nat
         | _ :: _ => size overrides
         end.
Proof.
  destruct (runOps_account NewVersion GetKernelVersion ops
              (NewFeatureDetector reader cmd overrides) tr)
    as (d' & evs & E & H1 & _ & _ & _ & _ & H6).
  exists d', evs. split; [exact E|]. split; [exact H1|].
  rewrite H6. simpl. destruct ops as [|[] rest]; reflexivity.
Qed.

(** X10. The probes of a run of [GetFeatures] and [RefreshFeatures] on a
    detector are those of as many probing cycles as there are
    [RefreshFeatures] in the run, plus one if the cache was empty and the
    run starts with a [GetFeatures]; the detector ends with a filled cache
    unless the run is empty, and with the collaborators and the overrides
    it had. *)
Theorem probes_of_a_run {Reader : Type}
    (NewVersion : string -> option Version) (GetKernelVersion : Reader -> option Version)
    (ops : list Op) (d : FeatureDetector Reader) (tr : list Event) :
  exists d' evs,
    runOps NewVersion GetKernelVersion ops d tr = (Returned d', tr ++ evs)
    /\ List.filter isProbe evs
       = mjoin (replicate
                  (length (List.filter isRefresh ops)
                   + match ops with
                     | OpGetFeatures :: _ => if cacheFilled d then 0 else 1
                     | _ => 0
                     end)
                  [EvOutput "iptables" ["--version"]; EvKernelVersionReader])
    /\ (ops <> [] -> cacheFilled d' = true)
    /\ featureOverride d' = featureOverride d
    /\ NewCmd d' = NewCmd d
    /\ GetKernelVersionReader d' = GetKernelVersionReader d.
Proof.
  destruct (runOps_account NewVersion GetKernelVersion ops d tr)
    as (d' & evs & E & H1 & H2 & H3 & H4 & H5 & _).
  exists d', evs. split; [exact E|].
  split; [rewrite H5, cyclesOf_closed; reflexivity|].
  split; [|repeat split; assumption].
  intros Hne. rewrite H4, cyclesOf_closed.
  destruct ops as [|[] rest]; [congruence| |].
  - destruct (cacheFilled d); simpl; [reflexivity|].
    rewrite Nat.add_1_r. reflexivity.
  - simpl. rewrite orb_true_r. reflexivity.
Qed.

Lemma probes_of_a_run_witness :
  exists d' evs,
    runOps Sample.NewVersion Sample.GetKernelVersion
      [OpGetFeatures; OpGetFeatures; OpRefreshFeatures; OpGetFeatures]
      (Sample.recentHost ∅) [] = (Returned d', [] ++ evs)
    /\ List.filter isProbe evs
       = [EvOutput "iptables" ["--version"]; EvKernelVersionReader;
          EvOutput "iptables" ["--version"]; EvKernelVersionReader]
    /\ cacheFilled d' = true.
Proof.
  destruct (probes_of_a_run Sample.NewVersion Sample.GetKernelVersion
              [OpGetFeatures; OpGetFeatures; OpRefreshFeatures; OpGetFeatures]
              (Sample.recentHost ∅) [])
    as (d' & evs & E & Hp & Hf & _).
  exists d', evs. split; [exact E|]. split; [exact Hp|].
  apply Hf. discriminate.
Defined.

(** X11. After a refresh, a flag that has no entry in the override map, or an
    entry whose value does not parse, holds the value computed from the
    versions. *)
Theorem unoverridden_flags_are_computed {Reader : Type}
    (NewVersion : string -> option Version) (GetKernelVersion : Reader -> option Version)
    (d : FeatureDetector Reader) (tr : list Event) (t k : Version) (tr1 tr2 : list Event) :
  getIptablesVersion NewVersion d
    (tr ++ [EvLog DebugLevel "Refreshing detected iptables features"]) = (Returned t, tr1) ->
  getKernelVersion GetKernelVersion d tr1 = (Returned k, tr2) ->
  exists d' tr' f,
    RefreshFeatures NewVersion GetKernelVersion d tr = (Returned d', tr')
    /\ featureCache d' = Some f
    /\ (featureOverride d !! "SNATFullyRandom" ≫= ParseBool = None ->
        SNATFullyRandom f = SNATFullyRandom (computeFeatures t k))
    /\ (featureOverride d !! "MASQFullyRandom" ≫= ParseBool = None ->
        MASQFullyRandom f = MASQFullyRandom (computeFeatures t k))
    /\ (featureOverride d !! "RestoreSupportsLock" ≫= ParseBool = None ->
        RestoreSupportsLock f = RestoreSupportsLock (computeFeatures t k))
    /\ (featureOverride d !! "ChecksumOffloadBroken" ≫= ParseBool = None ->
        ChecksumOffloadBroken f = ChecksumOffloadBroken (computeFeatures t k)).
Proof.
  intros Ht Hk.
  destruct (refreshFeaturesLockHeld_run NewVersion GetKernelVersion d tr)
    as (t' & k' & tr1' & tr2' & evs & Ht' & Hk' & Hr & _).
  rewrite Ht in Ht'. inversion Ht'; subst t' tr1'.
  rewrite Hk in Hk'. inversion Hk'; subst k' tr2'.
  set (c := computeFeatures t k) in *.
  set (f := applyOverrides (featureOverride d) c) in *.
  exists (refreshed d f), (tr ++ evs), f.
  split; [exact Hr|]. split; [reflexivity|].
  assert (Hkeep : forall name old,
            getField name c = Some old ->
            featureOverride d !! name ≫= ParseBool = None ->
            getField name f = Some old).
  { intros name old Hold Hnone. unfold f.
    rewrite getField_applyOverrides, Hold, Hnone. reflexivity. }
  split; [|split; [|split]]; intros Hnone.
  - assert (H : Some (SNATFullyRandom f) = Some (SNATFullyRandom c))
      by exact (Hkeep "SNATFullyRandom" _ eq_refl Hnone).
    congruence.
  - assert (H : Some (MASQFullyRandom f) = Some (MASQFullyRandom c))
      by exact (Hkeep "MASQFullyRandom" _ eq_refl Hnone).
    congruence.
  - assert (H : Some (RestoreSupportsLock f) = Some (RestoreSupportsLock c))
      by exact (Hkeep "RestoreSupportsLock" _ eq_refl Hnone).
    congruence.
  - assert (H : Some (ChecksumOffloadBroken f) = Some (ChecksumOffloadBroken c))
      by exact (Hkeep "ChecksumOffloadBroken" _ eq_refl Hnone).
    congruence.
Qed.

Lemma unoverridden_flags_are_computed_witness :
  featureOverride Host.staleHost !! "MASQFullyRandom" ≫= ParseBool = None
  /\ exists d' tr' f,
       RefreshFeatures Sample.NewVersion Sample.GetKernelVersion Host.staleHost []
       = (Returned d', tr')
       /\ featureCache d' = Some f
       /\ MASQFullyRandom f = true.
Proof.
  assert (Hm : featureOverride Host.staleHost !! "MASQFullyRandom" ≫= ParseBool = None)
    by (vm_compute; reflexivity).
  split; [exact Hm|].
  destruct (unoverridden_flags_are_computed Sample.NewVersion Sample.GetKernelVersion
              Host.staleHost [] (mkVersion 1 8 4) (mkVersion 5 15 0)
              [EvLog DebugLevel "Refreshing detected iptables features";
               EvOutput "iptables" ["--version"];
               EvLog DebugLevel "Ran iptables --version";
               EvLog DebugLevel "Parsed iptables version"]
              [EvLog DebugLevel "Refreshing detected iptables features";
               EvOutput "iptables" ["--version"];
               EvLog DebugLevel "Ran iptables --version";
               EvLog DebugLevel "Parsed iptables version";
               EvKernelVersionReader]
              ltac:(vm_compute; reflexivity) ltac:(vm_compute; reflexivity))
    as (d' & tr' & f & Hr & Hc & _ & HM & _).
  exists d', tr', f. split; [exact Hr|]. split; [exact Hc|].
  rewrite (HM Hm). reflexivity.
Defined.

Lemma lex_le_trans_const (a b t : Version) :
  lex_le a b -> lex_le b t -> lex_le a t.
Proof.
  destruct a as [a1 a2 a3], b as [b1 b2 b3], t as [t1 t2 t3].
  unfold lex_le, lex_lt; simpl.
  intros [H1|H1] [H2|H2]; try (inversion H1; subst); try (inversion H2; subst);
    first [ right; reflexivity | left; lia ].
Qed.

(** X12. The computed flags hang together: MASQFullyRandom implies
    SNATFullyRandom and RestoreSupportsLock; a tool with the restore lock
    on a kernel whose checksum offload is not broken has both random-fully
    flags; SNATFullyRandom and MASQFullyRandom differ only for a tool
    without the restore lock. *)
Theorem computed_flags_hang_together (t k : Version) :
  let c := computeFeatures t k in
  (MASQFullyRandom c = true -> SNATFullyRandom c = true /\ RestoreSupportsLock c = true)
  /\ (RestoreSupportsLock c = true -> ChecksumOffloadBroken c = false ->
      SNATFullyRandom c = true /\ MASQFullyRandom c = true)
  /\ (RestoreSupportsLock c = true -> SNATFullyRandom c = MASQFullyRandom c).
Proof.
  intros c. destruct (computeFeatures_flags t k) as (HS & HM & HR & HC).
  fold c in HS, HM, HR, HC.
  assert (H60 : lex_le (mkVersion 1 6 0) (mkVersion 1 6 2)).
  { left. unfold lex_lt; simpl. lia. }
  assert (H314 : lex_le (mkVersion 3 14 0) (mkVersion 5 15 0)).
  { left. unfold lex_lt; simpl. lia. }
  assert (Htotal : forall a b, ~ lex_lt a b -> lex_le b a).
  { intros a b Hn. destruct (Compare_trichotomy a b) as [[_ H]|[[_ H]|[_ H]]].
    - contradiction.
    - right. congruence.
    - left. exact H. }
  split; [|split].
  - intros Hm. apply HM in Hm as [Ht Hk]. split.
    + apply HS. split; [exact (lex_le_trans_const _ _ _ H60 Ht)|exact Hk].
    + apply HR. exact Ht.
  - intros Hr Hc. apply HR in Hr.
    assert (Hk : lex_le (mkVersion 5 15 0) k).
    { apply Htotal. intros Hlt. apply HC in Hlt. congruence. }
    pose proof (lex_le_trans_const _ _ _ H314 Hk) as Hk'.
    split; [apply HS|apply HM]; split; try assumption.
    exact (lex_le_trans_const _ _ _ H60 Hr).
  - intros Hr. apply HR in Hr.
    apply Bool.eq_iff_eq_true. rewrite HS, HM.
    split; intros [_ Hk]; (split; [|exact Hk]).
    + exact Hr.
    + exact (lex_le_trans_const _ _ _ H60 Hr).
Qed.

Lemma computed_flags_hang_together_witness :
  MASQFullyRandom (computeFeatures (mkVersion 1 8 4) (mkVersion 4 19 0)) = true
  /\ SNATFullyRandom (computeFeatures (mkVersion 1 8 4) (mkVersion 4 19 0)) = true
  /\ RestoreSupportsLock (computeFeatures (mkVersion 1 8 4) (mkVersion 4 19 0)) = true.
Proof.
  assert (Hm : MASQFullyRandom (computeFeatures (mkVersion 1 8 4) (mkVersion 4 19 0)) = true)
    by reflexivity.
  split; [exact Hm|].
  exact (proj1 (computed_flags_hang_together (mkVersion 1 8 4) (mkVersion 4 19 0)) Hm).
Defined.

(** X13. When the command of the tool probe fails and the kernel version reader
    cannot be had, at any time, a refresh publishes the flags of the oldest
    supported versions under the overrides: no optional feature and a
    broken checksum offload, when there is no override. *)
Theorem failed_probes_give_oldest_flags {Reader : Type}
    (NewVersion : string -> option Version) (GetKernelVersion : Reader -> option Version)
    (d : FeatureDetector Reader) (tr : list Event) :
  (forall h, (NewCmd d h "iptables" ["--version"]).2 <> None) ->
  (forall h, GetKernelVersionReader d h = None) ->
  exists tr',
    RefreshFeatures NewVersion GetKernelVersion d tr
    = (Returned (refreshed d (applyOverrides (featureOverride d)
                                (mkFeatures false false false true))), tr')
    /\ (featureOverride d = ∅ -> featureCache d = None ->
        result (GetFeatures NewVersion GetKernelVersion d) tr
        = Returned (Some (mkFeatures false false false true),
                    refreshed d (mkFeatures false false false true))).
Proof.
  intros Hcmd Hker.
  destruct (refreshFeaturesLockHeld_run NewVersion GetKernelVersion d tr)
    as (t & k & tr1 & tr2 & evs & Ht & Hk & Hr & _).
  assert (Et : t = v1Dot4Dot7).
  { destruct (getIptablesVersion_run NewVersion d
                (tr ++ [EvLog DebugLevel "Refreshing detected iptables features"]))
      as (logs & E & _).
    rewrite Ht in E. inversion E as [[Hv Htr]]. unfold iptablesVersionFrom.
    pose proof (Hcmd (tr ++ [EvLog DebugLevel "Refreshing detected iptables features"]))
      as Hne.
    destruct (NewCmd d _ "iptables" ["--version"]).2; [reflexivity|congruence]. }
  assert (Ek : k = v3Dot10Dot0).
  { destruct (getKernelVersion_run GetKernelVersion d tr1) as (logs & E & _).
    rewrite Hk in E. inversion E as [[Hv Htr]]. rewrite (Hker tr1). reflexivity. }
  subst t k.
  exists (tr ++ evs). split; [exact Hr|].
  intros He Hc. unfold result.
  rewrite (GetFeatures_empty _ _ _ _ _ _ Hc Hr). simpl.
  rewrite He. unfold applyOverrides. rewrite map_fold_empty. reflexivity.
Qed.

Lemma failed_probes_give_oldest_flags_witness :
  result (GetFeatures Sample.NewVersion Sample.GetKernelVersion Sample.brokenHost) []
  = Returned (Some (mkFeatures false false false true),
              refreshed Sample.brokenHost (mkFeatures false false false true)).
Proof.
  destruct (failed_probes_give_oldest_flags Sample.NewVersion Sample.GetKernelVersion
              Sample.brokenHost []
              ltac:(intros h; vm_compute; discriminate)
              ltac:(intros h; reflexivity)) as (tr' & _ & H).
  apply H; reflexivity.
Defined.

(** X14. The flags that the loop over the overrides leaves do not depend on the
    order in which Go hands out the entries of the map: run over any
    enumeration of the map, the loop returns the same flags, and logs as
    many messages. *)
Theorem override_loop_any_order (logged : bool) (m : gmap string string)
    (entries : list (string * string)) (f : Features) (tr : list Event) :
  entries ≡ₚ map_to_list m ->
  exists logs logs',
    overrideLoopIn logged entries f tr = (Returned (applyOverrides m f), tr ++ logs)
    /\ overrideLoop logged m f tr = (Returned (applyOverrides m f), tr ++ logs')
    /\ length logs = length logs'
    /\ Forall (fun e => isOverrideLog e = true) logs
    /\ Forall (fun e => isOverrideLog e = true) logs'.
Proof.
  intros Hp.
  destruct (overrideLoopIn_logs logged entries f tr) as (logs & E & Hl & Hn).
  destruct (overrideLoop_logs logged m f tr) as (logs' & E' & Hl' & Hn').
  exists logs, logs'.
  rewrite (applyOverrides_any_order m f entries Hp) in E.
  split; [exact E|]. split; [exact E'|].
  split.
  - rewrite Hn, Hn'. destruct logged; [reflexivity|].
    rewrite Hp. unfold size, map_size. rewrite length_map_to_list. reflexivity.
  - split; eapply Forall_impl; eauto; intros e [H _]; exact H.
Qed.

Lemma override_loop_any_order_witness :
  exists logs,
    overrideLoopIn false
      [("SNATFullyRandom", "false"); ("NoSuchFlag", "true"); ("MASQFullyRandom", "maybe")]
      (mkFeatures true true true false) []
    = (Returned (mkFeatures false true true false), [] ++ logs)
    /\ length logs = 3%nat.
Proof.
  destruct (override_loop_any_order false
              (list_to_map [("MASQFullyRandom", "maybe"); ("SNATFullyRandom", "false");
                            ("NoSuchFlag", "true")])
              [("SNATFullyRandom", "false"); ("NoSuchFlag", "true");
               ("MASQFullyRandom", "maybe")]
              (mkFeatures true true true false) [])
    as (logs & logs' & E & E' & Hlen & _).
  - assert (Hl : map_to_list
                   (list_to_map [("MASQFullyRandom", "maybe"); ("SNATFullyRandom", "false");
                                 ("NoSuchFlag", "true")] : gmap string string)
                 = [("SNATFullyRandom", "false"); ("MASQFullyRandom", "maybe");
                    ("NoSuchFlag", "true")]) by (vm_compute; reflexivity).
    rewrite Hl. apply perm_skip, perm_swap.
  - exists logs. split.
    + rewrite E; repeat f_equal; vm_compute; reflexivity.
    + rewrite Hlen. vm_compute in E'. inversion E'. reflexivity.
Defined.


(** ** Further properties: the backend selector *)

(** X15. The errors of the save commands play no part: two command runners
    that give the same output, whatever errors they give, lead
    [DetectBackend] to the same result and the same events.  So the output
    of a command that failed is counted like any other. *)
Theorem detection_ignores_command_errors
    (exec_LookPath : lookPathFunc) (unicodeToLower : string -> string)
    (lookPath : option lookPathFunc) (newCmd newCmd' : cmdFactory)
    (specifiedBackend : string) (tr : list Event) :
  (forall h name args, (newCmd h name args).1 = (newCmd' h name args).1) ->
  detectedBackendOf exec_LookPath lookPath newCmd tr
  = detectedBackendOf exec_LookPath lookPath newCmd' tr
  /\ DetectBackend exec_LookPath unicodeToLower lookPath newCmd specifiedBackend tr
     = DetectBackend exec_LookPath unicodeToLower lookPath newCmd' specifiedBackend tr.
Proof.
  intros H.
  assert (Hd : detectedBackendOf exec_LookPath lookPath newCmd tr
               = detectedBackendOf exec_LookPath lookPath newCmd' tr).
  { unfold detectedBackendOf. io_unfold.
    destruct (findBestBinary exec_LookPath lookPath 6%N "legacy" "save" tr)
      as [[ip6|m6] tr1]; [|reflexivity].
    destruct (findBestBinary exec_LookPath lookPath 4%N "legacy" "save" tr1)
      as [[ip4|m4] tr2]; [|reflexivity].
    pose proof (H tr2 ip6 []) as E6.
    destruct (newCmd tr2 ip6 []) as [o6 e6], (newCmd' tr2 ip6 []) as [o6' e6'].
    simpl in E6. subst o6'.
    pose proof (H (tr2 ++ [EvOutput ip6 []]) ip4 []) as E4.
    destruct (newCmd (tr2 ++ [EvOutput ip6 []]) ip4 []) as [o4 e4],
             (newCmd' (tr2 ++ [EvOutput ip6 []]) ip4 []) as [o4' e4'].
    simpl in E4. subst o4'. simpl.
    destruct (countRulesInIptableOutput o6 + countRulesInIptableOutput o4 >=? 10);
      [reflexivity|].
    destruct (findBestBinary exec_LookPath lookPath 6%N "nft" "save" _)
      as [[ip6n|m6n] tr5]; [|reflexivity].
    destruct (findBestBinary exec_LookPath lookPath 4%N "nft" "save" tr5)
      as [[ip4n|m4n] tr6]; [|reflexivity].
    pose proof (H tr6 ip6n []) as E6n.
    destruct (newCmd tr6 ip6n []) as [o6n e6n], (newCmd' tr6 ip6n []) as [o6n' e6n'].
    simpl in E6n. subst o6n'.
    match goal with
    | |- context [newCmd ?h ip4n []] =>
        pose proof (H h ip4n []) as E4n;
        destruct (newCmd h ip4n []) as [o4n e4n], (newCmd' h ip4n []) as [o4n' e4n']
    end.
    simpl in E4n. subst o4n'. reflexivity. }
  split; [exact Hd|].
  unfold DetectBackend, mbind, IO_bind. rewrite Hd. reflexivity.
Qed.

Lemma detection_ignores_command_errors_witness :
  DetectBackend (Sample.pathTable []) Sample.unicodeToLower (Some Sample.allBinaries)
    Host.cmd3vs7Failing "auto" []
  = (Returned "nft", Sample.trace3vs7).
Proof.
  destruct (detection_ignores_command_errors (Sample.pathTable []) Sample.unicodeToLower
              (Some Sample.allBinaries) Host.cmd3vs7Failing Sample.cmd3vs7 "auto" []
              ltac:(intros h name args; reflexivity)) as [_ E].
  rewrite E. vm_compute. reflexivity.
Defined.

(** X16. The backend that the detection settles on is "legacy" or "nft", and so
    is what [DetectBackend] returns for a preference that selects
    automatic detection; for any preference, what [DetectBackend] returns
    is the lower-case form of the preference or one of these two. *)
Theorem detected_backend_is_legacy_or_nft
    (exec_LookPath : lookPathFunc) (unicodeToLower : string -> string)
    (lookPath : option lookPathFunc) (newCmd : cmdFactory)
    (specifiedBackend : string) (tr tr' : list Event) (r : string) :
  DetectBackend exec_LookPath unicodeToLower lookPath newCmd specifiedBackend tr
  = (Returned r, tr') ->
  (exists det tr1,
      detectedBackendOf exec_LookPath lookPath newCmd tr = (Returned det, tr1)
      /\ (det = "legacy" \/ det = "nft"))
  /\ (r = ToLower unicodeToLower specifiedBackend \/ r = "legacy" \/ r = "nft")
  /\ (ToLower unicodeToLower specifiedBackend = "auto" -> r = "legacy" \/ r = "nft").
Proof.
  intros Hr.
  destruct (detectedBackendOf exec_LookPath lookPath newCmd tr) as [[det|msg] tr1] eqn:Hd.
  2:{ unfold DetectBackend, mbind, IO_bind in Hr. rewrite Hd in Hr. discriminate. }
  assert (Hdet : det = "legacy" \/ det = "nft").
  { revert Hd. unfold detectedBackendOf. io_unfold.
    destruct (findBestBinary exec_LookPath lookPath 6%N "legacy" "save" tr)
      as [[ip6|m6] h1]; [|discriminate].
    destruct (findBestBinary exec_LookPath lookPath 4%N "legacy" "save" h1)
      as [[ip4|m4] h2]; [|discriminate].
    destruct (newCmd h2 ip6 []) as [o6 e6].
    destruct (newCmd (h2 ++ [EvOutput ip6 []]) ip4 []) as [o4 e4]. simpl.
    destruct (countRulesInIptableOutput o6 + countRulesInIptableOutput o4 >=? 10).
    { intros E; inversion E. left; reflexivity. }
    destruct (findBestBinary exec_LookPath lookPath 6%N "nft" "save" _)
      as [[ip6n|m6n] h5]; [|discriminate].
    destruct (findBestBinary exec_LookPath lookPath 4%N "nft" "save" h5)
      as [[ip4n|m4n] h6]; [|discriminate].
    destruct (newCmd h6 ip6n []) as [o6n e6n].
    destruct (newCmd _ ip4n []) as [o4n e4n]. simpl.
    destruct (_ >=? _); intros E; inversion E; [left|right]; reflexivity. }
  rewrite (DetectBackend_eq _ _ _ _ _ _ _ _ Hd) in Hr.
  split; [exists det, tr1; split; [reflexivity|exact Hdet]|].
  destruct (decide (ToLower unicodeToLower specifiedBackend = "auto")) as [Ea|Na];
    inversion Hr; subst.
  - split; [right; exact Hdet|]. intros _. exact Hdet.
  - split; [left; reflexivity|]. intros Ea. contradiction.
Qed.

Lemma detected_backend_is_legacy_or_nft_witness :
  DetectBackend (Sample.pathTable []) Sample.unicodeToLower (Some Sample.allBinaries)
    Sample.cmd3vs7 "AUTO" [] = (Returned "nft", Sample.trace3vs7)
  /\ ToLower Sample.unicodeToLower "AUTO" = "auto"
  /\ ("nft" = "legacy" \/ "nft" = "nft").
Proof.
  assert (E : DetectBackend (Sample.pathTable []) Sample.unicodeToLower
                (Some Sample.allBinaries) Sample.cmd3vs7 "AUTO" []
              = (Returned "nft", Sample.trace3vs7)) by (vm_compute; reflexivity).
  split; [exact E|]. split; [reflexivity|].
  destruct (detected_backend_is_legacy_or_nft (Sample.pathTable []) Sample.unicodeToLower
              (Some Sample.allBinaries) Sample.cmd3vs7 "AUTO" [] Sample.trace3vs7 "nft" E)
    as (_ & _ & H).
  apply H. reflexivity.
Defined.

Lemma resolvedAt_later (exec_LookPath : lookPathFunc) (lookPath : option lookPathFunc)
    (tr tr1 tr2 : list Event) (c : string) :
  tr1 `prefix_of` tr2 ->
  resolvedAt exec_LookPath lookPath tr tr1 c -> resolvedAt exec_LookPath lookPath tr tr2 c.
Proof.
  intros H12 (h & H1 & H2 & H3). exists h.
  split; [exact H1|]. split; [|exact H3]. etrans; eassumption.
Qed.

Lemma resolvedAt_earlier (exec_LookPath : lookPathFunc) (lookPath : option lookPathFunc)
    (tr0 tr tr1 : list Event) (c : string) :
  tr0 `prefix_of` tr ->
  resolvedAt exec_LookPath lookPath tr tr1 c -> resolvedAt exec_LookPath lookPath tr0 tr1 c.
Proof.
  intros H0 (h & H1 & H2 & H3). exists h.
  split; [etrans; eassumption|]. split; assumption.
Qed.

Lemma find_any (exec_LookPath : lookPathFunc) (lookPath : option lookPathFunc)
    (ipVersion : N) (backendMode : string) (tr tr1 : list Event) (o : Outcome string) :
  findBestBinary exec_LookPath lookPath ipVersion backendMode "save" tr = (o, tr1) ->
  exists evs,
    tr1 = tr ++ evs
    /\ List.filter isOutput evs = []
    /\ forall c, o = Returned c -> resolvedAt exec_LookPath lookPath tr tr1 c.
Proof.
  rewrite findBestBinary_eq.
  destruct (resolverOf exec_LookPath lookPath tr _).2 as [e1|] eqn:E1.
  - destruct (resolverOf exec_LookPath lookPath (tr ++ _) _).2 as [e2|] eqn:E2;
      intros H; inversion H; subst; eexists; (split; [reflexivity|]);
      (split; [reflexivity|]); intros c Hc; inversion Hc; subst.
    exists (tr ++ [EvLookPath (specificName ipVersion backendMode "save")]).
    split; [apply prefix_app_r; reflexivity|]. split; [|exact E2].
    rewrite <- app_assoc. reflexivity.
  - intros H; inversion H; subst. eexists. split; [reflexivity|].
    split; [reflexivity|]. intros c Hc; inversion Hc; subst.
    exists tr. split; [reflexivity|]. split; [reflexivity|exact E1].
Qed.

Lemma not_output_in (evs : list Event) (name : string) (args : list string) :
  List.filter isOutput evs = [] -> EvOutput name args ∉ evs.
Proof.
  induction evs as [|e l IH]; simpl; intros H; [apply not_elem_of_nil|].
  rewrite not_elem_of_cons.
  destruct e; simpl in H; try discriminate H; (split; [discriminate|exact (IH H)]).
Qed.

Lemma detectedBackendOf_runs
    (exec_LookPath : lookPathFunc) (lookPath : option lookPathFunc) (newCmd : cmdFactory)
    (tr : list Event) :
  exists evs,
    traceAfter (detectedBackendOf exec_LookPath lookPath newCmd) tr = tr ++ evs
    /\ (length (List.filter isOutput evs) <= 4)%nat
    /\ forall name args,
         EvOutput name args ∈ evs ->
         args = []
         /\ resolvedAt exec_LookPath lookPath tr
              (traceAfter (detectedBackendOf exec_LookPath lookPath newCmd) tr) name.
Proof.
  unfold traceAfter, detectedBackendOf. io_unfold.
  destruct (findBestBinary exec_LookPath lookPath 6%N "legacy" "save" tr)
    as [o6 tr1] eqn:F6.
  destruct (find_any _ _ _ _ _ _ _ F6) as (e6 & -> & O6 & R6).
  destruct o6 as [ip6|m6]; simpl.
  2:{ exists e6. split; [reflexivity|]. split; [rewrite O6; simpl; lia|].
      intros name args Hin. exfalso. exact (not_output_in _ _ _ O6 Hin). }
  specialize (R6 ip6 eq_refl).
  destruct (findBestBinary exec_LookPath lookPath 4%N "legacy" "save" (tr ++ e6))
    as [o4 tr2] eqn:F4.
  destruct (find_any _ _ _ _ _ _ _ F4) as (e4 & -> & O4 & R4).
  destruct o4 as [ip4|m4]; simpl.
  2:{ exists (e6 ++ e4). split; [rewrite app_assoc; reflexivity|].
      split; [rewrite List.filter_app, O6, O4; simpl; lia|].
      intros name args Hin. exfalso. apply elem_of_app in Hin as [Hin|Hin];
        [exact (not_output_in _ _ _ O6 Hin)|exact (not_output_in _ _ _ O4 Hin)]. }
  specialize (R4 ip4 eq_refl).
  apply (resolvedAt_earlier _ _ tr) in R4; [|apply prefix_app_r; reflexivity].
  apply (resolvedAt_later _ _ _ _ ((tr ++ e6) ++ e4)) in R6;
    [|apply prefix_app_r; reflexivity].
  set (tr2 := (tr ++ e6) ++ e4) in *.
  destruct (newCmd tr2 ip6 []) as [out6 x6].
  destruct (newCmd (tr2 ++ [EvOutput ip6 []]) ip4 []) as [out4 x4]. simpl.
  set (legacyEvents := [EvOutput ip6 []; EvOutput ip4 [];
                        EvLog DebugLevel "Ip6tables legacy save out";
                        EvLog DebugLevel "Iptables legacy save out"]).
  assert (Hleg : forall name args tail,
            EvOutput name args ∈ legacyEvents ->
            args = [] /\ resolvedAt exec_LookPath lookPath tr (tr2 ++ tail) name).
  { intros name args tail Hin. unfold legacyEvents in Hin.
    rewrite !elem_of_cons, elem_of_nil in Hin.
    destruct Hin as [Hin|[Hin|[Hin|[Hin|[]]]]]; inversion Hin; subst;
      (split; [reflexivity|]);
      eapply resolvedAt_later; try eassumption; apply prefix_app_r; reflexivity. }
  destruct (countRulesInIptableOutput out6 + countRulesInIptableOutput out4 >=? 10).
  { simpl. exists (e6 ++ e4 ++ legacyEvents ++ [EvLog DebugLevel "Detected Iptables backend"]).
    split; [unfold tr2, legacyEvents; trace_norm; reflexivity|].
    split; [rewrite !List.filter_app, O6, O4; simpl; lia|].
    intros name args Hin.
    rewrite !elem_of_app in Hin. destruct Hin as [Hin|[Hin|[Hin|Hin]]].
    - exfalso. exact (not_output_in _ _ _ O6 Hin).
    - exfalso. exact (not_output_in _ _ _ O4 Hin).
    - destruct (Hleg name args
                  (legacyEvents ++ [EvLog DebugLevel "Detected Iptables backend"]) Hin)
        as [Ha Hres].
      split; [exact Ha|]. revert Hres. unfold legacyEvents. trace_norm. tauto.
    - rewrite elem_of_cons, elem_of_nil in Hin. destruct Hin as [Hin|[]]. discriminate Hin. }
  match goal with
  | |- context [findBestBinary _ _ 6%N "nft" "save" ?h] => set (tr4 := h) in *
  end.
  assert (E4 : tr4 = tr2 ++ legacyEvents) by (unfold tr4, legacyEvents; trace_norm; reflexivity).
  clearbody tr4.
  destruct (findBestBinary exec_LookPath lookPath 6%N "nft" "save" tr4)
    as [o6n tr5] eqn:F6n.
  destruct (find_any _ _ _ _ _ _ _ F6n) as (e6n & -> & O6n & R6n).
  destruct o6n as [ip6n|m6n]; simpl.
  2:{ exists (e6 ++ e4 ++ legacyEvents ++ e6n).
      split; [rewrite E4; unfold tr2; repeat rewrite <- app_assoc; reflexivity|].
      split; [rewrite !List.filter_app, O6, O4, O6n; simpl; lia|].
      intros name args Hin.
      rewrite !elem_of_app in Hin. destruct Hin as [Hin|[Hin|[Hin|Hin]]].
      - exfalso. exact (not_output_in _ _ _ O6 Hin).
      - exfalso. exact (not_output_in _ _ _ O4 Hin).
      - destruct (Hleg name args (legacyEvents ++ e6n) Hin) as [Ha Hres].
        split; [exact Ha|]. rewrite E4, <- app_assoc. exact Hres.
      - exfalso. exact (not_output_in _ _ _ O6n Hin). }
  specialize (R6n ip6n eq_refl).
  destruct (findBestBinary exec_LookPath lookPath 4%N "nft" "save" (tr4 ++ e6n))
    as [o4n tr6] eqn:F4n.
  destruct (find_any _ _ _ _ _ _ _ F4n) as (e4n & -> & O4n & R4n).
  destruct o4n as [ip4n|m4n]; simpl.
  2:{ exists (e6 ++ e4 ++ legacyEvents ++ e6n ++ e4n).
      split; [rewrite E4; unfold tr2; repeat rewrite <- app_assoc; reflexivity|].
      split; [rewrite !List.filter_app, O6, O4, O6n, O4n; simpl; lia|].
      intros name args Hin.
      rewrite !elem_of_app in Hin. destruct Hin as [Hin|[Hin|[Hin|[Hin|Hin]]]].
      - exfalso. exact (not_output_in _ _ _ O6 Hin).
      - exfalso. exact (not_output_in _ _ _ O4 Hin).
      - destruct (Hleg name args (legacyEvents ++ e6n ++ e4n) Hin) as [Ha Hres].
        split; [exact Ha|]. rewrite E4. repeat rewrite <- app_assoc. exact Hres.
      - exfalso. exact (not_output_in _ _ _ O6n Hin).
      - exfalso. exact (not_output_in _ _ _ O4n Hin). }
  specialize (R4n ip4n eq_refl).
  assert (P4 : tr `prefix_of` tr4).
  { rewrite E4. unfold tr2. repeat rewrite <- app_assoc. apply prefix_app_r. reflexivity. }
  apply (resolvedAt_earlier _ _ tr) in R6n; [|exact P4].
  apply (resolvedAt_earlier _ _ tr) in R4n;
    [|etrans; [exact P4|apply prefix_app_r; reflexivity]].
  apply (resolvedAt_later _ _ _ _ ((tr4 ++ e6n) ++ e4n)) in R6n;
    [|apply prefix_app_r; reflexivity].
  set (tr6 := (tr4 ++ e6n) ++ e4n) in *.
  destruct (newCmd tr6 ip6n []) as [out6n x6n].
  destruct (newCmd _ ip4n []) as [out4n x4n]. simpl.
  set (nftEvents := [EvOutput ip6n []; EvLog DebugLevel "Ip6tables save out";
                     EvOutput ip4n []; EvLog DebugLevel "Iptables save out";
                     EvLog DebugLevel "Detected Iptables backend"]).
  assert (Hfinal : forall det : string,
            snd ((Returned det, tr6 ++ nftEvents) : Outcome string * list Event)
            = tr6 ++ nftEvents) by reflexivity.
  assert (Hgoal : exists evs,
            tr6 ++ nftEvents = tr ++ evs
            /\ (length (List.filter isOutput evs) <= 4)%nat
            /\ forall name args,
                 EvOutput name args ∈ evs ->
                 args = [] /\ resolvedAt exec_LookPath lookPath tr (tr6 ++ nftEvents) name).
  { exists (e6 ++ e4 ++ legacyEvents ++ e6n ++ e4n ++ nftEvents).
    split; [unfold tr6; rewrite E4; unfold tr2; repeat rewrite <- app_assoc; reflexivity|].
    split; [rewrite !List.filter_app, O6, O4, O6n, O4n; simpl; lia|].
    intros name args Hin.
    rewrite !elem_of_app in Hin. destruct Hin as [Hin|[Hin|[Hin|[Hin|[Hin|Hin]]]]].
    - exfalso. exact (not_output_in _ _ _ O6 Hin).
    - exfalso. exact (not_output_in _ _ _ O4 Hin).
    - destruct (Hleg name args (legacyEvents ++ e6n ++ e4n ++ nftEvents) Hin) as [Ha Hres].
      split; [exact Ha|]. unfold tr6. rewrite E4. repeat rewrite <- app_assoc. exact Hres.
    - exfalso. exact (not_output_in _ _ _ O6n Hin).
    - exfalso. exact (not_output_in _ _ _ O4n Hin).
    - unfold nftEvents in Hin. rewrite !elem_of_cons, elem_of_nil in Hin.
      destruct Hin as [Hin|[Hin|[Hin|[Hin|[Hin|[]]]]]]; inversion Hin; subst;
        (split; [reflexivity|]);
        eapply resolvedAt_later; try eassumption; apply prefix_app_r; reflexivity. }
  destruct (_ >=? _); simpl; revert Hgoal; unfold nftEvents; trace_norm; tauto.
Qed.

Lemma DetectBackend_trace
    (exec_LookPath : lookPathFunc) (unicodeToLower : string -> string)
    (lookPath : option lookPathFunc) (newCmd : cmdFactory)
    (specifiedBackend : string) (tr : list Event) :
  exists tail,
    traceAfter (DetectBackend exec_LookPath unicodeToLower lookPath newCmd specifiedBackend) tr
    = traceAfter (detectedBackendOf exec_LookPath lookPath newCmd) tr ++ tail
    /\ (tail = [] \/ tail = [mismatchWarning]).
Proof.
  unfold traceAfter.
  destruct (detectedBackendOf exec_LookPath lookPath newCmd tr) as [[det|msg] tr1] eqn:Hd.
  - rewrite (DetectBackend_eq _ _ _ _ _ _ _ _ Hd). simpl.
    destruct (decide (ToLower unicodeToLower specifiedBackend = "auto")); simpl.
    + exists []. rewrite app_nil_r. tauto.
    + destruct (decide (ToLower unicodeToLower specifiedBackend = det)).
      * exists []. rewrite app_nil_r. tauto.
      * exists [mismatchWarning]. tauto.
  - unfold DetectBackend, mbind, IO_bind. rewrite Hd. simpl.
    exists []. rewrite app_nil_r. tauto.
Qed.

(** X17. Whatever the resolver and the commands do, and whether it returns or
    panics, [DetectBackend] runs at most four commands, each without
    arguments, and each under a name that the resolver had found earlier
    in the same call: it never runs a binary that was not looked up and
    found. *)
Theorem only_resolved_binaries_are_run
    (exec_LookPath : lookPathFunc) (unicodeToLower : string -> string)
    (lookPath : option lookPathFunc) (newCmd : cmdFactory)
    (specifiedBackend : string) (tr : list Event) :
  exists evs,
    traceAfter (DetectBackend exec_LookPath unicodeToLower lookPath newCmd specifiedBackend) tr
    = tr ++ evs
    /\ (length (List.filter isOutput evs) <= 4)%nat
    /\ forall name args,
         EvOutput name args ∈ evs ->
         args = []
         /\ resolvedAt exec_LookPath lookPath tr
              (traceAfter (DetectBackend exec_LookPath unicodeToLower lookPath newCmd
                             specifiedBackend) tr) name.
Proof.
  destruct (DetectBackend_trace exec_LookPath unicodeToLower lookPath newCmd
              specifiedBackend tr) as (tail & Et & Htail).
  destruct (detectedBackendOf_runs exec_LookPath lookPath newCmd tr)
    as (evs & Ed & Hlen & Hruns).
  rewrite Et, Ed.
  assert (Ho : List.filter isOutput tail = []) by (destruct Htail as [-> | ->]; reflexivity).
  exists (evs ++ tail). split; [rewrite app_assoc; reflexivity|].
  split; [rewrite List.filter_app, Ho, app_nil_r; exact Hlen|].
  intros name args Hin. apply elem_of_app in Hin as [Hin|Hin].
  - destruct (Hruns name args Hin) as [Ha Hres]. split; [exact Ha|].
    rewrite Ed in Hres. eapply resolvedAt_later; [|exact Hres].
    apply prefix_app_r. reflexivity.
  - exfalso. exact (not_output_in _ _ _ Ho Hin).
Qed.

Lemma only_resolved_binaries_are_run_witness :
  resolvedAt (Sample.pathTable []) (Some Sample.allBinaries) []
    (traceAfter (DetectBackend (Sample.pathTable []) Sample.unicodeToLower
                   (Some Sample.allBinaries) Sample.cmd3vs7 "legacy") [])
    "iptables-nft-save".
Proof.
  destruct (only_resolved_binaries_are_run (Sample.pathTable []) Sample.unicodeToLower
              (Some Sample.allBinaries) Sample.cmd3vs7 "legacy" [])
    as (evs & E & _ & H).
  apply (H "iptables-nft-save" []).
  assert (E' : traceAfter (DetectBackend (Sample.pathTable []) Sample.unicodeToLower
                             (Some Sample.allBinaries) Sample.cmd3vs7 "legacy") []
               = Sample.trace3vs7 ++ [mismatchWarning]) by (vm_compute; reflexivity).
  rewrite E' in E. simpl in E. subst evs.
  unfold Sample.trace3vs7. rewrite !elem_of_cons. tauto.
Defined.
